(** * Exen Protocol: credit scoring, lending decisions and loan execution

    A shallow embedding of [credit_scorecard.py], [credit_decision.py] and
    [credit_approval.py], with the properties of the lending pipeline stated
    and proved over it.

    Conventions of the embedding.
    - [decimal.Decimal] is a pair of an integer coefficient and an exponent,
      with the arithmetic of Python's default context: 28 significant digits,
      rounding half to even.  Only finite numbers are modelled (no NaN, no
      infinities, no exponent limits).
    - [datetime] values are integers counting the microseconds after
      [datetime.min].  A method receives what it reads from the clock as an
      argument.  [create_loan_account] reads the clock twice and takes the
      two readings, and its date arithmetic raises [OverflowError] outside
      the range of the dates.  The other methods take one instant [now],
      also where the clock is read more than once within the call
      ([deposit_collateral] for the lock date and for the timestamp of the
      deposit, [complete_loan_setup] through the methods it calls,
      [generate_credit_score] for the age and for the timestamp of the
      report): the statements of the claims and of the further properties
      relate no two dates of one such call.  The lock date of a deposit is
      computed without the check of the range.
    - A method of a class takes the instance state as an argument and
      returns the new state next to its result.  A Python exception is the
      [Raise] result of type [outcome].
    - Logging is not modelled. *)

From stdpp Require Import gmap strings list fin_maps pretty.
From Stdlib Require Import ZArith Lia.

Local Open Scope Z_scope.

(** ** Results of calls that may raise *)

Inductive exn : Type :=
  | AttributeError (attr : string)
  | KeyError (key : string)
  | DivisionByZero
  | InvalidOperation
  | OverflowError.

Inductive outcome (A : Type) : Type :=
  | Ret (a : A)
  | Raise (e : exn).
Arguments Ret {A} a.
Arguments Raise {A} e.

Definition obind {A B : Type} (m : outcome A) (k : A -> outcome B) : outcome B :=
  match m with
  | Ret a => k a
  | Raise e => Raise e
  end.

Notation "'do' x <- m ; k" := (obind m (fun x => k))
  (at level 10, x name, m at level 100, k at level 200).

(** ** Decimal arithmetic *)

Module Decimal.

(** The number [coef * 10 ^ expo]. *)
Record t : Type := mk { coef : Z; expo : Z }.

(** [getcontext().prec] *)
Definition prec : Z := 28.

Fixpoint ndigits_aux (fuel : nat) (n : Z) : Z :=
  match fuel with
  | O => 1
  | S fuel' => if n <? 10 then 1 else 1 + ndigits_aux fuel' (n / 10)
  end.

(** Number of decimal digits of the coefficient: [len(self._int)]. *)
Definition ndigits (n : Z) : Z :=
  ndigits_aux (Z.to_nat (Z.log2 (Z.abs n))) (Z.abs n).

(** Quotient [n / d] rounded to the nearest integer, ties to the even
    one ([ROUND_HALF_EVEN]); [d] is positive. *)
Definition div_half_even (n d : Z) : Z :=
  let q := n / d in
  let r := n mod d in
  if 2 * r <? d then q
  else if d <? 2 * r then q + 1
  else if Z.even q then q else q + 1.

(** Rounding to [p] significant digits. *)
Definition round_to (p : Z) (a : t) : t :=
  let d := ndigits (coef a) in
  if d <=? p then a
  else
    let k := d - p in
    let q := div_half_even (coef a) (10 ^ k) in
    if ndigits q <=? p then mk q (expo a + k)
    else mk (q / 10) (expo a + k + 1).

(** [Decimal._fix]: round to the precision of the context. *)
Definition fix_ (a : t) : t := round_to prec a.

Definition of_Z (n : Z) : t := mk n 0.
Definition zero : t := of_Z 0.

Definition neg (a : t) : t := mk (- coef a) (expo a).

Definition add (a b : t) : t :=
  let m := Z.min (expo a) (expo b) in
  fix_ (mk (coef a * 10 ^ (expo a - m) + coef b * 10 ^ (expo b - m)) m).

Definition sub (a b : t) : t := add a (neg b).

Definition mul (a b : t) : t :=
  fix_ (mk (coef a * coef b) (expo a + expo b)).

(** [a ** 2]: the square is formed with three more digits of working
    precision and then rounded to the context, as CPython's [decimal]
    does for an integer power; the square of zero is [Decimal(0)]. *)
Definition pow2 (a : t) : t :=
  if coef a =? 0 then mk 0 0
  else fix_ (round_to (prec + 3) (mk (coef a * coef a) (expo a + expo a))).

Fixpoint strip_zeros (fuel : nat) (c e : Z) : Z * Z :=
  match fuel with
  | O => (c, e)
  | S fuel' =>
      if c mod 10 =? 0 then strip_zeros fuel' (c / 10) (e + 1) else (c, e)
  end.

(** [Decimal.__truediv__] for a divisor different from zero.  A zero
    divisor raises in Python; the callers below test for it where the
    source lets a zero through. *)
Definition div (a b : t) : t :=
  if coef a =? 0 then fix_ (mk 0 (expo a - expo b))
  else
    let sign := Z.sgn (coef a) * Z.sgn (coef b) in
    let x := Z.abs (coef a) in
    let y := Z.abs (coef b) in
    let shift := ndigits y - ndigits x + prec + 1 in
    let e := expo a - expo b - shift in
    let '(q, r) :=
      if 0 <=? shift then (x * 10 ^ shift / y, (x * 10 ^ shift) mod y)
      else (x / (y * 10 ^ (- shift)), x mod (y * 10 ^ (- shift))) in
    let '(c, e') :=
      if r =? 0 then strip_zeros (Z.to_nat (expo a - expo b - e)) q e
      else (if q mod 5 =? 0 then q + 1 else q, e) in
    fix_ (mk (sign * c) e').

(** [Decimal.sqrt] of a number that is not negative (the caller tests
    the sign, as the source does). *)
Definition sqrt (a : t) : t :=
  if coef a <=? 0 then mk 0 (expo a / 2)
  else
    let p := prec + 1 in
    let e := expo a / 2 in
    let c := if Z.odd (expo a) then coef a * 10 else coef a in
    let l := if Z.odd (expo a) then ndigits (coef a) / 2 + 1
             else (ndigits (coef a) + 1) / 2 in
    let shift := p - l in
    let c' := if 0 <=? shift then c * 100 ^ shift else c / 100 ^ (- shift) in
    let exact0 := if 0 <=? shift then true else c mod 100 ^ (- shift) =? 0 in
    let e' := e - shift in
    let n := Z.sqrt c' in
    let exact := exact0 && (n * n =? c') in
    if exact then
      fix_ (mk (if 0 <=? shift then n / 10 ^ shift else n * 10 ^ (- shift)) e)
    else
      fix_ (mk (if n mod 5 =? 0 then n + 1 else n) e').

(** [a.quantize(Decimal(1).scaleb(e))]: the number rounded (half to even)
    to exponent [e]; Python raises [InvalidOperation] when the result
    needs more digits than the precision. *)
Definition quantize (e : Z) (a : t) : option t :=
  let c := if e <=? expo a then coef a * 10 ^ (expo a - e)
           else div_half_even (coef a) (10 ^ (e - expo a)) in
  if (c =? 0) || (ndigits c <=? prec) then Some (mk c e) else None.

(** Comparison is by value, whatever the exponents. *)
Definition cmp (a b : t) : comparison :=
  let m := Z.min (expo a) (expo b) in
  (coef a * 10 ^ (expo a - m)) ?= (coef b * 10 ^ (expo b - m)).

Definition eqb (a b : t) : bool :=
  match cmp a b with Eq => true | _ => false end.
Definition ltb (a b : t) : bool :=
  match cmp a b with Lt => true | _ => false end.
Definition leb (a b : t) : bool :=
  match cmp a b with Gt => false | _ => true end.
Definition gtb (a b : t) : bool := ltb b a.
Definition geb (a b : t) : bool := leb b a.

(** The builtins [min(a, b)] and [max(a, b)]: the first argument wins a tie. *)
Definition min (a b : t) : t := if ltb b a then b else a.
Definition max (a b : t) : t := if ltb a b then b else a.

(** [sum(xs)], which starts from the integer [0]. *)
Definition sum (xs : list t) : t := fold_left add xs zero.

End Decimal.

Abbreviation dec := Decimal.t.
Abbreviation D := Decimal.of_Z.

(** [Decimal('c.d')] literals: coefficient and number of fractional digits. *)
Definition Dlit (c : Z) (frac : Z) : dec := Decimal.mk c (- frac).

(** ** Dates *)

(** A [datetime], in microseconds after [datetime.min], the first instant
    of the year 1. *)
Definition datetime : Type := Z.

Definition microseconds_per_day : Z := 86400000000.

(** [timedelta(days=n)] *)
Definition timedelta_days (n : Z) : Z := n * microseconds_per_day.

(** [datetime.max], the last microsecond of the year 9999: day 3652059. *)
Definition datetime_max : datetime := 3652059 * microseconds_per_day - 1.

(** [timedelta.max.days] *)
Definition timedelta_max_days : Z := 999999999.

(** [t + timedelta(days=n)].  The constructor of [timedelta] raises
    [OverflowError] for more than 999999999 days in either direction, and
    the addition raises it for a date outside the years 1 to 9999. *)
Definition add_days (t : datetime) (n : Z) : outcome datetime :=
  if (n <? - timedelta_max_days) || (timedelta_max_days <? n) then Raise OverflowError
  else
    let r := t + timedelta_days n in
    if (r <? 0) || (datetime_max <? r) then Raise OverflowError else Ret r.

(** [(later - earlier).days]: a [timedelta] is normalised with its seconds
    and microseconds not negative, so [days] is the floor. *)
Definition days_between (later earlier : datetime) : Z :=
  (later - earlier) / microseconds_per_day.

(** * credit_approval.py *)

Module Approval.

Inductive TransactionStatus : Type :=
  | PENDING
  | IN_PROGRESS
  | COLLATERAL_LOCKED
  | FUNDS_DISBURSED
  | COMPLETED
  | FAILED
  | CANCELLED.

Inductive EscrowStatus : Type :=
  | EMPTY
  | LOCKED
  | LIQUIDATION_IN_PROGRESS
  | RELEASED.

#[global] Instance TransactionStatus_eq_dec : EqDecision TransactionStatus.
Proof. solve_decision. Defined.

#[global] Instance EscrowStatus_eq_dec : EqDecision EscrowStatus.
Proof. solve_decision. Defined.

(** A [CollateralDeposit] object is shared: the loan, the vault's
    dictionary and the list [collateral_deposits] all point to the same
    object.  Objects live in a store and are named by their index. *)
Definition ref : Type := nat.

Record CollateralDeposit : Type := {
  deposit_id : string;
  dep_loan_id : string;
  dep_wallet_address : string;
  exen_amount : dec;
  exen_price : dec;
  collateral_value_usd : dec;
  deposit_timestamp : datetime;
  dep_status : EscrowStatus;
  locked_until : datetime;
  health_factor : dec
}.

Record FundsTransfer : Type := {
  transfer_id : string;
  tr_loan_id : string;
  from_address : string;
  to_address : string;
  amount_usd : dec;
  transfer_timestamp : datetime;
  tr_status : TransactionStatus;
  block_hash : option string;
  tx_hash : option string
}.

Record LoanAccount : Type := {
  loan_id : string;
  wallet_address : string;
  loan_amount_usd : dec;
  interest_rate : dec;
  collateral_amount_exen : dec;
  collateral_price_usd : dec;
  ltv_ratio : dec;
  repayment_period_days : Z;
  origination_timestamp : datetime;
  repayment_due_date : datetime;
  status : TransactionStatus;
  collateral_deposit : option ref;
  funds_transfer : option FundsTransfer;
  borrowed_amount_received : dec;
  repaid_amount : dec;
  accrued_interest : dec
}.

Record EscrowAccount : Type := {
  vault_id : string;
  location : string;
  total_collateral_locked : dec;
  deposits : gmap string ref;
  vault_status : EscrowStatus
}.

(** The instance state of [LoanFundsTransferSystem]; [objs] is the store
    of the deposit objects. *)
Record LoanFundsTransferSystem : Type := {
  loan_accounts : gmap string LoanAccount;
  escrow_vault : EscrowAccount;
  fund_transfers : list FundsTransfer;
  collateral_deposits : list ref;
  transaction_counter : nat;
  loan_counter : nat;
  lending_pool_balance : dec;
  lending_pool_address : string;
  objs : list CollateralDeposit
}.

(** *** Field assignments *)

Definition set_dep_status (d : CollateralDeposit) (st : EscrowStatus) : CollateralDeposit :=
  {| deposit_id := deposit_id d; dep_loan_id := dep_loan_id d;
     dep_wallet_address := dep_wallet_address d; exen_amount := exen_amount d;
     exen_price := exen_price d; collateral_value_usd := collateral_value_usd d;
     deposit_timestamp := deposit_timestamp d; dep_status := st;
     locked_until := locked_until d; health_factor := health_factor d |}.

Definition set_tx_hash (t : FundsTransfer) (h : string) (st : TransactionStatus) : FundsTransfer :=
  {| transfer_id := transfer_id t; tr_loan_id := tr_loan_id t;
     from_address := from_address t; to_address := to_address t;
     amount_usd := amount_usd t; transfer_timestamp := transfer_timestamp t;
     tr_status := st; block_hash := block_hash t; tx_hash := Some h |}.

Definition set_status (l : LoanAccount) (st : TransactionStatus) : LoanAccount :=
  {| loan_id := loan_id l; wallet_address := wallet_address l;
     loan_amount_usd := loan_amount_usd l; interest_rate := interest_rate l;
     collateral_amount_exen := collateral_amount_exen l;
     collateral_price_usd := collateral_price_usd l; ltv_ratio := ltv_ratio l;
     repayment_period_days := repayment_period_days l;
     origination_timestamp := origination_timestamp l;
     repayment_due_date := repayment_due_date l; status := st;
     collateral_deposit := collateral_deposit l; funds_transfer := funds_transfer l;
     borrowed_amount_received := borrowed_amount_received l;
     repaid_amount := repaid_amount l; accrued_interest := accrued_interest l |}.

Definition set_collateral_deposit (l : LoanAccount) (r : ref) : LoanAccount :=
  {| loan_id := loan_id l; wallet_address := wallet_address l;
     loan_amount_usd := loan_amount_usd l; interest_rate := interest_rate l;
     collateral_amount_exen := collateral_amount_exen l;
     collateral_price_usd := collateral_price_usd l; ltv_ratio := ltv_ratio l;
     repayment_period_days := repayment_period_days l;
     origination_timestamp := origination_timestamp l;
     repayment_due_date := repayment_due_date l; status := status l;
     collateral_deposit := Some r; funds_transfer := funds_transfer l;
     borrowed_amount_received := borrowed_amount_received l;
     repaid_amount := repaid_amount l; accrued_interest := accrued_interest l |}.

Definition set_funds_transfer (l : LoanAccount) (received : dec) (t : FundsTransfer) : LoanAccount :=
  {| loan_id := loan_id l; wallet_address := wallet_address l;
     loan_amount_usd := loan_amount_usd l; interest_rate := interest_rate l;
     collateral_amount_exen := collateral_amount_exen l;
     collateral_price_usd := collateral_price_usd l; ltv_ratio := ltv_ratio l;
     repayment_period_days := repayment_period_days l;
     origination_timestamp := origination_timestamp l;
     repayment_due_date := repayment_due_date l; status := status l;
     collateral_deposit := collateral_deposit l; funds_transfer := Some t;
     borrowed_amount_received := received;
     repaid_amount := repaid_amount l; accrued_interest := accrued_interest l |}.

Definition set_repaid (l : LoanAccount) (repaid accrued : dec) : LoanAccount :=
  {| loan_id := loan_id l; wallet_address := wallet_address l;
     loan_amount_usd := loan_amount_usd l; interest_rate := interest_rate l;
     collateral_amount_exen := collateral_amount_exen l;
     collateral_price_usd := collateral_price_usd l; ltv_ratio := ltv_ratio l;
     repayment_period_days := repayment_period_days l;
     origination_timestamp := origination_timestamp l;
     repayment_due_date := repayment_due_date l; status := status l;
     collateral_deposit := collateral_deposit l; funds_transfer := funds_transfer l;
     borrowed_amount_received := borrowed_amount_received l;
     repaid_amount := repaid; accrued_interest := accrued |}.

Definition set_loan_accounts (s : LoanFundsTransferSystem) (m : gmap string LoanAccount)
  : LoanFundsTransferSystem :=
  {| loan_accounts := m; escrow_vault := escrow_vault s;
     fund_transfers := fund_transfers s; collateral_deposits := collateral_deposits s;
     transaction_counter := transaction_counter s; loan_counter := loan_counter s;
     lending_pool_balance := lending_pool_balance s;
     lending_pool_address := lending_pool_address s; objs := objs s |}.

Definition set_escrow_vault (s : LoanFundsTransferSystem) (v : EscrowAccount)
  : LoanFundsTransferSystem :=
  {| loan_accounts := loan_accounts s; escrow_vault := v;
     fund_transfers := fund_transfers s; collateral_deposits := collateral_deposits s;
     transaction_counter := transaction_counter s; loan_counter := loan_counter s;
     lending_pool_balance := lending_pool_balance s;
     lending_pool_address := lending_pool_address s; objs := objs s |}.

Definition set_fund_transfers (s : LoanFundsTransferSystem) (l : list FundsTransfer)
  : LoanFundsTransferSystem :=
  {| loan_accounts := loan_accounts s; escrow_vault := escrow_vault s;
     fund_transfers := l; collateral_deposits := collateral_deposits s;
     transaction_counter := transaction_counter s; loan_counter := loan_counter s;
     lending_pool_balance := lending_pool_balance s;
     lending_pool_address := lending_pool_address s; objs := objs s |}.

Definition set_collateral_deposits (s : LoanFundsTransferSystem) (l : list ref)
  : LoanFundsTransferSystem :=
  {| loan_accounts := loan_accounts s; escrow_vault := escrow_vault s;
     fund_transfers := fund_transfers s; collateral_deposits := l;
     transaction_counter := transaction_counter s; loan_counter := loan_counter s;
     lending_pool_balance := lending_pool_balance s;
     lending_pool_address := lending_pool_address s; objs := objs s |}.

Definition set_transaction_counter (s : LoanFundsTransferSystem) (n : nat)
  : LoanFundsTransferSystem :=
  {| loan_accounts := loan_accounts s; escrow_vault := escrow_vault s;
     fund_transfers := fund_transfers s; collateral_deposits := collateral_deposits s;
     transaction_counter := n; loan_counter := loan_counter s;
     lending_pool_balance := lending_pool_balance s;
     lending_pool_address := lending_pool_address s; objs := objs s |}.

Definition set_loan_counter (s : LoanFundsTransferSystem) (n : nat)
  : LoanFundsTransferSystem :=
  {| loan_accounts := loan_accounts s; escrow_vault := escrow_vault s;
     fund_transfers := fund_transfers s; collateral_deposits := collateral_deposits s;
     transaction_counter := transaction_counter s; loan_counter := n;
     lending_pool_balance := lending_pool_balance s;
     lending_pool_address := lending_pool_address s; objs := objs s |}.

Definition set_lending_pool_balance (s : LoanFundsTransferSystem) (b : dec)
  : LoanFundsTransferSystem :=
  {| loan_accounts := loan_accounts s; escrow_vault := escrow_vault s;
     fund_transfers := fund_transfers s; collateral_deposits := collateral_deposits s;
     transaction_counter := transaction_counter s; loan_counter := loan_counter s;
     lending_pool_balance := b;
     lending_pool_address := lending_pool_address s; objs := objs s |}.

Definition set_objs (s : LoanFundsTransferSystem) (h : list CollateralDeposit)
  : LoanFundsTransferSystem :=
  {| loan_accounts := loan_accounts s; escrow_vault := escrow_vault s;
     fund_transfers := fund_transfers s; collateral_deposits := collateral_deposits s;
     transaction_counter := transaction_counter s; loan_counter := loan_counter s;
     lending_pool_balance := lending_pool_balance s;
     lending_pool_address := lending_pool_address s; objs := h |}.

(** *** Attribute access

    [_generate_tx_hash] reads an attribute of a [FundsTransfer] by name.
    The attributes of an instance of the dataclass are its declared fields;
    any other name raises [AttributeError]. *)

Inductive pyval : Type :=
  | PStr (s : string)
  | PDec (d : dec)
  | PTime (t : datetime)
  | PStatus (st : TransactionStatus)
  | PNone.

Definition of_optional_str (o : option string) : pyval :=
  match o with
  | Some s => PStr s
  | None => PNone
  end.

Definition FundsTransfer_getattr (t : FundsTransfer) (name : string) : outcome pyval :=
  if String.eqb name "transfer_id" then Ret (PStr (transfer_id t))
  else if String.eqb name "loan_id" then Ret (PStr (tr_loan_id t))
  else if String.eqb name "from_address" then Ret (PStr (from_address t))
  else if String.eqb name "to_address" then Ret (PStr (to_address t))
  else if String.eqb name "amount_usd" then Ret (PDec (amount_usd t))
  else if String.eqb name "transfer_timestamp" then Ret (PTime (transfer_timestamp t))
  else if String.eqb name "status" then Ret (PStatus (tr_status t))
  else if String.eqb name "block_hash" then Ret (of_optional_str (block_hash t))
  else if String.eqb name "tx_hash" then Ret (of_optional_str (tx_hash t))
  else Raise (AttributeError name).

(** *** The methods of [LoanFundsTransferSystem] *)

(** [__init__] *)
Definition init : LoanFundsTransferSystem :=
  {| loan_accounts := ∅;
     escrow_vault :=
       {| vault_id := "EXEN_ESCROW_001"; location := "escrow_vault";
          total_collateral_locked := D 0; deposits := ∅; vault_status := EMPTY |};
     fund_transfers := [];
     collateral_deposits := [];
     transaction_counter := 0;
     loan_counter := 0;
     lending_pool_balance := D 100000;
     lending_pool_address := "EXEN_LENDING_POOL_ADDRESS";
     objs := [] |}.

(** The method reads the clock twice: [now_due] is the instant from which
    the due date is counted and [now], read later, is the origination
    timestamp.  The due date is computed after the counter has advanced,
    and a date out of range leaves the call there with [OverflowError]. *)
Definition create_loan_account (self : LoanFundsTransferSystem)
    (wallet : string) (amount rate collateral_amount collateral_price ltv : dec)
    (repayment_days : Z) (now_due now : datetime)
    : outcome LoanAccount * LoanFundsTransferSystem :=
  let self := set_loan_counter self (S (loan_counter self)) in
  let id := "LOAN_" +:+ pretty (loan_counter self) in
  match add_days now_due repayment_days with
  | Raise e => (Raise e, self)
  | Ret repayment_due =>
      let loan :=
        {| loan_id := id; wallet_address := wallet; loan_amount_usd := amount;
           interest_rate := rate; collateral_amount_exen := collateral_amount;
           collateral_price_usd := collateral_price; ltv_ratio := ltv;
           repayment_period_days := repayment_days; origination_timestamp := now;
           repayment_due_date := repayment_due; status := PENDING;
           collateral_deposit := None; funds_transfer := None;
           borrowed_amount_received := D 0; repaid_amount := D 0;
           accrued_interest := D 0 |} in
      (Ret loan, set_loan_accounts self (<[id := loan]> (loan_accounts self)))
  end.

(** The result is the reference of the new deposit object, or [None]. *)
Definition deposit_collateral (self : LoanFundsTransferSystem)
    (id : string) (amount current_price : dec) (now : datetime)
    : option ref * LoanFundsTransferSystem :=
  match loan_accounts self !! id with
  | None => (None, self)
  | Some loan =>
      if negb (Decimal.eqb amount (collateral_amount_exen loan)) then (None, self)
      else
        let collateral_value := Decimal.mul amount current_price in
        let dep_id := "DEPOSIT_" +:+ pretty (transaction_counter self) in
        let self := set_transaction_counter self (S (transaction_counter self)) in
        let until := now + timedelta_days (repayment_period_days loan + 30) in
        let deposit :=
          {| deposit_id := dep_id; dep_loan_id := id;
             dep_wallet_address := wallet_address loan; exen_amount := amount;
             exen_price := current_price; collateral_value_usd := collateral_value;
             deposit_timestamp := now; dep_status := LOCKED;
             locked_until := until; health_factor := Dlit 15 1 |} in
        let r := length (objs self) in
        let self := set_objs self (objs self ++ [deposit]) in
        let vault := escrow_vault self in
        let self := set_escrow_vault self
          {| vault_id := vault_id vault; location := location vault;
             total_collateral_locked :=
               Decimal.add (total_collateral_locked vault) collateral_value;
             deposits := <[dep_id := r]> (deposits vault);
             vault_status := LOCKED |} in
        let loan := set_status (set_collateral_deposit loan r) COLLATERAL_LOCKED in
        let self := set_loan_accounts self (<[id := loan]> (loan_accounts self)) in
        let self := set_collateral_deposits self (collateral_deposits self ++ [r]) in
        (Some r, self)
  end.

(** A state is not changed; the division raises when the principal is zero. *)
Definition verify_collateral_health (self : LoanFundsTransferSystem)
    (id : string) (current_exen_price : dec) : outcome (bool * dec) :=
  match loan_accounts self !! id with
  | None => Ret (false, D 0)
  | Some loan =>
      match collateral_deposit loan with
      | None => Ret (false, D 0)
      | Some _ =>
          let current_collateral_value :=
            Decimal.mul (collateral_amount_exen loan) current_exen_price in
          if Decimal.eqb (loan_amount_usd loan) (D 0) then
            Raise (if Decimal.eqb current_collateral_value (D 0)
                   then InvalidOperation else DivisionByZero)
          else
            let hf := Decimal.div current_collateral_value (loan_amount_usd loan) in
            Ret (Decimal.geb hf (Dlit 10 1), hf)
      end
  end.

(** [loan.loan_amount_usd * (loan.interest_rate / 100) * (days / 365)] *)
Definition accrued_interest_at (loan : LoanAccount) (now : datetime) : dec :=
  let days_outstanding := days_between now (origination_timestamp loan) in
  Decimal.mul
    (Decimal.mul (loan_amount_usd loan) (Decimal.div (interest_rate loan) (D 100)))
    (Decimal.div (D days_outstanding) (D 365)).

Definition total_owed (loan : LoanAccount) (now : datetime) : dec :=
  Decimal.add (loan_amount_usd loan) (accrued_interest_at loan now).

(** [deposit.status = RELEASED] followed by the decrement of the vault's
    total, through the reference held by the loan. *)
Definition release_collateral (self : LoanFundsTransferSystem) (r : ref)
    : LoanFundsTransferSystem :=
  match objs self !! r with
  | None => self
  | Some deposit =>
      let self := set_objs self (<[r := set_dep_status deposit RELEASED]> (objs self)) in
      let vault := escrow_vault self in
      set_escrow_vault self
        {| vault_id := vault_id vault; location := location vault;
           total_collateral_locked :=
             Decimal.sub (total_collateral_locked vault) (collateral_value_usd deposit);
           deposits := deposits vault;
           vault_status := vault_status vault |}
  end.

Definition process_repayment (self : LoanFundsTransferSystem)
    (id : string) (repayment_amount_usd : dec) (from : string) (now : datetime)
    : bool * LoanFundsTransferSystem :=
  match loan_accounts self !! id with
  | None => (false, self)
  | Some loan =>
      let accrued := accrued_interest_at loan now in
      if Decimal.ltb repayment_amount_usd (total_owed loan now) then (false, self)
      else
        let loan := set_repaid loan repayment_amount_usd accrued in
        let self := set_loan_accounts self (<[id := loan]> (loan_accounts self)) in
        let self :=
          match collateral_deposit loan with
          | Some r => release_collateral self r
          | None => self
          end in
        let self := set_lending_pool_balance self
          (Decimal.add (lending_pool_balance self) repayment_amount_usd) in
        (true, self)
  end.

(** The messages of [complete_loan_setup]. *)
Inductive setup_message : Type :=
  | Failed_to_deposit_collateral
  | Collateral_health_check_failed (health_factor : dec)
  | Failed_to_disburse_funds
  | Loan_approved_and_funded (id : string).

Section Hashing.

(** [hashlib.sha256(data).hexdigest()] and [datetime.isoformat] come from
    the standard library of Python. *)
Variable sha256_hexdigest : string -> string.
Variable isoformat : datetime -> string.

(** [f"{transfer.transfer_id}{transfer.timestamp.isoformat()}"], hashed. *)
Definition _generate_tx_hash (transfer : FundsTransfer) : outcome string :=
  do id <- FundsTransfer_getattr transfer "transfer_id";
  do ts <- FundsTransfer_getattr transfer "timestamp";
  match id, ts with
  | PStr id, PTime ts => Ret (sha256_hexdigest (id +:+ isoformat ts))
  | _, _ => Raise (AttributeError "isoformat")
  end.

Definition disburse_funds (self : LoanFundsTransferSystem) (id : string)
    (now : datetime) : outcome (option FundsTransfer) * LoanFundsTransferSystem :=
  match loan_accounts self !! id with
  | None => (Ret None, self)
  | Some loan =>
      if negb (bool_decide (status loan = COLLATERAL_LOCKED)) then (Ret None, self)
      else if Decimal.ltb (lending_pool_balance self) (loan_amount_usd loan)
      then (Ret None, self)
      else
        let tr_id := "TRANSFER_" +:+ pretty (transaction_counter self) in
        let self := set_transaction_counter self (S (transaction_counter self)) in
        let transfer :=
          {| transfer_id := tr_id; tr_loan_id := id;
             from_address := lending_pool_address self;
             to_address := wallet_address loan; amount_usd := loan_amount_usd loan;
             transfer_timestamp := now; tr_status := IN_PROGRESS;
             block_hash := None; tx_hash := None |} in
        match _generate_tx_hash transfer with
        | Raise e => (Raise e, self)
        | Ret h =>
            let transfer := set_tx_hash transfer h FUNDS_DISBURSED in
            let self := set_lending_pool_balance self
              (Decimal.sub (lending_pool_balance self) (loan_amount_usd loan)) in
            let loan :=
              set_status (set_funds_transfer loan (loan_amount_usd loan) transfer)
                FUNDS_DISBURSED in
            let self := set_loan_accounts self (<[id := loan]> (loan_accounts self)) in
            let self := set_fund_transfers self (fund_transfers self ++ [transfer]) in
            (Ret (Some transfer), self)
        end
  end.

Definition complete_loan_setup (self : LoanFundsTransferSystem) (id : string)
    (amount current_exen_price : dec) (now : datetime)
    : outcome (bool * setup_message) * LoanFundsTransferSystem :=
  match deposit_collateral self id amount current_exen_price now with
  | (None, self) => (Ret (false, Failed_to_deposit_collateral), self)
  | (Some _, self) =>
      match verify_collateral_health self id current_exen_price with
      | Raise e => (Raise e, self)
      | Ret (false, hf) => (Ret (false, Collateral_health_check_failed hf), self)
      | Ret (true, _) =>
          match disburse_funds self id now with
          | (Raise e, self) => (Raise e, self)
          | (Ret None, self) => (Ret (false, Failed_to_disburse_funds), self)
          | (Ret (Some _), self) =>
              match loan_accounts self !! id with
              | None => (Raise (KeyError id), self)
              | Some loan =>
                  let loan := set_status loan COMPLETED in
                  (Ret (true, Loan_approved_and_funded id),
                   set_loan_accounts self (<[id := loan]> (loan_accounts self)))
              end
          end
      end
  end.

End Hashing.

(** *** Reading the vault *)

(** The deposits of the vault whose status is [LOCKED], as in
    [get_escrow_status]. *)
Definition locked_deposits (self : LoanFundsTransferSystem) : list CollateralDeposit :=
  filter (fun d => dep_status d = LOCKED)
    (omap (fun kr => objs self !! kr.2) (map_to_list (deposits (escrow_vault self)))).

(** Sum of the USD values of the deposits currently locked. *)
Definition locked_value (self : LoanFundsTransferSystem) : dec :=
  Decimal.sum (map collateral_value_usd (locked_deposits self)).

(** *** The queries

    The queries return dictionaries of strings.  The keys are the fields of
    the records below; a number or a date is kept as it is instead of its
    rendering by [str] or [isoformat]. *)

(** [status.value] *)
Definition TransactionStatus_value (st : TransactionStatus) : string :=
  match st with
  | PENDING => "pending"
  | IN_PROGRESS => "in_progress"
  | COLLATERAL_LOCKED => "collateral_locked"
  | FUNDS_DISBURSED => "funds_disbursed"
  | COMPLETED => "completed"
  | FAILED => "failed"
  | CANCELLED => "cancelled"
  end.

Definition EscrowStatus_value (st : EscrowStatus) : string :=
  match st with
  | EMPTY => "empty"
  | LOCKED => "locked"
  | LIQUIDATION_IN_PROGRESS => "liquidation_in_progress"
  | RELEASED => "released"
  end.

Record LoanDetails : Type := {
  details_loan_id : string;
  details_status : string;
  details_borrower : string;
  details_loan_amount : dec;
  details_interest_rate : dec;
  details_collateral_amount : dec;
  details_collateral_value : dec;
  details_ltv_ratio : dec;
  details_originated : datetime;
  details_due_date : datetime;
  details_borrowed_received : dec;
  details_repaid : dec;
  details_accrued_interest : dec
}.

Definition get_loan_details (self : LoanFundsTransferSystem) (id : string)
    : option LoanDetails :=
  match loan_accounts self !! id with
  | None => None
  | Some loan =>
      Some {| details_loan_id := loan_id loan;
              details_status := TransactionStatus_value (status loan);
              details_borrower := wallet_address loan;
              details_loan_amount := loan_amount_usd loan;
              details_interest_rate := interest_rate loan;
              details_collateral_amount := collateral_amount_exen loan;
              details_collateral_value :=
                Decimal.mul (collateral_amount_exen loan) (collateral_price_usd loan);
              details_ltv_ratio := ltv_ratio loan;
              details_originated := origination_timestamp loan;
              details_due_date := repayment_due_date loan;
              details_borrowed_received := borrowed_amount_received loan;
              details_repaid := repaid_amount loan;
              details_accrued_interest := accrued_interest loan |}
  end.

(** An entry of ["deposits"] in the result of [get_escrow_status]. *)
Record DepositEntry : Type := {
  entry_loan_id : string;
  entry_exen_amount : dec;
  entry_value_usd : dec;
  entry_status : string;
  entry_locked_until : datetime
}.

Record EscrowReport : Type := {
  report_vault_id : string;
  report_status : string;
  report_total_collateral_locked : dec;
  report_active_deposits : nat;
  report_deposits : gmap string DepositEntry
}.

Definition entry_of (d : CollateralDeposit) : DepositEntry :=
  {| entry_loan_id := dep_loan_id d; entry_exen_amount := exen_amount d;
     entry_value_usd := collateral_value_usd d;
     entry_status := EscrowStatus_value (dep_status d);
     entry_locked_until := locked_until d |}.

Definition get_escrow_status (self : LoanFundsTransferSystem) : EscrowReport :=
  {| report_vault_id := vault_id (escrow_vault self);
     report_status := EscrowStatus_value (vault_status (escrow_vault self));
     report_total_collateral_locked := total_collateral_locked (escrow_vault self);
     report_active_deposits := length (locked_deposits self);
     report_deposits :=
       omap (fun r => entry_of <$> objs self !! r) (deposits (escrow_vault self)) |}.

Record PoolStatus : Type := {
  pool_lending_pool_balance : dec;
  pool_total_disbursed : dec;
  pool_active_loans : nat;
  pool_completed_loans : nat;
  pool_transfers_processed : nat
}.

Definition get_pool_status (self : LoanFundsTransferSystem) : PoolStatus :=
  {| pool_lending_pool_balance := lending_pool_balance self;
     pool_total_disbursed :=
       Decimal.sum
         (map amount_usd
            (filter (fun t => tr_status t = FUNDS_DISBURSED) (fund_transfers self)));
     pool_active_loans :=
       length (filter (fun kl => status kl.2 <> COMPLETED)
                 (map_to_list (loan_accounts self)));
     pool_completed_loans :=
       length (filter (fun kl => status kl.2 = COMPLETED)
                 (map_to_list (loan_accounts self)));
     pool_transfers_processed := length (fund_transfers self) |}.

End Approval.

(** * credit_decision.py *)

Module Decision.

Inductive DecisionStatus : Type :=
  | APPROVED
  | CONDITIONAL_APPROVAL
  | DENIED
  | PENDING_REVIEW.

Inductive RiskLevel : Type :=
  | MINIMAL
  | LOW
  | MODERATE
  | HIGH
  | VERY_HIGH.

#[global] Instance DecisionStatus_eq_dec : EqDecision DecisionStatus.
Proof. solve_decision. Defined.

Record LoanRequest : Type := {
  request_id : string;
  wallet_address : string;
  collateral_amount : dec;
  borrow_amount_usd : dec;
  collateral_token_price : dec;
  credit_score : dec;
  credit_rating : string;
  total_inflow : dec;
  total_outflow : dec;
  net_flow : dec;
  current_balance : dec;
  transaction_success_rate : dec;
  transaction_count : Z;
  average_inflow : dec;
  requested_at : datetime
}.

Record RiskAssessment : Type := {
  collateral_risk : dec;
  credit_risk : dec;
  liquidity_risk : dec;
  behavioral_risk : dec;
  overall_risk_score : dec;
  risk_level : RiskLevel;
  key_risk_factors : list string
}.

Record LoanTerms : Type := {
  loan_amount : dec;
  interest_rate : dec;
  ltv_ratio : dec;
  terms_collateral_required : dec;
  liquidation_threshold : dec;
  repayment_period_days : Z;
  monthly_payment : dec;
  total_interest : dec
}.

(** The reasons are f-strings over numbers; the numbers are kept as they
    are instead of their rendering. *)
Inductive text : Type :=
  | Text (s : string)
  | Credit_score_below_minimum (score minimum : dec)
  | Loan_amount_exceeds_maximum (maximum : dec)
  | Loan_amount_below_minimum (minimum : dec)
  | Overall_risk_score_exceeds_threshold (score : dec) (factors : list string).

Record LoanDecision : Type := {
  decision_id : string;
  dec_request_id : string;
  dec_wallet_address : string;
  status : DecisionStatus;
  decision_timestamp : datetime;
  risk_assessment : RiskAssessment;
  proposed_terms : option LoanTerms;
  approval_reason : string;
  denial_reason : option text;
  conditions : list string;
  collateral_required : dec;
  max_ltv : dec;
  confidence_score : dec;
  manual_review_required : bool;
  manual_review_reason : option string
}.

(** The instance state of [AutoDecisionEngine]. *)
Record AutoDecisionEngine : Type := {
  decisions : list LoanDecision;
  decision_counter : nat;
  base_ltv : dec;
  min_credit_score : dec;
  min_transactions : Z;
  min_success_rate : dec;
  max_loan_amount_usd : dec;
  min_loan_amount_usd : dec
}.

(** [__init__] *)
Definition init : AutoDecisionEngine :=
  {| decisions := []; decision_counter := 0; base_ltv := D 60;
     min_credit_score := D 400; min_transactions := 3;
     min_success_rate := D 80; max_loan_amount_usd := D 500000;
     min_loan_amount_usd := D 100 |}.

Definition set_decision_counter (self : AutoDecisionEngine) (n : nat) : AutoDecisionEngine :=
  {| decisions := decisions self; decision_counter := n; base_ltv := base_ltv self;
     min_credit_score := min_credit_score self;
     min_transactions := min_transactions self;
     min_success_rate := min_success_rate self;
     max_loan_amount_usd := max_loan_amount_usd self;
     min_loan_amount_usd := min_loan_amount_usd self |}.

Definition set_decisions (self : AutoDecisionEngine) (l : list LoanDecision) : AutoDecisionEngine :=
  {| decisions := l; decision_counter := decision_counter self;
     base_ltv := base_ltv self; min_credit_score := min_credit_score self;
     min_transactions := min_transactions self;
     min_success_rate := min_success_rate self;
     max_loan_amount_usd := max_loan_amount_usd self;
     min_loan_amount_usd := min_loan_amount_usd self |}.

Definition assess_collateral_risk (loan_request : LoanRequest) : dec :=
  let collateral_value :=
    Decimal.mul (collateral_amount loan_request) (collateral_token_price loan_request) in
  if Decimal.leb collateral_value (D 0) then D 100
  else
    let ltv :=
      Decimal.mul (Decimal.div (borrow_amount_usd loan_request) collateral_value) (D 100) in
    if Decimal.leb ltv (D 30) then D 5
    else if Decimal.leb ltv (D 50) then D 15
    else if Decimal.leb ltv (D 60) then D 25
    else if Decimal.leb ltv (D 75) then D 50
    else D 80.

Definition assess_credit_risk (loan_request : LoanRequest) : dec :=
  let score := credit_score loan_request in
  if Decimal.geb score (D 750) then D 5
  else if Decimal.geb score (D 650) then D 15
  else if Decimal.geb score (D 550) then D 30
  else if Decimal.geb score (D 450) then D 60
  else D 85.

Definition assess_liquidity_risk (loan_request : LoanRequest) : dec :=
  let cash_flow_ratio :=
    if Decimal.eqb (total_outflow loan_request) (D 0) then D 100
    else Decimal.div (current_balance loan_request) (total_outflow loan_request) in
  let estimated_monthly_outflow :=
    Decimal.mul (average_inflow loan_request) (Dlit 8 1) in
  let outflow_coverage :=
    if Decimal.eqb estimated_monthly_outflow (D 0) then D 100
    else Decimal.div (current_balance loan_request) estimated_monthly_outflow in
  if Decimal.geb outflow_coverage (D 6) then D 10
  else if Decimal.geb outflow_coverage (D 3) then D 20
  else if Decimal.geb outflow_coverage (D 1) then D 40
  else if Decimal.geb outflow_coverage (Dlit 5 1) then D 65
  else D 90.

Definition assess_behavioral_risk (loan_request : LoanRequest) : dec :=
  let risk := D 0 in
  let risk :=
    if transaction_count loan_request <? 5 then Decimal.add risk (D 20)
    else if transaction_count loan_request <? 20 then Decimal.add risk (D 10)
    else if transaction_count loan_request <? 50 then Decimal.add risk (D 5)
    else risk in
  let risk :=
    if Decimal.ltb (transaction_success_rate loan_request) (D 80)
    then Decimal.add risk (D 25)
    else if Decimal.ltb (transaction_success_rate loan_request) (D 95)
    then Decimal.add risk (D 10)
    else risk in
  let risk :=
    if Decimal.leb (net_flow loan_request) (D 0) then Decimal.add risk (D 30)
    else if Decimal.ltb (net_flow loan_request)
              (Decimal.mul (average_inflow loan_request) (Dlit 5 1))
    then Decimal.add risk (D 15)
    else risk in
  Decimal.min risk (D 100).

(** [quantize] raises [InvalidOperation] when the result does not fit. *)
Definition quantize (e : Z) (a : dec) : outcome dec :=
  match Decimal.quantize e a with
  | Some r => Ret r
  | None => Raise InvalidOperation
  end.

Definition level_of (overall_risk : dec) : RiskLevel :=
  if Decimal.leb overall_risk (D 15) then MINIMAL
  else if Decimal.leb overall_risk (D 30) then LOW
  else if Decimal.leb overall_risk (D 50) then MODERATE
  else if Decimal.leb overall_risk (D 75) then HIGH
  else VERY_HIGH.

Definition perform_risk_assessment (loan_request : LoanRequest) : outcome RiskAssessment :=
  let collateral := assess_collateral_risk loan_request in
  let credit := assess_credit_risk loan_request in
  let liquidity := assess_liquidity_risk loan_request in
  let behavioral := assess_behavioral_risk loan_request in
  let overall_risk :=
    Decimal.add
      (Decimal.add
         (Decimal.add (Decimal.mul collateral (Dlit 30 2))
                      (Decimal.mul credit (Dlit 35 2)))
         (Decimal.mul liquidity (Dlit 20 2)))
      (Decimal.mul behavioral (Dlit 15 2)) in
  do overall_risk <- quantize (-2) overall_risk;
  let key_factors :=
    (if Decimal.gtb collateral (D 50) then ["High collateral risk"] else [])
    ++ (if Decimal.gtb credit (D 50) then ["Poor credit history"] else [])
    ++ (if Decimal.gtb liquidity (D 50) then ["Low cash flow coverage"] else [])
    ++ (if Decimal.gtb behavioral (D 50) then ["Concerning transaction patterns"] else []) in
  Ret {| collateral_risk := collateral; credit_risk := credit;
         liquidity_risk := liquidity; behavioral_risk := behavioral;
         overall_risk_score := overall_risk;
         risk_level := level_of overall_risk;
         key_risk_factors := key_factors |}.

Definition calculate_loan_terms (self : AutoDecisionEngine)
    (loan_request : LoanRequest) (assessment : RiskAssessment) : outcome LoanTerms :=
  let collateral_value :=
    Decimal.mul (collateral_amount loan_request) (collateral_token_price loan_request) in
  let '(ltv, rate) :=
    match risk_level assessment with
    | MINIMAL => (base_ltv self, Dlit 80 1)
    | LOW => (base_ltv self, Dlit 100 1)
    | MODERATE => (Decimal.mul (base_ltv self) (Dlit 9 1), Dlit 120 1)
    | HIGH => (Decimal.mul (base_ltv self) (Dlit 7 1), Dlit 150 1)
    | VERY_HIGH => (Decimal.mul (base_ltv self) (Dlit 5 1), Dlit 180 1)
    end in
  let credit_score_factor :=
    Decimal.div (Decimal.sub (credit_score loan_request) (D 300)) (D 550) in
  let rate :=
    Decimal.mul rate (Decimal.sub (D 1) (Decimal.mul credit_score_factor (Dlit 4 1))) in
  let rate := Decimal.max rate (Dlit 50 1) in
  let rate := Decimal.min rate (Dlit 180 1) in
  let max_loan := Decimal.div (Decimal.mul collateral_value ltv) (D 100) in
  let amount := Decimal.min (borrow_amount_usd loan_request) max_loan in
  let repayment_days := 180 in
  let annual_interest := Decimal.div (Decimal.mul amount rate) (D 100) in
  let interest :=
    Decimal.div (Decimal.mul annual_interest (D repayment_days)) (D 365) in
  let payment := Decimal.div (Decimal.add amount interest) (D 6) in
  do q_amount <- quantize (-2) amount;
  do q_rate <- quantize (-2) rate;
  do q_ltv <- quantize (-2) ltv;
  do q_payment <- quantize (-2) payment;
  do q_interest <- quantize (-2) interest;
  Ret {| loan_amount := q_amount; interest_rate := q_rate; ltv_ratio := q_ltv;
         terms_collateral_required := collateral_amount loan_request;
         liquidation_threshold := Dlit 10 1;
         repayment_period_days := repayment_days;
         monthly_payment := q_payment; total_interest := q_interest |}.

(** A decision returned by one of the preliminary checks. *)
Definition preliminary (id : string) (loan_request : LoanRequest) (now : datetime)
    (st : DecisionStatus) (assessment : RiskAssessment) (denial : option text)
    (confidence : dec) (review : bool) (review_reason : option string) : LoanDecision :=
  {| decision_id := id; dec_request_id := request_id loan_request;
     dec_wallet_address := wallet_address loan_request; status := st;
     decision_timestamp := now; risk_assessment := assessment;
     proposed_terms := None; approval_reason := ""; denial_reason := denial;
     conditions := []; collateral_required := D 0; max_ltv := D 0;
     confidence_score := confidence; manual_review_required := review;
     manual_review_reason := review_reason |}.

Definition flat_assessment (credit behavioral overall : dec) (level : RiskLevel)
    (factors : list string) : RiskAssessment :=
  {| collateral_risk := D 0; credit_risk := credit; liquidity_risk := D 0;
     behavioral_risk := behavioral; overall_risk_score := overall;
     risk_level := level; key_risk_factors := factors |}.

Definition make_decision (self : AutoDecisionEngine) (loan_request : LoanRequest)
    (now : datetime) : outcome LoanDecision * AutoDecisionEngine :=
  let self := set_decision_counter self (S (decision_counter self)) in
  let id := "DECISION_" +:+ pretty (decision_counter self) in
  if Decimal.ltb (credit_score loan_request) (min_credit_score self) then
    (Ret (preliminary id loan_request now DENIED
            (flat_assessment (D 100) (D 0) (D 100) VERY_HIGH [])
            (Some (Credit_score_below_minimum (credit_score loan_request)
                     (min_credit_score self)))
            (D 99) false None), self)
  else if transaction_count loan_request <? min_transactions self then
    (Ret (preliminary id loan_request now PENDING_REVIEW
            (flat_assessment (D 0) (D 80) (D 80) HIGH
               ["Insufficient transaction history"])
            None (D 40) true
            (Some "Insufficient on-chain history for auto approval")), self)
  else if Decimal.gtb (borrow_amount_usd loan_request) (max_loan_amount_usd self) then
    (Ret (preliminary id loan_request now DENIED
            (flat_assessment (D 0) (D 0) (D 0) MINIMAL [])
            (Some (Loan_amount_exceeds_maximum (max_loan_amount_usd self)))
            (D 99) false None), self)
  else if Decimal.ltb (borrow_amount_usd loan_request) (min_loan_amount_usd self) then
    (Ret (preliminary id loan_request now DENIED
            (flat_assessment (D 0) (D 0) (D 0) MINIMAL [])
            (Some (Loan_amount_below_minimum (min_loan_amount_usd self)))
            (D 99) false None), self)
  else
    match perform_risk_assessment loan_request with
    | Raise e => (Raise e, self)
    | Ret assessment =>
        match calculate_loan_terms self loan_request assessment with
        | Raise e => (Raise e, self)
        | Ret loan_terms =>
            let score := overall_risk_score assessment in
            let '(st, reason, conds, confidence) :=
              if Decimal.leb score (D 15) then
                (APPROVED,
                 "Minimal risk profile. Excellent credit history and collateral coverage.",
                 [], D 95)
              else if Decimal.leb score (D 30) then
                (APPROVED,
                 "Low risk profile. Good credit score and adequate collateral.",
                 [], D 90)
              else if Decimal.leb score (D 50) then
                (CONDITIONAL_APPROVAL, "Moderate risk accepted with conditions.",
                 ["Higher interest rate applied"; "Reduced LTV ratio";
                  "Monthly collateral health check required"], D 75)
              else if Decimal.leb score (D 75) then (PENDING_REVIEW, "", [], D 45)
              else (DENIED, "", [], D 90) in
            let decision :=
              {| decision_id := id; dec_request_id := request_id loan_request;
                 dec_wallet_address := wallet_address loan_request; status := st;
                 decision_timestamp := now; risk_assessment := assessment;
                 proposed_terms :=
                   if bool_decide (st <> DENIED) then Some loan_terms else None;
                 approval_reason := reason;
                 denial_reason :=
                   if bool_decide (st <> DENIED) then Some (Text reason)
                   else Some (Overall_risk_score_exceeds_threshold score
                                (key_risk_factors assessment));
                 conditions := conds;
                 collateral_required := collateral_amount loan_request;
                 max_ltv := ltv_ratio loan_terms;
                 confidence_score := confidence;
                 manual_review_required := bool_decide (st = PENDING_REVIEW);
                 manual_review_reason := None |} in
            (Ret decision, set_decisions self (decisions self ++ [decision]))
        end
    end.

(** The integer entries of [get_decision_stats]; the three entries that are
    formatted from floats are left out. *)
Record DecisionStats : Type := {
  stats_total_decisions : nat;
  stats_approved : nat;
  stats_conditional_approval : nat;
  stats_denied : nat;
  stats_pending_review : nat
}.

Definition count_status (st : DecisionStatus) (l : list LoanDecision) : nat :=
  length (filter (fun d => status d = st) l).

Definition get_decision_stats (self : AutoDecisionEngine) : DecisionStats :=
  {| stats_total_decisions := length (decisions self);
     stats_approved := count_status APPROVED (decisions self);
     stats_conditional_approval :=
       count_status CONDITIONAL_APPROVAL (decisions self);
     stats_denied := count_status DENIED (decisions self);
     stats_pending_review := count_status PENDING_REVIEW (decisions self) |}.

End Decision.

(** * credit_scorecard.py *)

Module Scorecard.

Inductive CreditRating : Type :=
  | EXCELLENT
  | VERY_GOOD
  | GOOD
  | FAIR
  | POOR.

Inductive TransactionType : Type :=
  | INFLOW
  | OUTFLOW
  | INTERNAL.

#[global] Instance TransactionType_eq_dec : EqDecision TransactionType.
Proof. solve_decision. Defined.

Record Transaction : Type := {
  tx_hash : string;
  timestamp : datetime;
  amount : dec;
  transaction_type : TransactionType;
  counterparty : string;
  description : string;
  is_successful : bool
}.

Record WalletMetrics : Type := {
  total_inflow : dec;
  total_outflow : dec;
  net_flow : dec;
  inflow_count : Z;
  outflow_count : Z;
  avg_inflow : dec;
  avg_outflow : dec;
  transaction_count : Z;
  success_rate : dec;
  current_balance : dec
}.

Record CredibilityFactors : Type := {
  transaction_volume_score : dec;
  payment_consistency_score : dec;
  inflow_reliability_score : dec;
  balance_stability_score : dec;
  transaction_success_rate_score : dec;
  account_age_score : dec
}.

Record CreditScoreReport : Type := {
  wallet_address : string;
  credit_score : dec;
  credit_rating : CreditRating;
  borrow_limit_usd : dec;
  interest_rate_adjustment : dec;
  metrics : WalletMetrics;
  credibility_factors : CredibilityFactors;
  analysis_timestamp : datetime;
  recommendation : string
}.

(** An entry of the dictionary [self.wallets]. *)
Record WalletData : Type := {
  address : string;
  wallet_balance : dec;
  transactions : list Transaction;
  created_at : datetime
}.

(** The instance state of [SolanaWalletAnalyzer].  The attribute
    [_current_wallet] does not exist until [generate_credit_score] has
    assigned it. *)
Record SolanaWalletAnalyzer : Type := {
  wallets : gmap string WalletData;
  _current_wallet : option string;
  base_interest_rate : dec;
  max_interest_rate : dec
}.

(** [__init__] *)
Definition init : SolanaWalletAnalyzer :=
  {| wallets := ∅; _current_wallet := None;
     base_interest_rate := Dlit 80 1; max_interest_rate := Dlit 180 1 |}.

Definition set_wallets (self : SolanaWalletAnalyzer) (m : gmap string WalletData)
    : SolanaWalletAnalyzer :=
  {| wallets := m; _current_wallet := _current_wallet self;
     base_interest_rate := base_interest_rate self;
     max_interest_rate := max_interest_rate self |}.

Definition set_current_wallet (self : SolanaWalletAnalyzer) (a : string)
    : SolanaWalletAnalyzer :=
  {| wallets := wallets self; _current_wallet := Some a;
     base_interest_rate := base_interest_rate self;
     max_interest_rate := max_interest_rate self |}.

Definition add_wallet (self : SolanaWalletAnalyzer) (a : string) (balance : dec)
    (now : datetime) : SolanaWalletAnalyzer :=
  set_wallets self
    (<[a := {| address := a; wallet_balance := balance; transactions := [];
               created_at := now |}]> (wallets self)).

(** [TransactionType(transaction_type)], [None] for the [ValueError]. *)
Definition parse_transaction_type (s : string) : option TransactionType :=
  if String.eqb s "inflow" then Some INFLOW
  else if String.eqb s "outflow" then Some OUTFLOW
  else if String.eqb s "internal" then Some INTERNAL
  else None.

Definition add_transaction (self : SolanaWalletAnalyzer) (a : string)
    (hash : string) (time : datetime) (value : dec) (kind : string)
    (party : string) (descr : string) (successful : bool)
    : bool * SolanaWalletAnalyzer :=
  match wallets self !! a with
  | None => (false, self)
  | Some w =>
      match parse_transaction_type kind with
      | None => (false, self)
      | Some ty =>
          let transaction :=
            {| tx_hash := hash; timestamp := time; amount := value;
               transaction_type := ty; counterparty := party;
               description := descr; is_successful := successful |} in
          let w :=
            {| address := address w; wallet_balance := wallet_balance w;
               transactions := transactions w ++ [transaction];
               created_at := created_at w |} in
          (true, set_wallets self (<[a := w]> (wallets self)))
      end
  end.

(** [WalletMetrics()] *)
Definition default_metrics : WalletMetrics :=
  {| total_inflow := D 0; total_outflow := D 0; net_flow := D 0;
     inflow_count := 0; outflow_count := 0; avg_inflow := D 0;
     avg_outflow := D 0; transaction_count := 0; success_rate := D 100;
     current_balance := D 0 |}.

(** [[tx.amount for tx in txs if tx.transaction_type == ty]] *)
Definition amounts_of (ty : TransactionType) (txs : list Transaction) : list dec :=
  map amount (filter (fun tx => transaction_type tx = ty) txs).

(** The metrics of a wallet's record.  Where a list of flows is empty
    Python keeps the integer [0] of [sum] (and the float [0.0] of its
    average); they are the number zero here. *)
Definition metrics_of (w : WalletData) : WalletMetrics :=
  let txs := transactions w in
  match txs with
  | [] =>
      {| total_inflow := D 0; total_outflow := D 0; net_flow := D 0;
         inflow_count := 0; outflow_count := 0; avg_inflow := D 0;
         avg_outflow := D 0; transaction_count := 0; success_rate := D 100;
         current_balance := wallet_balance w |}
  | _ :: _ =>
      let inflows := amounts_of INFLOW txs in
      let outflows := amounts_of OUTFLOW txs in
      let t_in := Decimal.sum inflows in
      let t_out := Decimal.sum outflows in
      let n_in := Z.of_nat (length inflows) in
      let n_out := Z.of_nat (length outflows) in
      let successful :=
        Z.of_nat (length (filter (fun tx => is_successful tx = true) txs)) in
      {| total_inflow := t_in; total_outflow := t_out;
         net_flow := Decimal.sub t_in t_out;
         inflow_count := n_in; outflow_count := n_out;
         avg_inflow := Decimal.div t_in (D (Z.max n_in 1));
         avg_outflow := Decimal.div t_out (D (Z.max n_out 1));
         transaction_count := Z.of_nat (length txs);
         success_rate :=
           Decimal.mul (Decimal.div (D successful) (D (Z.of_nat (length txs)))) (D 100);
         current_balance := wallet_balance w |}
  end.

Definition _calculate_wallet_metrics (self : SolanaWalletAnalyzer) (a : string)
    : WalletMetrics :=
  match wallets self !! a with
  | None => default_metrics
  | Some w => metrics_of w
  end.

Definition _calculate_transaction_volume_score (m : WalletMetrics) : dec :=
  let total_volume := Decimal.add (total_inflow m) (total_outflow m) in
  if Decimal.ltb total_volume (D 100) then D 2
  else if Decimal.ltb total_volume (D 500) then D 5
  else if Decimal.ltb total_volume (D 1000) then D 10
  else if Decimal.ltb total_volume (D 5000) then D 15
  else D 20.

Definition _calculate_payment_consistency_score (m : WalletMetrics) : dec :=
  if transaction_count m <? 3 then D 2
  else if outflow_count m =? 0 then D 5
  else
    let consistency_ratio := Decimal.div (D (inflow_count m)) (D (outflow_count m)) in
    if Decimal.geb consistency_ratio (Dlit 15 1) then D 18
    else if Decimal.geb consistency_ratio (Dlit 10 1) then D 15
    else if Decimal.geb consistency_ratio (Dlit 7 1) then D 12
    else if Decimal.geb consistency_ratio (Dlit 5 1) then D 8
    else D 4.

(** The part of [_calculate_inflow_reliability_score] that follows the
    reading of the inflow amounts. *)
Definition reliability_of_inflows (m : WalletMetrics) (inflow_values : list dec) : dec :=
  if Z.of_nat (length inflow_values) <? 2 then D 10
  else
    let mean_inflow := avg_inflow m in
    let variance :=
      Decimal.div
        (Decimal.sum (map (fun x => Decimal.pow2 (Decimal.sub x mean_inflow)) inflow_values))
        (D (Z.of_nat (length inflow_values))) in
    if Decimal.eqb mean_inflow (D 0) then D 5
    else
      let cv :=
        if Decimal.gtb variance (D 0)
        then Decimal.div (Decimal.sqrt variance) mean_inflow
        else D 0 in
      if Decimal.ltb cv (Dlit 2 1) then D 18
      else if Decimal.ltb cv (Dlit 5 1) then D 15
      else if Decimal.ltb cv (Dlit 10 1) then D 12
      else D 8.

(** The inflow amounts are read from the wallet named by the instance
    attribute [_current_wallet], not from the argument. *)
Definition _calculate_inflow_reliability_score (self : SolanaWalletAnalyzer)
    (m : WalletMetrics) : outcome dec :=
  if Decimal.eqb (total_inflow m) (D 0) then Ret (D 2)
  else if inflow_count m <? 2 then Ret (D 5)
  else
    match _current_wallet self with
    | None => Raise (AttributeError "_current_wallet")
    | Some current =>
        match wallets self !! current with
        | None => Raise (KeyError current)
        | Some w => Ret (reliability_of_inflows m (amounts_of INFLOW (transactions w)))
        end
    end.

Definition _calculate_balance_stability_score (m : WalletMetrics) : dec :=
  if Decimal.leb (net_flow m) (D 0) then D 5
  else if Decimal.leb (current_balance m) (D 0) then D 2
  else
    let balance_ratio :=
      if Decimal.eqb (avg_outflow m) (D 0) then D 100
      else Decimal.div (current_balance m) (avg_outflow m) in
    if Decimal.geb balance_ratio (D 10) then D 20
    else if Decimal.geb balance_ratio (D 5) then D 16
    else if Decimal.geb balance_ratio (D 2) then D 12
    else if Decimal.geb balance_ratio (D 1) then D 8
    else D 4.

Definition _calculate_transaction_success_rate_score (m : WalletMetrics) : dec :=
  let rate := success_rate m in
  if Decimal.geb rate (D 98) then D 20
  else if Decimal.geb rate (D 95) then D 16
  else if Decimal.geb rate (D 90) then D 12
  else if Decimal.geb rate (D 80) then D 8
  else D 2.

Definition _calculate_account_age_score (self : SolanaWalletAnalyzer) (a : string)
    (now : datetime) : outcome dec :=
  match wallets self !! a with
  | None => Raise (KeyError a)
  | Some w =>
      let age_days := days_between now (created_at w) in
      Ret (if 365 <=? age_days then D 20
           else if 180 <=? age_days then D 15
           else if 90 <=? age_days then D 10
           else if 30 <=? age_days then D 5
           else D 2)
  end.

Definition quantize (e : Z) (a : dec) : outcome dec :=
  match Decimal.quantize e a with
  | Some r => Ret r
  | None => Raise InvalidOperation
  end.

(** The average of the five factors, scaled from 0-20 to 300-850, before
    it is quantized. *)
Definition scaled_score (f : CredibilityFactors) : dec :=
  let total_score :=
    Decimal.div
      (Decimal.add
         (Decimal.add
            (Decimal.add
               (Decimal.add (transaction_volume_score f) (payment_consistency_score f))
               (inflow_reliability_score f))
            (balance_stability_score f))
         (transaction_success_rate_score f))
      (D 5) in
  Decimal.add (D 300) (Decimal.mul (Decimal.div total_score (D 20)) (D 550)).

Definition rating_of (score : dec) : CreditRating :=
  if Decimal.geb score (D 750) then EXCELLENT
  else if Decimal.geb score (D 650) then VERY_GOOD
  else if Decimal.geb score (D 550) then GOOD
  else if Decimal.geb score (D 450) then FAIR
  else POOR.

(** [base_borrow_limit * (credit_score / Decimal(850))], before it is
    quantized. *)
Definition raw_borrow_limit (score : dec) : dec :=
  Decimal.mul (D 1000) (Decimal.div score (D 850)).

Definition rate_adjustment_of (rating : CreditRating) : dec :=
  match rating with
  | EXCELLENT => Dlit (-15) 1
  | VERY_GOOD => Dlit (-5) 1
  | GOOD => Dlit 0 1
  | FAIR => Dlit 20 1
  | POOR => Dlit 50 1
  end.

Definition recommendation_of (rating : CreditRating) : string :=
  match rating with
  | EXCELLENT =>
      "Excellent on-chain history. Eligible for maximum borrowing at favorable rates."
  | VERY_GOOD =>
      "Very good on-chain behavior. Eligible for substantial borrowing with competitive rates."
  | GOOD => "Good transaction history. Standard borrowing rates apply."
  | FAIR => "Fair on-chain activity. Limited borrowing available at higher rates."
  | POOR =>
      "Poor transaction history. Not recommended for lending at this time. Build more on-chain activity."
  end.

Definition generate_credit_score (self : SolanaWalletAnalyzer) (a : string)
    (now : datetime) : outcome (option CreditScoreReport) * SolanaWalletAnalyzer :=
  match wallets self !! a with
  | None => (Ret None, self)
  | Some _ =>
      let self := set_current_wallet self a in
      let m := _calculate_wallet_metrics self a in
      (do reliability <- _calculate_inflow_reliability_score self m;
       do age <- _calculate_account_age_score self a now;
       let factors :=
         {| transaction_volume_score := _calculate_transaction_volume_score m;
            payment_consistency_score := _calculate_payment_consistency_score m;
            inflow_reliability_score := reliability;
            balance_stability_score := _calculate_balance_stability_score m;
            transaction_success_rate_score := _calculate_transaction_success_rate_score m;
            account_age_score := age |} in
       do score <- quantize 0 (scaled_score factors);
       let rating := rating_of score in
       do borrow_limit <- quantize 0 (raw_borrow_limit score);
       Ret (Some
              {| wallet_address := a; credit_score := score; credit_rating := rating;
                 borrow_limit_usd := borrow_limit;
                 interest_rate_adjustment := rate_adjustment_of rating;
                 metrics := m; credibility_factors := factors;
                 analysis_timestamp := now;
                 recommendation := recommendation_of rating |}),
       self)
  end.

End Scorecard.

(** * Notions used by the statements below *)



(** The inflow reliability factor as a function of the metrics and of the
    inflow amounts that the method reads from the instance. *)
Definition reliability_score (m : Scorecard.WalletMetrics) (inflow_values : list dec) : dec :=
  if Decimal.eqb (Scorecard.total_inflow m) (D 0) then D 2
  else if Scorecard.inflow_count m <? 2 then D 5
  else Scorecard.reliability_of_inflows m inflow_values.

(** The five factors of a wallet's record that enter the score. *)
Definition five_factors (w : Scorecard.WalletData) : list dec :=
  let m := Scorecard.metrics_of w in
  [ Scorecard._calculate_transaction_volume_score m;
    Scorecard._calculate_payment_consistency_score m;
    reliability_score m (Scorecard.amounts_of Scorecard.INFLOW (Scorecard.transactions w));
    Scorecard._calculate_balance_stability_score m;
    Scorecard._calculate_transaction_success_rate_score m ].

(** [300 + (sum / 5) / 20 * 550] is [(30000 + 550 * sum) / 100]; the
    credit score is this quotient rounded to an integer, ties to even. *)
Definition score_number (sum : Z) : Z :=
  Decimal.div_half_even (30000 + 550 * sum) 100.

(** [1000 * (score / 850)] rounded to an integer, ties to even. *)
Definition limit_number (score : Z) : Z :=
  Decimal.div_half_even (1000 * score) 850.

Definition factors_of_numbers (v c r b t : Z) (age : dec) : Scorecard.CredibilityFactors :=
  {| Scorecard.transaction_volume_score := D v;
     Scorecard.payment_consistency_score := D c;
     Scorecard.inflow_reliability_score := D r;
     Scorecard.balance_stability_score := D b;
     Scorecard.transaction_success_rate_score := D t;
     Scorecard.account_age_score := age |}.

(** The values that each factor can take, in the order of the source. *)
Definition volume_values : list Z := [2; 5; 10; 15; 20].
Definition consistency_values : list Z := [2; 5; 18; 15; 12; 8; 4].
Definition reliability_values : list Z := [2; 5; 10; 18; 15; 12; 8].
Definition stability_values : list Z := [5; 2; 20; 16; 12; 8; 4].
Definition success_values : list Z := [20; 16; 12; 8; 2].

Definition is_dec (o : option dec) (d : dec) : bool :=
  match o with
  | Some x => (Decimal.coef x =? Decimal.coef d) && (Decimal.expo x =? Decimal.expo d)
  | None => false
  end.

(** Five factors added as [generate_credit_score] adds them. *)
Definition add5 (v c r b t : dec) : dec :=
  Decimal.add (Decimal.add (Decimal.add (Decimal.add v c) r) b) t.

Definition sum_of_factors (f : Scorecard.CredibilityFactors) : dec :=
  add5 (Scorecard.transaction_volume_score f) (Scorecard.payment_consistency_score f)
       (Scorecard.inflow_reliability_score f) (Scorecard.balance_stability_score f)
       (Scorecard.transaction_success_rate_score f).

(** The scaling of [generate_credit_score], from the sum on. *)
Definition scaled_of_sum (sum : dec) : dec :=
  Decimal.add (D 300)
    (Decimal.mul (Decimal.div (Decimal.div sum (D 5)) (D 20)) (D 550)).

(** For one choice of the five factors: their decimal sum is the sum of
    the numbers, between 10 and 96. *)
Abbreviation sum_agrees v c r b t :=
  (is_dec (Some (add5 (D v) (D c) (D r) (D b) (D t))) (D (v + c + r + b + t))
   && (10 <=? v + c + r + b + t) && (v + c + r + b + t <=? 96)).

(** [f] holds for every choice of five numbers from the five lists. *)
Definition all5 (f : Z -> Z -> Z -> Z -> Z -> bool) (l1 l2 l3 l4 l5 : list Z) : bool :=
  forallb (fun v => forallb (fun c => forallb (fun r => forallb (fun b =>
    forallb (fun t => f v c r b t) l5) l4) l3) l2) l1.

(** For one sum: both calls of [quantize] return, the score is
    [score_number] of the sum and lies in 300..850, and the borrow limit
    is [limit_number] of the score. *)
Abbreviation score_agrees sum :=
  (is_dec (Decimal.quantize 0 (scaled_of_sum (D sum))) (D (score_number sum))
   && (300 <=? score_number sum) && (score_number sum <=? 850)
   && is_dec (Decimal.quantize 0 (Scorecard.raw_borrow_limit (D (score_number sum))))
             (D (limit_number (score_number sum)))).

(** The report of [generate_credit_score], when the call returns one. *)
Definition scored (self : Scorecard.SolanaWalletAnalyzer) (a : string) (now : datetime)
    : option Scorecard.CreditScoreReport :=
  match (Scorecard.generate_credit_score self a now).1 with
  | Ret (Some report) => Some report
  | _ => None
  end.

(** ** Runs of the loan ledger *)

(** A call of one of the five methods that change the ledger. *)
Inductive call : Type :=
  | Create (wallet : string) (amount rate collateral_amount collateral_price ltv : dec)
      (days : Z) (now_due now : datetime)
  | Deposit (id : string) (amount price : dec) (now : datetime)
  | Disburse (id : string) (now : datetime)
  | Setup (id : string) (amount price : dec) (now : datetime)
  | Repay (id : string) (amount : dec) (from : string) (now : datetime).

(** The state that a call leaves, whether it returns or raises. *)
Definition step (sha256_hexdigest : string -> string) (isoformat : datetime -> string)
    (c : call) (self : Approval.LoanFundsTransferSystem)
    : Approval.LoanFundsTransferSystem :=
  match c with
  | Create wallet amount rate collateral_amount collateral_price ltv days now_due now =>
      (Approval.create_loan_account self wallet amount rate collateral_amount
         collateral_price ltv days now_due now).2
  | Deposit id amount price now =>
      (Approval.deposit_collateral self id amount price now).2
  | Disburse id now =>
      (Approval.disburse_funds sha256_hexdigest isoformat self id now).2
  | Setup id amount price now =>
      (Approval.complete_loan_setup sha256_hexdigest isoformat self id amount price now).2
  | Repay id amount from now =>
      (Approval.process_repayment self id amount from now).2
  end.

(** The state after a sequence of calls on a new system. *)
Definition run (sha256_hexdigest : string -> string) (isoformat : datetime -> string)
    (calls : list call) : Approval.LoanFundsTransferSystem :=
  fold_left (fun self c => step sha256_hexdigest isoformat c self) calls Approval.init.

(** What every run keeps. *)
Record ledger_invariant (s : Approval.LoanFundsTransferSystem) : Prop := {
  inv_loans :
    forall id loan,
      Approval.loan_accounts s !! id = Some loan ->
      Approval.loan_id loan = id
      /\ (exists k, (1 <= k <= Approval.loan_counter s)%nat /\ id = "LOAN_" +:+ pretty k)
      /\ Approval.funds_transfer loan = None
      /\ Approval.borrowed_amount_received loan = D 0
      /\ match Approval.collateral_deposit loan with
         | None => Approval.status loan = Approval.PENDING
         | Some r =>
             Approval.status loan = Approval.COLLATERAL_LOCKED
             /\ exists d, Approval.objs s !! r = Some d /\ Approval.dep_loan_id d = id
         end;
  inv_vault :
    forall key r,
      Approval.deposits (Approval.escrow_vault s) !! key = Some r ->
      (exists k, (k < Approval.transaction_counter s)%nat
                 /\ key = "DEPOSIT_" +:+ pretty k)
      /\ exists d, Approval.objs s !! r = Some d /\ Approval.deposit_id d = key;
  inv_objs :
    forall r d,
      Approval.objs s !! r = Some d ->
      Approval.deposits (Approval.escrow_vault s) !! Approval.deposit_id d = Some r;
  inv_transfers : Approval.fund_transfers s = [];
  inv_loan_count : (size (Approval.loan_accounts s) <= Approval.loan_counter s)%nat;
  inv_deposit_count :
    size (Approval.deposits (Approval.escrow_vault s)) = length (Approval.objs s);
  inv_list : Approval.collateral_deposits s = seq 0 (length (Approval.objs s));
  inv_vault_status :
    Approval.vault_status (Approval.escrow_vault s)
    = match Approval.objs s with [] => Approval.EMPTY | _ :: _ => Approval.LOCKED end
}.

(** ** The decisions of the engine *)

(** The four preliminary checks, in the order of the source. *)
Definition check_fired (self : Decision.AutoDecisionEngine) (req : Decision.LoanRequest)
    : bool :=
  Decimal.ltb (Decision.credit_score req) (Decision.min_credit_score self)
  || (Decision.transaction_count req <? Decision.min_transactions self)
  || Decimal.gtb (Decision.borrow_amount_usd req) (Decision.max_loan_amount_usd self)
  || Decimal.ltb (Decision.borrow_amount_usd req) (Decision.min_loan_amount_usd self).

(** Status, approval reason, conditions and confidence for an overall risk
    score, as [make_decision] chooses them after the assessment. *)
Definition outcome_of (score : dec)
    : Decision.DecisionStatus * string * list string * dec :=
  if Decimal.leb score (D 15) then
    (Decision.APPROVED,
     "Minimal risk profile. Excellent credit history and collateral coverage.",
     [], D 95)
  else if Decimal.leb score (D 30) then
    (Decision.APPROVED,
     "Low risk profile. Good credit score and adequate collateral.",
     [], D 90)
  else if Decimal.leb score (D 50) then
    (Decision.CONDITIONAL_APPROVAL, "Moderate risk accepted with conditions.",
     ["Higher interest rate applied"; "Reduced LTV ratio";
      "Monthly collateral health check required"], D 75)
  else if Decimal.leb score (D 75) then (Decision.PENDING_REVIEW, "", [], D 45)
  else (Decision.DENIED, "", [], D 90).

(** The decision that [make_decision] builds after the assessment. *)
Definition assessed_decision (id : string) (req : Decision.LoanRequest) (now : datetime)
    (a : Decision.RiskAssessment) (terms : Decision.LoanTerms) : Decision.LoanDecision :=
  let '(st, reason, conds, confidence) := outcome_of (Decision.overall_risk_score a) in
  {| Decision.decision_id := id;
     Decision.dec_request_id := Decision.request_id req;
     Decision.dec_wallet_address := Decision.wallet_address req;
     Decision.status := st;
     Decision.decision_timestamp := now;
     Decision.risk_assessment := a;
     Decision.proposed_terms :=
       if bool_decide (st <> Decision.DENIED) then Some terms else None;
     Decision.approval_reason := reason;
     Decision.denial_reason :=
       if bool_decide (st <> Decision.DENIED) then Some (Decision.Text reason)
       else Some (Decision.Overall_risk_score_exceeds_threshold
                    (Decision.overall_risk_score a) (Decision.key_risk_factors a));
     Decision.conditions := conds;
     Decision.collateral_required := Decision.collateral_amount req;
     Decision.max_ltv := Decision.ltv_ratio terms;
     Decision.confidence_score := confidence;
     Decision.manual_review_required := bool_decide (st = Decision.PENDING_REVIEW);
     Decision.manual_review_reason := None |}.

(** The values that each risk score can take; for the behavioural risk,
    the sums of its three parts. *)
Definition collateral_risk_values : list Z := [100; 5; 15; 25; 50; 80].
Definition credit_risk_values : list Z := [5; 15; 30; 60; 85].
Definition liquidity_risk_values : list Z := [10; 20; 40; 65; 90].
Definition behavioral_risk_values : list Z :=
  [0; 5; 10; 15; 20; 25; 30; 35; 40; 45; 50; 55; 60; 65; 75].

(** The weighted sum of [perform_risk_assessment], before it is quantized. *)
Abbreviation weighted_risk collateral credit liquidity behavioral :=
  (Decimal.add
    (Decimal.add
       (Decimal.add (Decimal.mul collateral (Dlit 30 2))
                    (Decimal.mul credit (Dlit 35 2)))
       (Decimal.mul liquidity (Dlit 20 2)))
    (Decimal.mul behavioral (Dlit 15 2))).

(** In hundredths: [30 c + 35 r + 20 l + 15 b]. *)
Definition weighted_number (c r l b : Z) : Z := 30 * c + 35 * r + 20 * l + 15 * b.

(** The risk level for an overall risk of [n] hundredths. *)
Definition level_of_number (n : Z) : Decision.RiskLevel :=
  if n <=? 1500 then Decision.MINIMAL
  else if n <=? 3000 then Decision.LOW
  else if n <=? 5000 then Decision.MODERATE
  else if n <=? 7500 then Decision.HIGH
  else Decision.VERY_HIGH.

(** The status that [make_decision] gives to a risk level after the
    assessment. *)
Definition status_of_level (l : Decision.RiskLevel) : Decision.DecisionStatus :=
  match l with
  | Decision.MINIMAL | Decision.LOW => Decision.APPROVED
  | Decision.MODERATE => Decision.CONDITIONAL_APPROVAL
  | Decision.HIGH => Decision.PENDING_REVIEW
  | Decision.VERY_HIGH => Decision.DENIED
  end.

(** For one choice of the four risk scores: the weighted sum quantizes to
    the weighted number in hundredths, which lies between 525 and 8900. *)
Abbreviation risk_agrees c r l b :=
  (is_dec (Decimal.quantize (-2) (weighted_risk (D c) (D r) (D l) (D b)))
          (Dlit (weighted_number c r l b) 2)
   && (525 <=? weighted_number c r l b) && (weighted_number c r l b <=? 8900)).

(** [f] holds for every choice of four numbers from the four lists. *)
Definition all4 (f : Z -> Z -> Z -> Z -> bool) (l1 l2 l3 l4 : list Z) : bool :=
  forallb (fun c => forallb (fun r => forallb (fun l => forallb (fun b => f c r l b)
    l4) l3) l2) l1.

(** The request with another credit score. *)
Definition with_credit_score (req : Decision.LoanRequest) (score : dec)
    : Decision.LoanRequest :=
  {| Decision.request_id := Decision.request_id req;
     Decision.wallet_address := Decision.wallet_address req;
     Decision.collateral_amount := Decision.collateral_amount req;
     Decision.borrow_amount_usd := Decision.borrow_amount_usd req;
     Decision.collateral_token_price := Decision.collateral_token_price req;
     Decision.credit_score := score;
     Decision.credit_rating := Decision.credit_rating req;
     Decision.total_inflow := Decision.total_inflow req;
     Decision.total_outflow := Decision.total_outflow req;
     Decision.net_flow := Decision.net_flow req;
     Decision.current_balance := Decision.current_balance req;
     Decision.transaction_success_rate := Decision.transaction_success_rate req;
     Decision.transaction_count := Decision.transaction_count req;
     Decision.average_inflow := Decision.average_inflow req;
     Decision.requested_at := Decision.requested_at req |}.

(** The values of the account age score, in the order of the source. *)
Definition age_values : list Z := [20; 15; 10; 5; 2].

(** Closes the cases of a statement about the flags of a decision. *)
Ltac solve_flag :=
  try tauto; try discriminate; try congruence; eauto;
  try (intros [x Hx]; discriminate Hx);
  try (intros [H|H]; discriminate H);
  try (intros [H _]; discriminate H);
  try match goal with
      | H : is_Some None |- _ => destruct H as [? H]; discriminate H
      | H : _ \/ _ |- _ => destruct H as [H|H]; discriminate H
      | H : _ /\ _ |- _ => destruct H as [H ?]; discriminate H
      | H : ?x <> ?x |- _ => destruct (H eq_refl)
      end.

(** * Scenarios used by the statements below *)

Module Scenario.
Import Approval.

(** A loan of 5000 USD at 10 percent, against 100000 EXEN at 0.10 USD. *)
Definition created : LoanFundsTransferSystem :=
  (create_loan_account init "Borrower" (D 5000) (D 10) (D 100000) (Dlit 10 2)
     (D 60) 180 0 0).2.

Definition deposited : LoanFundsTransferSystem :=
  (deposit_collateral created "LOAN_1" (D 100000) (Dlit 10 2) 0).2.

Definition one_year : datetime := timedelta_days 365.

(** The loan as [create_loan_account] returns it, and as it is after the
    deposit. *)
Definition new_loan : LoanAccount :=
  {| loan_id := "LOAN_1"; wallet_address := "Borrower"; loan_amount_usd := D 5000;
     interest_rate := D 10; collateral_amount_exen := D 100000;
     collateral_price_usd := Dlit 10 2; ltv_ratio := D 60;
     repayment_period_days := 180; origination_timestamp := 0;
     repayment_due_date := timedelta_days 180; status := PENDING;
     collateral_deposit := None; funds_transfer := None;
     borrowed_amount_received := D 0; repaid_amount := D 0;
     accrued_interest := D 0 |}.

Definition locked_loan : LoanAccount :=
  set_status (set_collateral_deposit new_loan 0%nat) COLLATERAL_LOCKED.

(** The deposit object made by the deposit. *)
Definition the_deposit : CollateralDeposit :=
  {| deposit_id := "DEPOSIT_0"; dep_loan_id := "LOAN_1";
     dep_wallet_address := "Borrower"; exen_amount := D 100000;
     exen_price := Dlit 10 2; collateral_value_usd := Dlit 1000000 2;
     deposit_timestamp := 0; dep_status := LOCKED;
     locked_until := timedelta_days 210; health_factor := Dlit 15 1 |}.

(** A pool that cannot cover the loan. *)
Definition drained : LoanFundsTransferSystem :=
  set_lending_pool_balance deposited (D 4999).

Definition repaid_once : LoanFundsTransferSystem :=
  (process_repayment deposited "LOAN_1" (D 5500) "Borrower" one_year).2.

Definition repaid_twice : LoanFundsTransferSystem :=
  (process_repayment repaid_once "LOAN_1" (D 5500) "Borrower" one_year).2.

(** Stand-ins for the two library functions of [_generate_tx_hash]. *)
Definition no_hash (s : string) : string := s.
Definition no_isoformat (t : datetime) : string := pretty t.

(** An analyzer with three wallets.  [WalletA] and [WalletB] both received
    10 in two inflows (5 and 5, 1 and 9) and paid 2; [WalletE] has no
    transaction. *)
Definition analyzer : Scorecard.SolanaWalletAnalyzer :=
  let s := Scorecard.add_wallet Scorecard.init "WalletA" (D 50) 0 in
  let s := Scorecard.add_wallet s "WalletB" (D 50) 0 in
  let s := Scorecard.add_wallet s "WalletE" (D 10) 0 in
  let s := (Scorecard.add_transaction s "WalletA" "a1" 1 (D 5) "inflow" "Payer" "" true).2 in
  let s := (Scorecard.add_transaction s "WalletA" "a2" 2 (D 5) "inflow" "Payer" "" true).2 in
  let s := (Scorecard.add_transaction s "WalletA" "a3" 3 (D 2) "outflow" "Vendor" "" true).2 in
  let s := (Scorecard.add_transaction s "WalletB" "b1" 1 (D 1) "inflow" "Payer" "" true).2 in
  let s := (Scorecard.add_transaction s "WalletB" "b2" 2 (D 9) "inflow" "Payer" "" true).2 in
  let s := (Scorecard.add_transaction s "WalletB" "b3" 3 (D 2) "outflow" "Vendor" "" true).2 in
  s.

(** The first request of the demonstration of [credit_decision.py]. *)
Definition request_excellent : Decision.LoanRequest :=
  {| Decision.request_id := "REQ_001";
     Decision.wallet_address := "ExcellentWallet1111111111111111111111111";
     Decision.collateral_amount := D 100000;
     Decision.borrow_amount_usd := D 5000;
     Decision.collateral_token_price := Dlit 10 2;
     Decision.credit_score := D 780;
     Decision.credit_rating := "excellent";
     Decision.total_inflow := D 50000;
     Decision.total_outflow := D 20000;
     Decision.net_flow := D 30000;
     Decision.current_balance := D 100;
     Decision.transaction_success_rate := Dlit 995 1;
     Decision.transaction_count := 150;
     Decision.average_inflow := D 500;
     Decision.requested_at := 0 |}.

(** The same request with another credit score and transaction count. *)
Definition request_with (score : dec) (count : Z) : Decision.LoanRequest :=
  {| Decision.request_id := "REQ_001";
     Decision.wallet_address := "ExcellentWallet1111111111111111111111111";
     Decision.collateral_amount := D 100000;
     Decision.borrow_amount_usd := D 5000;
     Decision.collateral_token_price := Dlit 10 2;
     Decision.credit_score := score;
     Decision.credit_rating := "excellent";
     Decision.total_inflow := D 50000;
     Decision.total_outflow := D 20000;
     Decision.net_flow := D 30000;
     Decision.current_balance := D 100;
     Decision.transaction_success_rate := Dlit 995 1;
     Decision.transaction_count := count;
     Decision.average_inflow := D 500;
     Decision.requested_at := 0 |}.

(** The decision returned for a request, when the call returns. *)
Definition decided (self : Decision.AutoDecisionEngine) (r : Decision.LoanRequest)
    : option Decision.LoanDecision :=
  match (Decision.make_decision self r 0).1 with
  | Ret d => Some d
  | Raise _ => None
  end.

(** The calls that lead to [deposited]. *)
Definition calls : list call :=
  [Create "Borrower" (D 5000) (D 10) (D 100000) (Dlit 10 2) (D 60) 180 0 0;
   Deposit "LOAN_1" (D 100000) (Dlit 10 2) 0].

(** Two calls of [create_loan_account]; the first gives the period in
    seconds, 180 times 86400, and raises. *)
Definition calls_after_overflow : list call :=
  [Create "Borrower" (D 5000) (D 10) (D 100000) (Dlit 10 2) (D 60) 15552000 0 0;
   Create "Borrower" (D 5000) (D 10) (D 100000) (Dlit 10 2) (D 60) 180 0 0].

(** The records of [WalletA] and [WalletE] in [analyzer]. *)
Definition wallet_a : Scorecard.WalletData :=
  {| Scorecard.address := "WalletA"; Scorecard.wallet_balance := D 50;
     Scorecard.transactions :=
       [{| Scorecard.tx_hash := "a1"; Scorecard.timestamp := 1; Scorecard.amount := D 5;
           Scorecard.transaction_type := Scorecard.INFLOW;
           Scorecard.counterparty := "Payer"; Scorecard.description := "";
           Scorecard.is_successful := true |};
        {| Scorecard.tx_hash := "a2"; Scorecard.timestamp := 2; Scorecard.amount := D 5;
           Scorecard.transaction_type := Scorecard.INFLOW;
           Scorecard.counterparty := "Payer"; Scorecard.description := "";
           Scorecard.is_successful := true |};
        {| Scorecard.tx_hash := "a3"; Scorecard.timestamp := 3; Scorecard.amount := D 2;
           Scorecard.transaction_type := Scorecard.OUTFLOW;
           Scorecard.counterparty := "Vendor"; Scorecard.description := "";
           Scorecard.is_successful := true |}];
     Scorecard.created_at := 0 |}.

Definition wallet_e : Scorecard.WalletData :=
  {| Scorecard.address := "WalletE"; Scorecard.wallet_balance := D 10;
     Scorecard.transactions := []; Scorecard.created_at := 0 |}.

End Scenario.

(** * Properties of the decimal comparisons *)

Lemma cmp_antisym (a b : dec) : Decimal.cmp b a = CompOpp (Decimal.cmp a b).
Proof.
  unfold Decimal.cmp.
  rewrite (Z.min_comm (Decimal.expo b) (Decimal.expo a)).
  apply Z.compare_antisym.
Qed.

Lemma leb_negb_ltb (a b : dec) : Decimal.leb b a = negb (Decimal.ltb a b).
Proof.
  unfold Decimal.leb, Decimal.ltb. rewrite cmp_antisym.
  destruct (Decimal.cmp a b); reflexivity.
Qed.

Lemma geb_iff_not_ltb (a b : dec) :
  Decimal.geb a b = true <-> Decimal.ltb a b = false.
Proof.
  unfold Decimal.geb. rewrite leb_negb_ltb.
  destruct (Decimal.ltb a b); simpl; split; congruence.
Qed.

Lemma geb_of_Z (a b : Z) : Decimal.geb (D a) (D b) = (b <=? a).
Proof.
  unfold Decimal.geb, Decimal.leb, Decimal.cmp, Z.leb. simpl.
  rewrite !Z.mul_1_r. destruct (b ?= a); reflexivity.
Qed.

Lemma of_Z_inj (a b : Z) : D a = D b -> a = b.
Proof. unfold Decimal.of_Z. congruence. Qed.

(** * The loan ledger *)

Section LoanLedger.
Import Approval.

Variable sha256_hexdigest : string -> string.
Variable isoformat : datetime -> string.

Lemma FundsTransfer_has_no_timestamp (t : FundsTransfer) :
  FundsTransfer_getattr t "timestamp" = Raise (AttributeError "timestamp").
Proof. reflexivity. Qed.

Lemma _generate_tx_hash_raises (t : FundsTransfer) :
  _generate_tx_hash sha256_hexdigest isoformat t = Raise (AttributeError "timestamp").
Proof. reflexivity. Qed.

(** What [disburse_funds] does once both of its checks have passed. *)
Lemma disburse_funds_passed_checks self id loan now :
  loan_accounts self !! id = Some loan ->
  status loan = COLLATERAL_LOCKED ->
  Decimal.ltb (lending_pool_balance self) (loan_amount_usd loan) = false ->
  disburse_funds sha256_hexdigest isoformat self id now
  = (Raise (AttributeError "timestamp"),
     set_transaction_counter self (S (transaction_counter self))).
Proof.
  intros Hloan Hst Hpool. unfold disburse_funds.
  rewrite Hloan, Hst, Hpool. reflexivity.
Qed.



Lemma disburse_funds_pool self id now :
  lending_pool_balance (disburse_funds sha256_hexdigest isoformat self id now).2
  = lending_pool_balance self.
Proof.
  unfold disburse_funds.
  destruct (loan_accounts self !! id) as [loan|]; [|reflexivity].
  destruct (negb _); [reflexivity|].
  destruct (Decimal.ltb _ _); reflexivity.
Qed.



Lemma total_owed_set_repaid loan repaid accrued now :
  total_owed (set_repaid loan repaid accrued) now = total_owed loan now.
Proof.
  unfold total_owed, accrued_interest_at.
  cbn [set_repaid loan_amount_usd interest_rate origination_timestamp].
  reflexivity.
Qed.

Lemma process_repayment_short self id loan amount from now :
  loan_accounts self !! id = Some loan ->
  Decimal.ltb amount (total_owed loan now) = true ->
  process_repayment self id amount from now = (false, self).
Proof.
  intros Hloan Hlt. unfold process_repayment. rewrite Hloan, Hlt. reflexivity.
Qed.

(** A repayment that covers the amount owed, on a loan with a deposit. *)
Lemma process_repayment_covered self id loan r d amount from now :
  loan_accounts self !! id = Some loan ->
  collateral_deposit loan = Some r ->
  objs self !! r = Some d ->
  Decimal.ltb amount (total_owed loan now) = false ->
  process_repayment self id amount from now
  = (true,
     {| loan_accounts :=
          <[id := set_repaid loan amount (accrued_interest_at loan now)]>
            (loan_accounts self);
        escrow_vault :=
          {| vault_id := vault_id (escrow_vault self);
             location := location (escrow_vault self);
             total_collateral_locked :=
               Decimal.sub (total_collateral_locked (escrow_vault self))
                 (collateral_value_usd d);
             deposits := deposits (escrow_vault self);
             vault_status := vault_status (escrow_vault self) |};
        fund_transfers := fund_transfers self;
        collateral_deposits := collateral_deposits self;
        transaction_counter := transaction_counter self;
        loan_counter := loan_counter self;
        lending_pool_balance := Decimal.add (lending_pool_balance self) amount;
        lending_pool_address := lending_pool_address self;
        objs := <[r := set_dep_status d RELEASED]> (objs self) |}).
Proof.
  intros Hloan Hdep Hobj Hge. unfold process_repayment.
  rewrite Hloan, Hge. cbn [set_repaid collateral_deposit]. rewrite Hdep.
  unfold release_collateral. cbn. rewrite Hobj. reflexivity.
Qed.

Lemma deposit_collateral_refused self id amount price now :
  (forall loan, loan_accounts self !! id = Some loan ->
                Decimal.eqb amount (collateral_amount_exen loan) = false) ->
  deposit_collateral self id amount price now = (None, self).
Proof.
  intros H. unfold deposit_collateral.
  destruct (loan_accounts self !! id) as [loan|]; [|reflexivity].
  rewrite (H loan eq_refl). reflexivity.
Qed.




(** ** The claims on the loan ledger *)


(** C3, on its failing path.  For a loan that is [COLLATERAL_LOCKED] and
    whose principal the pool covers, [disburse_funds] does not return: the
    hash is computed from the attribute [timestamp], which a
    [FundsTransfer] does not have, and the [AttributeError] leaves the
    call before the pool is debited and before the loan is marked. *)
Theorem disburse_funds_raises self id loan now :
  loan_accounts self !! id = Some loan ->
  status loan = COLLATERAL_LOCKED ->
  Decimal.leb (loan_amount_usd loan) (lending_pool_balance self) = true ->
  let result := disburse_funds sha256_hexdigest isoformat self id now in
  result.1 = Raise (AttributeError "timestamp")
  /\ lending_pool_balance result.2 = lending_pool_balance self
  /\ loan_accounts result.2 !! id = Some loan
  /\ fund_transfers result.2 = fund_transfers self
  /\ transaction_counter result.2 = S (transaction_counter self).
Proof.
  intros Hloan Hst Hpool. rewrite leb_negb_ltb in Hpool.
  apply negb_true_iff in Hpool. cbv zeta.
  rewrite (disburse_funds_passed_checks self id loan now Hloan Hst Hpool).
  cbn. auto.
Qed.

(** C4.  [disburse_funds] never makes the balance of the pool negative,
    and when the balance is below the principal of the loan it returns
    [None] and leaves the whole state, the pool and the loan included, as
    it was. *)
Theorem disburse_funds_insufficient_pool self id now :
  (Decimal.leb (D 0) (lending_pool_balance self) = true ->
   Decimal.leb (D 0)
     (lending_pool_balance (disburse_funds sha256_hexdigest isoformat self id now).2)
   = true)
  /\ (forall loan,
        loan_accounts self !! id = Some loan ->
        Decimal.ltb (lending_pool_balance self) (loan_amount_usd loan) = true ->
        disburse_funds sha256_hexdigest isoformat self id now = (Ret None, self)).
Proof.
  split.
  - rewrite disburse_funds_pool. trivial.
  - intros loan Hloan Hlt. unfold disburse_funds. rewrite Hloan, Hlt.
    destruct (negb _); reflexivity.
Qed.

End LoanLedger.

Section Repayment.
Import Approval.

(** C2, on the run that breaks it.  After the deposit and after the first
    repayment the vault's running total equals the value of the deposits
    that are [LOCKED]; a second repayment of the same loan is accepted and
    subtracts the value of the released deposit once more: the total is
    -10000 while no deposit is locked. *)
Theorem escrow_total_after_second_repayment :
  Decimal.eqb (total_collateral_locked (escrow_vault Scenario.deposited))
              (locked_value Scenario.deposited) = true
  /\ Decimal.eqb (total_collateral_locked (escrow_vault Scenario.repaid_once))
                 (locked_value Scenario.repaid_once) = true
  /\ (process_repayment Scenario.repaid_once "LOAN_1" (D 5500) "Borrower"
        Scenario.one_year).1 = true
  /\ total_collateral_locked (escrow_vault Scenario.repaid_twice) = Dlit (-1000000) 2
  /\ locked_deposits Scenario.repaid_twice = []
  /\ Decimal.eqb (total_collateral_locked (escrow_vault Scenario.repaid_twice))
                 (locked_value Scenario.repaid_twice) = false.
Proof. vm_compute. repeat split; reflexivity. Qed.


(** C10.  [process_repayment] tests neither the status of the loan nor the
    status of the deposit.  Whatever these are, an amount that covers what
    is owed is accepted: the status of the deposit is [RELEASED]
    afterwards, its USD value is subtracted from the running total and the
    amount is added to the pool.  A second call on the same loan, whose
    deposit is then [RELEASED] already, is accepted in the same way:
    the status stays [RELEASED], the value is subtracted a second time and
    the pool is credited again. *)
Theorem process_repayment_unguarded self id loan r d amount from now :
  loan_accounts self !! id = Some loan ->
  collateral_deposit loan = Some r ->
  objs self !! r = Some d ->
  Decimal.geb amount (total_owed loan now) = true ->
  let first := process_repayment self id amount from now in
  first.1 = true
  /\ objs first.2 !! r = Some (set_dep_status d RELEASED)
  /\ (dep_status <$> objs first.2 !! r) = Some RELEASED
  /\ (collateral_value_usd <$> objs first.2 !! r) = Some (collateral_value_usd d)
  /\ total_collateral_locked (escrow_vault first.2) =
       Decimal.sub (total_collateral_locked (escrow_vault self)) (collateral_value_usd d)
  /\ lending_pool_balance first.2 = Decimal.add (lending_pool_balance self) amount
  /\ forall amount' from' now',
       Decimal.geb amount' (total_owed loan now') = true ->
       let second := process_repayment first.2 id amount' from' now' in
       second.1 = true
       /\ objs second.2 !! r = Some (set_dep_status d RELEASED)
       /\ (dep_status <$> objs second.2 !! r) = Some RELEASED
       /\ total_collateral_locked (escrow_vault second.2) =
            Decimal.sub
              (Decimal.sub (total_collateral_locked (escrow_vault self))
                 (collateral_value_usd d))
              (collateral_value_usd d)
       /\ lending_pool_balance second.2 =
            Decimal.add (Decimal.add (lending_pool_balance self) amount) amount'.
Proof.
  intros Hloan Hdep Hobj Hge first. apply geb_iff_not_ltb in Hge.
  assert (Hlt : (r < length (objs self))%nat)
    by (eapply lookup_lt_Some; eassumption).
  subst first.
  rewrite (process_repayment_covered self id loan r d amount from now) by assumption.
  cbn [fst snd objs escrow_vault total_collateral_locked lending_pool_balance].
  assert (Hr : <[r := set_dep_status d RELEASED]> (objs self) !! r
               = Some (set_dep_status d RELEASED))
    by (apply list_lookup_insert_eq; assumption).
  split; [reflexivity|]. split; [exact Hr|].
  split; [unfold ref in *; rewrite Hr; reflexivity|].
  split; [unfold ref in *; rewrite Hr; reflexivity|].
  split; [reflexivity|]. split; [reflexivity|].
  intros amount' from' now' Hge'. apply geb_iff_not_ltb in Hge'. cbv zeta.
  erewrite (process_repayment_covered _ id
              (set_repaid loan amount (accrued_interest_at loan now)) r
              (set_dep_status d RELEASED) amount' from' now').
  - cbn [fst snd objs escrow_vault total_collateral_locked lending_pool_balance].
    assert (Hr' : <[r := set_dep_status (set_dep_status d RELEASED) RELEASED]>
                    (<[r := set_dep_status d RELEASED]> (objs self)) !! r
                  = Some (set_dep_status d RELEASED)).
    { apply list_lookup_insert_eq. rewrite length_insert. assumption. }
    split; [reflexivity|]. split; [exact Hr'|].
    split; [unfold ref in *; rewrite Hr'; reflexivity|split; reflexivity].
  - cbn. apply lookup_insert_eq.
  - assumption.
  - cbn. apply list_lookup_insert_eq. assumption.
  - rewrite total_owed_set_repaid. assumption.
Qed.

End Repayment.

(** * The decision engine *)

Section DecisionEngine.
Import Decision.

(** The decision of the path that follows the preliminary checks. *)
Lemma make_decision_assessed self req now d :
  Decimal.ltb (credit_score req) (min_credit_score self) = false ->
  (transaction_count req <? min_transactions self) = false ->
  Decimal.gtb (borrow_amount_usd req) (max_loan_amount_usd self) = false ->
  Decimal.ltb (borrow_amount_usd req) (min_loan_amount_usd self) = false ->
  (make_decision self req now).1 = Ret d ->
  (proposed_terms d = None <-> status d = DENIED).
Proof.
  intros H1 H2 H3 H4. unfold make_decision. cbn [min_credit_score
    min_transactions max_loan_amount_usd min_loan_amount_usd set_decision_counter].
  rewrite H1, H2, H3, H4.
  destruct (perform_risk_assessment req) as [assessment|e]; [|discriminate].
  destruct (calculate_loan_terms _ req assessment) as [terms|e]; [|discriminate].
  repeat (destruct (Decimal.leb (overall_risk_score assessment) _));
    cbn; intros [= <-]; cbn; split; congruence.
Qed.

(** C5.  The preliminary checks of [make_decision] are tried in a fixed
    order and the first one that applies returns at once, without an
    assessment and without an entry in the log of decisions: a credit
    score below the minimum is [DENIED]; otherwise a transaction count
    below the minimum is [PENDING_REVIEW] with the manual review flag;
    otherwise an amount above the maximum is [DENIED]; otherwise an amount
    below the minimum is [DENIED].  The thresholds of a new engine are 400,
    3, 500000 and 100, and a request with score 300 and one transaction is
    [DENIED]. *)
Theorem preliminary_checks_in_order self req now :
  let result := make_decision self req now in
  let counted := set_decision_counter self (S (decision_counter self)) in
  (Decimal.ltb (credit_score req) (min_credit_score self) = true ->
   exists d, result = (Ret d, counted) /\ status d = DENIED)
  /\ (Decimal.ltb (credit_score req) (min_credit_score self) = false ->
      transaction_count req < min_transactions self ->
      exists d, result = (Ret d, counted) /\ status d = PENDING_REVIEW
                /\ manual_review_required d = true)
  /\ (Decimal.ltb (credit_score req) (min_credit_score self) = false ->
      min_transactions self <= transaction_count req ->
      Decimal.gtb (borrow_amount_usd req) (max_loan_amount_usd self) = true ->
      exists d, result = (Ret d, counted) /\ status d = DENIED)
  /\ (Decimal.ltb (credit_score req) (min_credit_score self) = false ->
      min_transactions self <= transaction_count req ->
      Decimal.gtb (borrow_amount_usd req) (max_loan_amount_usd self) = false ->
      Decimal.ltb (borrow_amount_usd req) (min_loan_amount_usd self) = true ->
      exists d, result = (Ret d, counted) /\ status d = DENIED)
  /\ (min_credit_score init, min_transactions init,
      max_loan_amount_usd init, min_loan_amount_usd init)
     = (D 400, 3, D 500000, D 100)
  /\ (credit_score req = D 300 ->
      transaction_count req = 1 ->
      exists d, (make_decision init req now).1 = Ret d /\ status d = DENIED).
Proof.
  cbv zeta. unfold make_decision.
  cbn [min_credit_score min_transactions max_loan_amount_usd min_loan_amount_usd
       set_decision_counter].
  split; [|split; [|split; [|split; [|split]]]].
  - intros H1. rewrite H1. eexists. split; reflexivity.
  - intros H1 H2. apply Z.ltb_lt in H2. rewrite H1, H2.
    eexists. split; [reflexivity|]. split; reflexivity.
  - intros H1 H2 H3. apply Z.ltb_ge in H2. rewrite H1, H2, H3.
    eexists. split; reflexivity.
  - intros H1 H2 H3 H4. apply Z.ltb_ge in H2. rewrite H1, H2, H3, H4.
    eexists. split; reflexivity.
  - reflexivity.
  - intros Hscore Hcount. rewrite Hscore. cbn. eexists. split; reflexivity.
Qed.

(** C7, as amended.  In a decision returned by [make_decision] the
    proposed terms are absent exactly when the status is [DENIED] or the
    decision is the one of the check on the transaction count (credit
    score not below the minimum, transaction count below the minimum),
    which is [PENDING_REVIEW] and carries no terms. *)
Theorem proposed_terms_absent self req now d :
  (make_decision self req now).1 = Ret d ->
  (proposed_terms d = None <->
   status d = DENIED
   \/ (status d = PENDING_REVIEW
       /\ Decimal.ltb (credit_score req) (min_credit_score self) = false
       /\ transaction_count req < min_transactions self)).
Proof.
  intros Hd.
  destruct (Decimal.ltb (credit_score req) (min_credit_score self)) eqn:H1;
    [|destruct (transaction_count req <? min_transactions self) eqn:H2;
      [|destruct (Decimal.gtb (borrow_amount_usd req) (max_loan_amount_usd self)) eqn:H3;
        [|destruct (Decimal.ltb (borrow_amount_usd req) (min_loan_amount_usd self)) eqn:H4]]].
  5: { pose proof (make_decision_assessed self req now d H1 H2 H3 H4 Hd) as Hiff.
       apply Z.ltb_ge in H2. split.
       - intros Hn. left. apply Hiff. assumption.
       - intros [Hden|(_ & _ & Hlt)]; [apply Hiff; assumption|lia]. }
  all: revert Hd; unfold make_decision;
    cbn [min_credit_score min_transactions max_loan_amount_usd min_loan_amount_usd
         set_decision_counter];
    rewrite ?H1, ?H2, ?H3, ?H4; cbn; intros [= <-]; cbn;
    try apply Z.ltb_lt in H2; split; auto; intros _; auto.
Qed.

End DecisionEngine.

(** * The credit scorer *)

Section Scoring.
Import Scorecard.

Lemma is_dec_eq o d : is_dec o d = true -> o = Some d.
Proof.
  destruct o as [[c e]|]; [|discriminate]. destruct d as [c' e']. cbn.
  intros H. apply andb_true_iff in H as [Hc He].
  apply Z.eqb_eq in Hc, He. congruence.
Qed.

Lemma volume_cases m :
  exists v, _calculate_transaction_volume_score m = D v /\ In v volume_values.
Proof.
  unfold _calculate_transaction_volume_score, volume_values.
  repeat (destruct (Decimal.ltb _ _)); eexists; (split; [reflexivity|cbn; tauto]).
Qed.

Lemma consistency_cases m :
  exists c, _calculate_payment_consistency_score m = D c /\ In c consistency_values.
Proof.
  unfold _calculate_payment_consistency_score, consistency_values.
  destruct (_ <? _); [|destruct (_ =? _); [|repeat (destruct (Decimal.geb _ _))]];
    eexists; (split; [reflexivity|cbn; tauto]).
Qed.

Lemma reliability_cases m inflows :
  exists r, reliability_score m inflows = D r /\ In r reliability_values.
Proof.
  unfold reliability_score, reliability_of_inflows, reliability_values.
  destruct (Decimal.eqb (total_inflow m) _);
    [|destruct (inflow_count m <? 2);
      [|destruct (_ <? _);
        [|destruct (Decimal.eqb _ _); [|repeat (destruct (Decimal.ltb _ (Dlit _ _)))]]]];
    eexists; (split; [reflexivity|cbn; tauto]).
Qed.

Lemma stability_cases m :
  exists b, _calculate_balance_stability_score m = D b /\ In b stability_values.
Proof.
  unfold _calculate_balance_stability_score, stability_values.
  destruct (Decimal.leb (net_flow m) _);
    [|destruct (Decimal.leb (current_balance m) _);
      [|repeat (destruct (Decimal.geb _ _))]];
    eexists; (split; [reflexivity|cbn; tauto]).
Qed.

Lemma success_cases m :
  exists t, _calculate_transaction_success_rate_score m = D t /\ In t success_values.
Proof.
  unfold _calculate_transaction_success_rate_score, success_values.
  repeat (destruct (Decimal.geb _ _)); eexists; (split; [reflexivity|cbn; tauto]).
Qed.

Lemma all5_In f l1 l2 l3 l4 l5 v c r b t :
  all5 f l1 l2 l3 l4 l5 = true ->
  In v l1 -> In c l2 -> In r l3 -> In b l4 -> In t l5 ->
  f v c r b t = true.
Proof.
  unfold all5. intros H Hv Hc Hr Hb Ht.
  rewrite forallb_forall in H. specialize (H v Hv). cbv beta in H.
  rewrite forallb_forall in H. specialize (H c Hc). cbv beta in H.
  rewrite forallb_forall in H. specialize (H r Hr). cbv beta in H.
  rewrite forallb_forall in H. specialize (H b Hb). cbv beta in H.
  rewrite forallb_forall in H. exact (H t Ht).
Qed.

Lemma all_sums_agree :
  all5 (fun v c r b t => sum_agrees v c r b t)
    volume_values consistency_values reliability_values stability_values success_values
  = true.
Proof. vm_compute. reflexivity. Qed.

Lemma all_scores_agree : forallb (fun sum => score_agrees sum) (seqZ 10 87) = true.
Proof. vm_compute. reflexivity. Qed.

Lemma sum_of_numbers v c r b t age :
  In v volume_values -> In c consistency_values -> In r reliability_values ->
  In b stability_values -> In t success_values ->
  sum_of_factors (factors_of_numbers v c r b t age) = D (v + c + r + b + t)
  /\ 10 <= v + c + r + b + t <= 96.
Proof.
  intros Hv Hc Hr Hb Ht.
  pose proof (all5_In _ _ _ _ _ _ v c r b t all_sums_agree Hv Hc Hr Hb Ht) as H.
  cbv beta in H.
  apply andb_true_iff in H as [H Hhi]. apply andb_true_iff in H as [H Hlo].
  apply is_dec_eq in H.
  apply Z.leb_le in Hlo, Hhi. split; [|clear - Hlo Hhi; lia].
  unfold sum_of_factors, factors_of_numbers.
  cbn [transaction_volume_score payment_consistency_score inflow_reliability_score
       balance_stability_score transaction_success_rate_score].
  congruence.
Qed.

Lemma score_of_sum sum :
  10 <= sum <= 96 ->
  Decimal.quantize 0 (scaled_of_sum (D sum)) = Some (D (score_number sum))
  /\ 300 <= score_number sum <= 850
  /\ Decimal.quantize 0 (raw_borrow_limit (D (score_number sum)))
     = Some (D (limit_number (score_number sum))).
Proof.
  intros Hrange. pose proof all_scores_agree as H.
  rewrite forallb_forall in H.
  assert (Hin : In sum (seqZ 10 87)).
  { apply list_elem_of_In. apply elem_of_seqZ. lia. }
  specialize (H sum Hin). cbv beta in H.
  apply andb_true_iff in H as [H Hlimit]. apply andb_true_iff in H as [H Hhi].
  apply andb_true_iff in H as [H Hlo].
  apply is_dec_eq in H, Hlimit. apply Z.leb_le in Hlo, Hhi. auto.
Qed.

Lemma scaled_score_of_sum f : scaled_score f = scaled_of_sum (sum_of_factors f).
Proof. unfold scaled_score, scaled_of_sum, sum_of_factors, add5. reflexivity. Qed.

(** The report of a registered wallet, in closed form. *)
Lemma generate_credit_score_report self a now w :
  wallets self !! a = Some w ->
  exists v c r b t age,
    five_factors w = [D v; D c; D r; D b; D t]
    /\ In v volume_values /\ In c consistency_values /\ In r reliability_values
    /\ In b stability_values /\ In t success_values
    /\ generate_credit_score self a now =
       (Ret (Some
          {| wallet_address := a;
             credit_score := D (score_number (v + c + r + b + t));
             credit_rating := rating_of (D (score_number (v + c + r + b + t)));
             borrow_limit_usd := D (limit_number (score_number (v + c + r + b + t)));
             interest_rate_adjustment :=
               rate_adjustment_of (rating_of (D (score_number (v + c + r + b + t))));
             metrics := metrics_of w;
             credibility_factors := factors_of_numbers v c r b t age;
             analysis_timestamp := now;
             recommendation :=
               recommendation_of (rating_of (D (score_number (v + c + r + b + t)))) |}),
        set_current_wallet self a).
Proof.
  intros Hw.
  destruct (volume_cases (metrics_of w)) as (v & Ev & Hv).
  destruct (consistency_cases (metrics_of w)) as (c & Ec & Hc).
  destruct (reliability_cases (metrics_of w) (amounts_of INFLOW (transactions w)))
    as (r & Er & Hr).
  destruct (stability_cases (metrics_of w)) as (b & Eb & Hb).
  destruct (success_cases (metrics_of w)) as (t & Et & Ht).
  assert (Hmetrics : _calculate_wallet_metrics (set_current_wallet self a) a = metrics_of w).
  { unfold _calculate_wallet_metrics. cbn. rewrite Hw. reflexivity. }
  assert (Hrel : _calculate_inflow_reliability_score (set_current_wallet self a)
                   (metrics_of w) = Ret (D r)).
  { rewrite <- Er. unfold _calculate_inflow_reliability_score, reliability_score.
    destruct (Decimal.eqb _ _); [reflexivity|].
    destruct (_ <? _); [reflexivity|]. cbn. rewrite Hw. reflexivity. }
  assert (Hage : exists age,
             _calculate_account_age_score (set_current_wallet self a) a now = Ret age).
  { unfold _calculate_account_age_score. cbn. rewrite Hw. eauto. }
  destruct Hage as (age & Hage).
  exists v, c, r, b, t, age.
  split; [unfold five_factors; rewrite Ev, Ec, Er, Eb, Et; reflexivity|].
  do 5 (split; [assumption|]).
  destruct (sum_of_numbers v c r b t age Hv Hc Hr Hb Ht) as [Hsum Hrange].
  destruct (score_of_sum _ Hrange) as (Hscore & _ & Hlimit).
  unfold generate_credit_score. rewrite Hw, Hmetrics, Hrel, Hage.
  rewrite Ev, Ec, Eb, Et. cbn [obind].
  change ({| transaction_volume_score := D v; payment_consistency_score := D c;
             inflow_reliability_score := D r; balance_stability_score := D b;
             transaction_success_rate_score := D t; account_age_score := age |})
    with (factors_of_numbers v c r b t age).
  rewrite scaled_score_of_sum, Hsum. unfold quantize at 1. rewrite Hscore. cbn [obind].
  unfold quantize. rewrite Hlimit. reflexivity.
Qed.

Lemma rating_of_number n :
  (rating_of (D n) = EXCELLENT <-> 750 <= n)
  /\ (rating_of (D n) = VERY_GOOD <-> 650 <= n < 750)
  /\ (rating_of (D n) = GOOD <-> 550 <= n < 650)
  /\ (rating_of (D n) = FAIR <-> 450 <= n < 550)
  /\ (rating_of (D n) = POOR <-> n < 450).
Proof.
  unfold rating_of. rewrite !geb_of_Z.
  destruct (Z.leb_spec 750 n); [repeat split; intros; try lia; discriminate|].
  destruct (Z.leb_spec 650 n); [repeat split; intros; try lia; discriminate|].
  destruct (Z.leb_spec 550 n); [repeat split; intros; try lia; discriminate|].
  destruct (Z.leb_spec 450 n); repeat split; intros; try lia; discriminate.
Qed.

Lemma factor_ranges v c r b t :
  In v volume_values -> In c consistency_values -> In r reliability_values ->
  In b stability_values -> In t success_values ->
  0 <= v <= 20 /\ 0 <= c <= 20 /\ 0 <= r <= 20 /\ 0 <= b <= 20 /\ 0 <= t <= 20.
Proof.
  unfold volume_values, consistency_values, reliability_values, stability_values,
    success_values. cbn [In]. intros Hv Hc Hr Hb Ht. repeat split; lia.
Qed.

(** C9, as amended.  For every registered wallet [generate_credit_score]
    returns a report.  Each of the five factors is a whole number between
    0 and 20; the credit score is 300 + (their average / 20) * 550, that is
    (30000 + 550 * sum) / 100, rounded to an integer (ties to even); it
    lies between 300 and 850; the rating is Excellent from 750, VeryGood
    from 650, Good from 550, Fair from 450 and Poor below; and the borrow
    limit is 1000 * (score / 850) rounded to an integer. *)
Theorem credit_score_of_the_factors self a now w :
  wallets self !! a = Some w ->
  exists report v c r b t,
    (generate_credit_score self a now).1 = Ret (Some report)
    /\ five_factors w = [D v; D c; D r; D b; D t]
    /\ credibility_factors report
       = factors_of_numbers v c r b t (account_age_score (credibility_factors report))
    /\ (0 <= v <= 20 /\ 0 <= c <= 20 /\ 0 <= r <= 20 /\ 0 <= b <= 20 /\ 0 <= t <= 20)
    /\ credit_score report = D (score_number (v + c + r + b + t))
    /\ 300 <= score_number (v + c + r + b + t) <= 850
    /\ (credit_rating report = EXCELLENT <-> 750 <= score_number (v + c + r + b + t))
    /\ (credit_rating report = VERY_GOOD <-> 650 <= score_number (v + c + r + b + t) < 750)
    /\ (credit_rating report = GOOD <-> 550 <= score_number (v + c + r + b + t) < 650)
    /\ (credit_rating report = FAIR <-> 450 <= score_number (v + c + r + b + t) < 550)
    /\ (credit_rating report = POOR <-> score_number (v + c + r + b + t) < 450)
    /\ borrow_limit_usd report = D (limit_number (score_number (v + c + r + b + t))).
Proof.
  intros Hw.
  destruct (generate_credit_score_report self a now w Hw)
    as (v & c & r & b & t & age & Hfive & Hv & Hc & Hr & Hb & Ht & Hcall).
  destruct (sum_of_numbers v c r b t age Hv Hc Hr Hb Ht) as [_ Hrange].
  destruct (score_of_sum _ Hrange) as (_ & Hbounds & _).
  destruct (rating_of_number (score_number (v + c + r + b + t)))
    as (He & Hvg & Hg & Hf & Hp).
  eexists _, v, c, r, b, t. rewrite Hcall. cbn [fst].
  split; [reflexivity|]. cbn.
  split; [assumption|]. split; [reflexivity|].
  split; [apply factor_ranges; assumption|].
  split; [reflexivity|]. split; [assumption|]. tauto.
Qed.

(** C8, as amended.  The score is a function of the metrics and of the
    inflow amounts stored for the wallet; no wallet scored before has a
    part in it.  For two registered wallets, in any two states of any two
    analyzers, with equal metrics: the volume, consistency, balance
    stability and success rate factors are equal; and when their stored
    inflow amounts are equal as well, so are the inflow reliability
    factor, the credit score, the rating and the borrow limit. *)
Theorem scores_of_equal_wallets self1 self2 a1 a2 now1 now2 w1 w2 :
  wallets self1 !! a1 = Some w1 ->
  wallets self2 !! a2 = Some w2 ->
  metrics_of w1 = metrics_of w2 ->
  exists r1 r2,
    (generate_credit_score self1 a1 now1).1 = Ret (Some r1)
    /\ (generate_credit_score self2 a2 now2).1 = Ret (Some r2)
    /\ metrics r1 = metrics r2
    /\ transaction_volume_score (credibility_factors r1)
       = transaction_volume_score (credibility_factors r2)
    /\ payment_consistency_score (credibility_factors r1)
       = payment_consistency_score (credibility_factors r2)
    /\ balance_stability_score (credibility_factors r1)
       = balance_stability_score (credibility_factors r2)
    /\ transaction_success_rate_score (credibility_factors r1)
       = transaction_success_rate_score (credibility_factors r2)
    /\ (amounts_of INFLOW (transactions w1) = amounts_of INFLOW (transactions w2) ->
        inflow_reliability_score (credibility_factors r1)
        = inflow_reliability_score (credibility_factors r2)
        /\ credit_score r1 = credit_score r2
        /\ credit_rating r1 = credit_rating r2
        /\ borrow_limit_usd r1 = borrow_limit_usd r2
        /\ interest_rate_adjustment r1 = interest_rate_adjustment r2).
Proof.
  intros Hw1 Hw2 Hm.
  destruct (generate_credit_score_report self1 a1 now1 w1 Hw1)
    as (v & c & r & b & t & age & Hfive & _ & _ & _ & _ & _ & Hcall).
  destruct (generate_credit_score_report self2 a2 now2 w2 Hw2)
    as (v' & c' & r' & b' & t' & age' & Hfive' & _ & _ & _ & _ & _ & Hcall').
  eexists _, _. rewrite Hcall, Hcall'. cbn [fst].
  split; [reflexivity|]. split; [reflexivity|]. cbn.
  unfold five_factors in Hfive, Hfive'. rewrite <- Hm in Hfive'.
  injection Hfive as Ev Ec Er Eb Et. injection Hfive' as Ev' Ec' Er' Eb' Et'.
  assert (v = v') by (apply of_Z_inj; congruence).
  assert (c = c') by (apply of_Z_inj; congruence).
  assert (b = b') by (apply of_Z_inj; congruence).
  assert (t = t') by (apply of_Z_inj; congruence).
  subst v' c' b' t'.
  split; [assumption|]. do 4 (split; [reflexivity|]).
  intros Hin. rewrite <- Hin in Er'.
  assert (r = r') by (apply of_Z_inj; congruence).
  subst r'. repeat split.
Qed.

End Scoring.

(** * The statements at concrete inputs *)

Section Instances.
Import Approval Scenario.



Lemma disburse_funds_raises_witness :
  loan_accounts deposited !! "LOAN_1" = Some locked_loan
  /\ status locked_loan = COLLATERAL_LOCKED
  /\ Decimal.leb (loan_amount_usd locked_loan) (lending_pool_balance deposited) = true
  /\ (disburse_funds no_hash no_isoformat deposited "LOAN_1" 0).1
     = Raise (AttributeError "timestamp")
  /\ lending_pool_balance (disburse_funds no_hash no_isoformat deposited "LOAN_1" 0).2
     = lending_pool_balance deposited.
Proof.
  assert (H1 : loan_accounts deposited !! "LOAN_1" = Some locked_loan)
    by (vm_compute; reflexivity).
  assert (H2 : status locked_loan = COLLATERAL_LOCKED) by reflexivity.
  assert (H3 : Decimal.leb (loan_amount_usd locked_loan)
                 (lending_pool_balance deposited) = true)
    by (vm_compute; reflexivity).
  pose proof (disburse_funds_raises no_hash no_isoformat deposited "LOAN_1"
                locked_loan 0 H1 H2 H3) as H.
  split; [exact H1|]. split; [exact H2|]. split; [exact H3|].
  split; [exact (proj1 H)|exact (proj1 (proj2 H))].
Defined.

Lemma disburse_funds_insufficient_pool_witness :
  Decimal.leb (D 0) (lending_pool_balance drained) = true
  /\ loan_accounts drained !! "LOAN_1" = Some locked_loan
  /\ Decimal.ltb (lending_pool_balance drained) (loan_amount_usd locked_loan) = true
  /\ Decimal.leb (D 0)
       (lending_pool_balance (disburse_funds no_hash no_isoformat drained "LOAN_1" 0).2)
     = true
  /\ disburse_funds no_hash no_isoformat drained "LOAN_1" 0 = (Ret None, drained).
Proof.
  assert (H1 : Decimal.leb (D 0) (lending_pool_balance drained) = true)
    by (vm_compute; reflexivity).
  assert (H2 : loan_accounts drained !! "LOAN_1" = Some locked_loan)
    by (vm_compute; reflexivity).
  assert (H3 : Decimal.ltb (lending_pool_balance drained)
                 (loan_amount_usd locked_loan) = true)
    by (vm_compute; reflexivity).
  pose proof (disburse_funds_insufficient_pool no_hash no_isoformat drained
                "LOAN_1" 0) as H.
  split; [exact H1|]. split; [exact H2|]. split; [exact H3|].
  split; [exact (proj1 H H1)|exact (proj2 H locked_loan H2 H3)].
Defined.


(** The repeated call of C10.  The loan of [deposited] is repaid twice
    with 5500.  After the first call the deposit is [RELEASED], the total
    of the vault is 0.00 and the pool holds 105500; the second call is
    accepted as well, the deposit is still [RELEASED], the total is
    -10000.00 and the pool holds 111000. *)
Lemma process_repayment_unguarded_witness :
  loan_accounts deposited !! "LOAN_1" = Some locked_loan
  /\ collateral_deposit locked_loan = Some 0%nat
  /\ objs deposited !! 0%nat = Some the_deposit
  /\ Decimal.geb (D 5500) (total_owed locked_loan one_year) = true
  /\ total_collateral_locked (escrow_vault deposited) = Dlit 1000000 2
  /\ lending_pool_balance deposited = D 100000
  /\ (process_repayment deposited "LOAN_1" (D 5500) "Borrower" one_year).1 = true
  /\ (dep_status <$> objs repaid_once !! 0%nat) = Some RELEASED
  /\ total_collateral_locked (escrow_vault repaid_once) = Dlit 0 2
  /\ lending_pool_balance repaid_once = D 105500
  /\ (repaid_amount <$> loan_accounts repaid_once !! "LOAN_1") = Some (D 5500)
  /\ (process_repayment repaid_once "LOAN_1" (D 5500) "Borrower" one_year).1 = true
  /\ (dep_status <$> objs repaid_twice !! 0%nat) = Some RELEASED
  /\ total_collateral_locked (escrow_vault repaid_twice) = Dlit (-1000000) 2
  /\ lending_pool_balance repaid_twice = D 111000.
Proof.
  assert (H1 : loan_accounts deposited !! "LOAN_1" = Some locked_loan)
    by (vm_compute; reflexivity).
  assert (H2 : collateral_deposit locked_loan = Some 0%nat) by reflexivity.
  assert (H3 : objs deposited !! 0%nat = Some the_deposit) by (vm_compute; reflexivity).
  assert (H4 : Decimal.geb (D 5500) (total_owed locked_loan one_year) = true)
    by (vm_compute; reflexivity).
  pose proof (process_repayment_unguarded deposited "LOAN_1" locked_loan 0%nat
                the_deposit (D 5500) "Borrower" one_year H1 H2 H3 H4) as H.
  cbv zeta in H.
  destruct H as (Hfirst & _ & Hreleased & _ & Hsub & Hcredit & Hagain).
  destruct (Hagain (D 5500) "Borrower" one_year H4)
    as (Hsecond & _ & Hreleased' & Hsub' & Hcredit').
  split; [exact H1|]. split; [exact H2|]. split; [exact H3|]. split; [exact H4|].
  split; [vm_compute; reflexivity|]. split; [reflexivity|].
  split; [exact Hfirst|]. split; [exact Hreleased|].
  split; [unfold repaid_once; rewrite Hsub; vm_compute; reflexivity|].
  split; [unfold repaid_once; rewrite Hcredit; vm_compute; reflexivity|].
  split; [vm_compute; reflexivity|].
  split; [exact Hsecond|]. split; [exact Hreleased'|].
  split; [unfold repaid_twice, repaid_once; rewrite Hsub'; vm_compute; reflexivity|].
  unfold repaid_twice, repaid_once. rewrite Hcredit'. vm_compute. reflexivity.
Defined.

End Instances.

Section DecisionInstances.
Import Decision Scenario.

(** C7 as stated fails: a request with credit score 500 and one transaction
    is [PENDING_REVIEW], not [DENIED], and has no proposed terms. *)
Lemma pending_review_without_terms :
  (status <$> decided init (request_with (D 500) 1)) = Some PENDING_REVIEW
  /\ (proposed_terms <$> decided init (request_with (D 500) 1)) = Some None.
Proof. vm_compute. split; reflexivity. Qed.

Lemma preliminary_checks_in_order_witness :
  credit_score (request_with (D 300) 1) = D 300
  /\ transaction_count (request_with (D 300) 1) = 1
  /\ Decimal.ltb (credit_score (request_with (D 300) 1)) (min_credit_score init) = true
  /\ (exists d, (make_decision init (request_with (D 300) 1) 0).1 = Ret d
                /\ status d = DENIED)
  /\ (exists d, make_decision init (request_with (D 300) 1) 0
                = (Ret d, set_decision_counter init 1)
                /\ status d = DENIED).
Proof.
  assert (H1 : credit_score (request_with (D 300) 1) = D 300) by reflexivity.
  assert (H2 : transaction_count (request_with (D 300) 1) = 1) by reflexivity.
  assert (H3 : Decimal.ltb (credit_score (request_with (D 300) 1))
                 (min_credit_score init) = true) by (vm_compute; reflexivity).
  pose proof (preliminary_checks_in_order init (request_with (D 300) 1) 0) as H.
  split; [exact H1|]. split; [exact H2|]. split; [exact H3|].
  split; [exact (proj2 (proj2 (proj2 (proj2 (proj2 H)))) H1 H2)|exact (proj1 H H3)].
Defined.

Lemma proposed_terms_absent_witness :
  exists d,
    (make_decision init request_excellent 0).1 = Ret d
    /\ status d = APPROVED
    /\ (proposed_terms d = None <->
        status d = DENIED
        \/ (status d = PENDING_REVIEW
            /\ Decimal.ltb (credit_score request_excellent) (min_credit_score init) = false
            /\ transaction_count request_excellent < min_transactions init)).
Proof.
  destruct (make_decision init request_excellent 0).1 as [d|e] eqn:Hd;
    [|vm_compute in Hd; discriminate Hd].
  exists d. split; [reflexivity|]. split.
  - vm_compute in Hd. injection Hd as <-. reflexivity.
  - exact (proposed_terms_absent init request_excellent 0 d Hd).
Defined.

End DecisionInstances.

Section ScoringInstances.
Import Scorecard Scenario.

(** C8 as stated fails: [WalletA] and [WalletB] have the same metrics, and
    their inflow reliability factors are 18 and 12 and their scores 729 and
    696.  The factor is computed from the amounts stored for the wallet
    that [_current_wallet] names: called with the metrics of [WalletB]
    after [WalletA] was scored, the method answers 18. *)
Lemma equal_metrics_different_scores :
  (metrics <$> scored analyzer "WalletA" 0) = (metrics <$> scored analyzer "WalletB" 0)
  /\ is_Some (scored analyzer "WalletA" 0)
  /\ (inflow_reliability_score <$> (credibility_factors <$> scored analyzer "WalletA" 0))
     = Some (D 18)
  /\ (inflow_reliability_score <$> (credibility_factors <$> scored analyzer "WalletB" 0))
     = Some (D 12)
  /\ (credit_score <$> scored analyzer "WalletA" 0) = Some (D 729)
  /\ (credit_score <$> scored analyzer "WalletB" 0) = Some (D 696)
  /\ _calculate_inflow_reliability_score
       (generate_credit_score analyzer "WalletA" 0).2
       (_calculate_wallet_metrics analyzer "WalletB") = Ret (D 18)
  /\ _calculate_inflow_reliability_score
       (generate_credit_score analyzer "WalletB" 0).2
       (_calculate_wallet_metrics analyzer "WalletB") = Ret (D 12).
Proof. vm_compute. repeat split; eauto. Qed.

(** C9 as stated fails on the borrow limit: the wallet without transactions
    has score 470 and borrow limit 553, which is not 1000 * (470 / 850). *)
Lemma borrow_limit_is_rounded :
  (credit_score <$> scored analyzer "WalletE" 0) = Some (D 470)
  /\ (borrow_limit_usd <$> scored analyzer "WalletE" 0) = Some (D 553)
  /\ Decimal.eqb (D 553) (raw_borrow_limit (D 470)) = false
  /\ 553 * 850 <> 1000 * 470.
Proof. vm_compute. repeat split; congruence. Qed.

Lemma credit_score_of_the_factors_witness :
  is_Some (wallets analyzer !! "WalletA")
  /\ exists report,
       (generate_credit_score analyzer "WalletA" 0).1 = Ret (Some report)
       /\ 300 <= Decimal.coef (credit_score report) <= 850.
Proof.
  destruct (wallets analyzer !! "WalletA") as [w|] eqn:Hw;
    [|vm_compute in Hw; discriminate Hw].
  split; [eauto|].
  destruct (credit_score_of_the_factors analyzer "WalletA" 0 w Hw)
    as (report & v & c & r & b & t & Hcall & _ & _ & _ & Hscore & Hrange & _).
  exists report. split; [exact Hcall|]. rewrite Hscore. exact Hrange.
Defined.

Lemma scores_of_equal_wallets_witness :
  is_Some (wallets analyzer !! "WalletA")
  /\ exists r1 r2,
       (generate_credit_score analyzer "WalletA" 0).1 = Ret (Some r1)
       /\ (generate_credit_score
             (generate_credit_score analyzer "WalletB" 5).2 "WalletA" 7).1
          = Ret (Some r2)
       /\ credit_score r1 = credit_score r2
       /\ inflow_reliability_score (credibility_factors r1)
          = inflow_reliability_score (credibility_factors r2).
Proof.
  destruct (wallets analyzer !! "WalletA") as [w|] eqn:Hw;
    [|vm_compute in Hw; discriminate Hw].
  split; [eauto|].
  assert (Hw' : wallets (generate_credit_score analyzer "WalletB" 5).2 !! "WalletA"
                = Some w) by (rewrite <- Hw; vm_compute; reflexivity).
  destruct (scores_of_equal_wallets analyzer
              (generate_credit_score analyzer "WalletB" 5).2
              "WalletA" "WalletA" 0 7 w w Hw Hw' eq_refl)
    as (r1 & r2 & H1 & H2 & _ & _ & _ & _ & _ & Hrest).
  destruct (Hrest eq_refl) as (Hrel & Hscore & _).
  exists r1, r2. auto.
Defined.

End ScoringInstances.

(** * The order of the decimals *)

Lemma pow10_pos (k : Z) : 0 <= k -> 0 < 10 ^ k.
Proof. intros Hk. apply Z.pow_pos_nonneg; lia. Qed.

Lemma compare_mul_pos (x y p : Z) : 0 < p -> (x * p ?= y * p) = (x ?= y).
Proof.
  intros Hp. destruct (Z.compare_spec x y) as [->|H|H].
  - apply Z.compare_refl.
  - apply Z.compare_lt_iff. nia.
  - apply Z.compare_gt_iff. nia.
Qed.

(** The comparison may be made at any exponent below the two. *)
Lemma cmp_scaled (a b : dec) (m : Z) :
  m <= Decimal.expo a -> m <= Decimal.expo b ->
  Decimal.cmp a b
  = (Decimal.coef a * 10 ^ (Decimal.expo a - m)
     ?= Decimal.coef b * 10 ^ (Decimal.expo b - m)).
Proof.
  intros Ha Hb. unfold Decimal.cmp.
  set (m0 := Z.min (Decimal.expo a) (Decimal.expo b)).
  assert (Hm : m <= m0) by (unfold m0; lia).
  assert (H0a : m0 <= Decimal.expo a) by (unfold m0; lia).
  assert (H0b : m0 <= Decimal.expo b) by (unfold m0; lia).
  replace (Decimal.expo a - m) with ((Decimal.expo a - m0) + (m0 - m)) by lia.
  replace (Decimal.expo b - m) with ((Decimal.expo b - m0) + (m0 - m)) by lia.
  rewrite !Z.pow_add_r by lia. rewrite !Z.mul_assoc.
  symmetry. apply compare_mul_pos. apply pow10_pos. lia.
Qed.

Lemma leb_scaled (a b : dec) (m : Z) :
  m <= Decimal.expo a -> m <= Decimal.expo b ->
  (Decimal.leb a b = true
   <-> Decimal.coef a * 10 ^ (Decimal.expo a - m)
       <= Decimal.coef b * 10 ^ (Decimal.expo b - m)).
Proof.
  intros Ha Hb. unfold Decimal.leb. rewrite (cmp_scaled a b m Ha Hb).
  rewrite <- Z.compare_le_iff.
  destruct (_ ?= _); split; congruence.
Qed.

Lemma ltb_scaled (a b : dec) (m : Z) :
  m <= Decimal.expo a -> m <= Decimal.expo b ->
  (Decimal.ltb a b = true
   <-> Decimal.coef a * 10 ^ (Decimal.expo a - m)
       < Decimal.coef b * 10 ^ (Decimal.expo b - m)).
Proof.
  intros Ha Hb. unfold Decimal.ltb. rewrite (cmp_scaled a b m Ha Hb).
  rewrite <- Z.compare_lt_iff.
  destruct (_ ?= _); split; congruence.
Qed.

Lemma leb_trans (a b c : dec) :
  Decimal.leb a b = true -> Decimal.leb b c = true -> Decimal.leb a c = true.
Proof.
  set (m := Z.min (Decimal.expo a) (Z.min (Decimal.expo b) (Decimal.expo c))).
  assert (Ha : m <= Decimal.expo a) by (unfold m; lia).
  assert (Hb : m <= Decimal.expo b) by (unfold m; lia).
  assert (Hc : m <= Decimal.expo c) by (unfold m; lia).
  rewrite (leb_scaled a b m Ha Hb), (leb_scaled b c m Hb Hc), (leb_scaled a c m Ha Hc).
  lia.
Qed.

Lemma leb_refl (a : dec) : Decimal.leb a a = true.
Proof. apply (leb_scaled a a (Decimal.expo a)); lia. Qed.

Lemma ltb_leb (a b : dec) : Decimal.ltb a b = true -> Decimal.leb a b = true.
Proof.
  set (m := Z.min (Decimal.expo a) (Decimal.expo b)).
  assert (Ha : m <= Decimal.expo a) by (unfold m; lia).
  assert (Hb : m <= Decimal.expo b) by (unfold m; lia).
  rewrite (ltb_scaled a b m Ha Hb), (leb_scaled a b m Ha Hb). lia.
Qed.

Lemma leb_total (a b : dec) : Decimal.leb a b = false -> Decimal.leb b a = true.
Proof.
  intros H. rewrite leb_negb_ltb. rewrite leb_negb_ltb in H.
  apply negb_false_iff in H. apply ltb_leb in H.
  rewrite leb_negb_ltb in H. exact H.
Qed.

(** * The ledger over sequences of calls *)

Section LedgerRuns.
Import Approval.

Variable sha256_hexdigest : string -> string.
Variable isoformat : datetime -> string.

Lemma loan_id_inj (j k : nat) : "LOAN_" +:+ pretty j = "LOAN_" +:+ pretty k -> j = k.
Proof. intros H. apply (inj (String.app "LOAN_")) in H. apply (inj pretty) in H. exact H. Qed.

Lemma deposit_id_inj (j k : nat) :
  "DEPOSIT_" +:+ pretty j = "DEPOSIT_" +:+ pretty k -> j = k.
Proof. intros H. apply (inj (String.app "DEPOSIT_")) in H. apply (inj pretty) in H. exact H. Qed.

Lemma disburse_funds_result self id now :
  disburse_funds sha256_hexdigest isoformat self id now = (Ret None, self)
  \/ disburse_funds sha256_hexdigest isoformat self id now
     = (Raise (AttributeError "timestamp"),
        set_transaction_counter self (S (transaction_counter self))).
Proof.
  unfold disburse_funds.
  destruct (loan_accounts self !! id) as [loan|]; [|left; reflexivity].
  destruct (negb _); [left; reflexivity|].
  destruct (Decimal.ltb _ _); [left; reflexivity|right; reflexivity].
Qed.

Lemma deposit_collateral_state self id loan amount price now :
  loan_accounts self !! id = Some loan ->
  Decimal.eqb amount (collateral_amount_exen loan) = true ->
  deposit_collateral self id amount price now
  = (Some (length (objs self)),
     {| loan_accounts :=
          <[id := set_status (set_collateral_deposit loan (length (objs self)))
                    COLLATERAL_LOCKED]> (loan_accounts self);
        escrow_vault :=
          {| vault_id := vault_id (escrow_vault self);
             location := location (escrow_vault self);
             total_collateral_locked :=
               Decimal.add (total_collateral_locked (escrow_vault self))
                 (Decimal.mul amount price);
             deposits :=
               <["DEPOSIT_" +:+ pretty (transaction_counter self) := length (objs self)]>
                 (deposits (escrow_vault self));
             vault_status := LOCKED |};
        fund_transfers := fund_transfers self;
        collateral_deposits := collateral_deposits self ++ [length (objs self)];
        transaction_counter := S (transaction_counter self);
        loan_counter := loan_counter self;
        lending_pool_balance := lending_pool_balance self;
        lending_pool_address := lending_pool_address self;
        objs :=
          objs self ++
          [{| deposit_id := "DEPOSIT_" +:+ pretty (transaction_counter self);
              dep_loan_id := id; dep_wallet_address := wallet_address loan;
              exen_amount := amount; exen_price := price;
              collateral_value_usd := Decimal.mul amount price;
              deposit_timestamp := now; dep_status := LOCKED;
              locked_until := now + timedelta_days (repayment_period_days loan + 30);
              health_factor := Dlit 15 1 |}] |}).
Proof.
  intros Hloan Heq. unfold deposit_collateral. rewrite Hloan, Heq. reflexivity.
Qed.

Lemma process_repayment_no_deposit self id loan amount from now :
  loan_accounts self !! id = Some loan ->
  collateral_deposit loan = None ->
  Decimal.ltb amount (total_owed loan now) = false ->
  process_repayment self id amount from now
  = (true,
     set_lending_pool_balance
       (set_loan_accounts self
          (<[id := set_repaid loan amount (accrued_interest_at loan now)]>
             (loan_accounts self)))
       (Decimal.add (lending_pool_balance self) amount)).
Proof.
  intros Hloan Hdep Hge. unfold process_repayment.
  rewrite Hloan, Hge. cbn [set_repaid collateral_deposit]. rewrite Hdep. reflexivity.
Qed.

Lemma ledger_invariant_init : ledger_invariant init.
Proof.
  split; cbn; try reflexivity.
  - intros id loan H. rewrite lookup_empty in H. discriminate.
  - intros key r H. rewrite lookup_empty in H. discriminate.
  - intros r d H. discriminate.
Qed.

Lemma ledger_invariant_counter s :
  ledger_invariant s ->
  ledger_invariant (set_transaction_counter s (S (transaction_counter s))).
Proof.
  intros [Hl Hv Ho Ht Hlc Hdc Hli Hvs]. split; cbn; try assumption.
  intros key r H. destruct (Hv key r H) as ((k & Hk & ->) & Hd).
  split; [exists k; split; [lia|reflexivity]|assumption].
Qed.

Lemma ledger_invariant_create s wallet amount rate camount cprice ltv days now_due now :
  ledger_invariant s ->
  ledger_invariant
    (create_loan_account s wallet amount rate camount cprice ltv days now_due now).2.
Proof.
  intros [Hl Hv Ho Ht Hlc Hdc Hli Hvs].
  assert (Hfresh : loan_accounts s !! ("LOAN_" +:+ pretty (S (loan_counter s))) = None).
  { destruct (loan_accounts s !! _) as [loan|] eqn:E; [|reflexivity].
    destruct (Hl _ _ E) as (_ & (k & Hk & Hid) & _).
    apply loan_id_inj in Hid. lia. }
  unfold create_loan_account.
  destruct (add_days now_due days) as [due|e]; split; cbn; try assumption.
  - intros id loan H.
    destruct (decide ("LOAN_" +:+ pretty (S (loan_counter s)) = id)) as [<-|Hne].
    + rewrite lookup_insert_eq in H. injection H as <-. cbn.
      split; [reflexivity|]. split; [exists (S (loan_counter s)); split; [lia|reflexivity]|].
      auto.
    + rewrite lookup_insert_ne in H by assumption.
      destruct (Hl id loan H) as (H1 & (k & Hk & ->) & H3).
      split; [assumption|]. split; [exists k; split; [lia|reflexivity]|assumption].
  - rewrite map_size_insert_None by assumption. lia.
  - intros id loan H.
    destruct (Hl id loan H) as (H1 & (k & Hk & ->) & H3).
    split; [assumption|]. split; [exists k; split; [lia|reflexivity]|assumption].
  - lia.
Qed.

Lemma ledger_invariant_deposit s id amount price now :
  ledger_invariant s ->
  ledger_invariant (deposit_collateral s id amount price now).2.
Proof.
  intros Hinv.
  destruct (loan_accounts s !! id) as [loan|] eqn:Hloan;
    [destruct (Decimal.eqb amount (collateral_amount_exen loan)) eqn:Heq|].
  2: { rewrite deposit_collateral_refused; [assumption|].
       intros l Hl. rewrite Hloan in Hl. injection Hl as <-. assumption. }
  2: { rewrite deposit_collateral_refused; [assumption|].
       intros l Hl. rewrite Hloan in Hl. discriminate. }
  rewrite (deposit_collateral_state s id loan amount price now Hloan Heq).
  destruct Hinv as [Hl Hv Ho Ht Hlc Hdc Hli Hvs].
  assert (Hfresh : deposits (escrow_vault s) !! ("DEPOSIT_" +:+ pretty (transaction_counter s))
                   = None).
  { destruct (deposits (escrow_vault s) !! _) as [r|] eqn:E; [|reflexivity].
    destruct (Hv _ _ E) as ((k & Hk & Hid) & _).
    apply deposit_id_inj in Hid. lia. }
  split; cbn [snd loan_accounts escrow_vault deposits objs fund_transfers
              collateral_deposits transaction_counter loan_counter vault_status].
  - intros id' loan' H.
    destruct (decide (id = id')) as [<-|Hne].
    + rewrite lookup_insert_eq in H. injection H as <-.
      destruct (Hl id loan Hloan) as (H1 & H2 & H3 & H4 & _). cbn.
      split; [assumption|]. split; [assumption|]. split; [assumption|].
      split; [assumption|]. split; [reflexivity|].
      eexists. split; [apply list_lookup_middle; reflexivity|reflexivity].
    + rewrite lookup_insert_ne in H by assumption.
      destruct (Hl id' loan' H) as (H1 & H2 & H3 & H4 & H5).
      split; [assumption|]. split; [assumption|]. split; [assumption|].
      split; [assumption|].
      destruct (collateral_deposit loan') as [r|]; [|assumption].
      destruct H5 as (H5 & d & Hd & Hdl). split; [assumption|].
      exists d. split; [|assumption]. apply lookup_app_l_Some. assumption.
  - intros key r H.
    destruct (decide ("DEPOSIT_" +:+ pretty (transaction_counter s) = key)) as [<-|Hne].
    + rewrite lookup_insert_eq in H. injection H as <-.
      split; [exists (transaction_counter s); split; [lia|reflexivity]|].
      eexists. split; [apply list_lookup_middle; reflexivity|reflexivity].
    + rewrite lookup_insert_ne in H by assumption.
      destruct (Hv key r H) as ((k & Hk & ->) & d & Hd & Hdk).
      split; [exists k; split; [lia|reflexivity]|].
      exists d. split; [apply lookup_app_l_Some; assumption|assumption].
  - intros r d H. apply lookup_app_Some in H as [H|[Hlen H]].
    + pose proof (Ho r d H) as Hreg.
      rewrite lookup_insert_ne; [assumption|].
      intros Heqid. unfold ref in *. congruence.
    + destruct (r - length (objs s))%nat as [|n] eqn:En; [|discriminate].
      cbn in H. injection H as <-. cbn. rewrite lookup_insert_eq. f_equal. lia.
  - assumption.
  - rewrite map_size_insert_Some by eauto. assumption.
  - rewrite map_size_insert_None by assumption. rewrite length_app. cbn. lia.
  - rewrite Hli, length_app. cbn. rewrite Nat.add_1_r, seq_S. reflexivity.
  - destruct (objs s); reflexivity.
Qed.


Lemma lookup_released_eq (l : list CollateralDeposit) (r : nat) d :
  l !! r = Some d ->
  <[r := set_dep_status d RELEASED]> l !! r = Some (set_dep_status d RELEASED).
Proof. intros Hd. apply list_lookup_insert_eq. eapply lookup_lt_Some. eassumption. Qed.

Lemma lookup_released_ne (l : list CollateralDeposit) (r r' : nat) d :
  r <> r' -> <[r := set_dep_status d RELEASED]> l !! r' = l !! r'.
Proof. intros Hne. apply list_lookup_insert_ne. assumption. Qed.

Lemma ledger_invariant_repay s id amount from now :
  ledger_invariant s ->
  ledger_invariant (process_repayment s id amount from now).2.
Proof.
  intros Hinv.
  destruct (loan_accounts s !! id) as [loan|] eqn:Hloan.
  2: { unfold process_repayment. rewrite Hloan. assumption. }
  destruct (Decimal.ltb amount (total_owed loan now)) eqn:Hlt.
  { rewrite (process_repayment_short s id loan amount from now Hloan Hlt). assumption. }
  destruct Hinv as [Hl Hv Ho Ht Hlc Hdc Hli Hvs].
  destruct (Hl id loan Hloan) as (L1 & L2 & L3 & L4 & L5).
  destruct (collateral_deposit loan) as [r|] eqn:Hdep.
  - destruct L5 as (Hst & d & Hd & Hdl).
    rewrite (process_repayment_covered s id loan r d amount from now Hloan Hdep Hd Hlt).
    unfold ref in *.
    split; cbn [snd loan_accounts escrow_vault deposits objs fund_transfers
                collateral_deposits transaction_counter loan_counter vault_status].
    + intros id' loan' H.
      assert (Hobj : forall r', (exists d', objs s !! r' = Some d' /\ dep_loan_id d' = id') ->
                exists d', <[r := set_dep_status d RELEASED]> (objs s) !! r' = Some d'
                           /\ dep_loan_id d' = id').
      { intros r' (d' & Hd' & Hl'). destruct (decide (r = r')) as [<-|Hne].
        - rewrite (lookup_released_eq _ _ _ Hd).
          eexists. split; [reflexivity|]. cbn. unfold ref in *. congruence.
        - rewrite lookup_released_ne by assumption. eauto. }
      destruct (decide (id = id')) as [<-|Hne].
      * rewrite lookup_insert_eq in H. injection H as <-. cbn. rewrite Hdep.
        split; [assumption|]. split; [assumption|]. split; [assumption|].
        split; [assumption|]. split; [assumption|]. apply Hobj. eauto.
      * rewrite lookup_insert_ne in H by assumption.
        destruct (Hl id' loan' H) as (H1 & H2 & H3 & H4 & H5).
        split; [assumption|]. split; [assumption|]. split; [assumption|].
        split; [assumption|].
        destruct (collateral_deposit loan') as [r'|]; [|assumption].
        destruct H5 as (H5 & H6). split; [assumption|]. apply Hobj. assumption.
    + intros key r' H. destruct (Hv key r' H) as (Hk & d' & Hd' & Hdk).
      unfold ref in *.
      split; [assumption|]. destruct (decide (r = r')) as [<-|Hne].
      * rewrite (lookup_released_eq _ _ _ Hd).
        eexists. split; [reflexivity|]. cbn. unfold ref in *. congruence.
      * rewrite lookup_released_ne by assumption. eauto.
    + intros r' d' H. unfold ref in *. destruct (decide (r = r')) as [<-|Hne].
      * rewrite (lookup_released_eq _ _ _ Hd) in H. injection H as <-. cbn. auto.
      * rewrite lookup_released_ne in H by assumption. auto.
    + assumption.
    + rewrite map_size_insert_Some by eauto. assumption.
    + rewrite length_insert. assumption.
    + rewrite length_insert. assumption.
    + rewrite Hvs. destruct (objs s) as [|a l]; [reflexivity|]. destruct r; reflexivity.
  - rewrite (process_repayment_no_deposit s id loan amount from now Hloan Hdep Hlt).
    split; cbn [snd loan_accounts escrow_vault deposits objs fund_transfers
                collateral_deposits transaction_counter loan_counter vault_status
                set_lending_pool_balance set_loan_accounts]; try assumption.
    + intros id' loan' H. destruct (decide (id = id')) as [<-|Hne].
      * rewrite lookup_insert_eq in H. injection H as <-. cbn. rewrite Hdep.
        auto.
      * rewrite lookup_insert_ne in H by assumption. auto.
    + rewrite map_size_insert_Some by eauto. assumption.
Qed.

Lemma ledger_invariant_disburse s id now :
  ledger_invariant s ->
  ledger_invariant (disburse_funds sha256_hexdigest isoformat s id now).2.
Proof.
  intros Hinv. destruct (disburse_funds_result s id now) as [H|H]; rewrite H.
  - assumption.
  - apply ledger_invariant_counter. assumption.
Qed.

(** The ways in which [complete_loan_setup] ends. *)
Lemma complete_loan_setup_cases self id amount price now :
  let after_deposit := (deposit_collateral self id amount price now).2 in
  let result := complete_loan_setup sha256_hexdigest isoformat self id amount price now in
  ((deposit_collateral self id amount price now).1 = None
   /\ result = (Ret (false, Failed_to_deposit_collateral), after_deposit))
  \/ (is_Some (deposit_collateral self id amount price now).1
      /\ ((exists e, result = (Raise e, after_deposit))
          \/ (exists hf, result = (Ret (false, Collateral_health_check_failed hf),
                                   after_deposit))
          \/ result = (Ret (false, Failed_to_disburse_funds), after_deposit)
          \/ result = (Raise (AttributeError "timestamp"),
                       set_transaction_counter after_deposit
                         (S (transaction_counter after_deposit))))).
Proof.
  cbv zeta. unfold complete_loan_setup.
  destruct (deposit_collateral self id amount price now) as [[r|] s'];
    cbn [fst snd]; [right|left; split; reflexivity].
  split; [eauto|].
  destruct (verify_collateral_health s' id price) as [[[|] hf]|e]; [| |left; eauto].
  - destruct (disburse_funds_result s' id now) as [H|H]; rewrite H; auto.
  - right. left. eauto.
Qed.

Lemma ledger_invariant_setup s id amount price now :
  ledger_invariant s ->
  ledger_invariant
    (complete_loan_setup sha256_hexdigest isoformat s id amount price now).2.
Proof.
  intros Hinv.
  pose proof (ledger_invariant_deposit s id amount price now Hinv) as Hdep.
  destruct (complete_loan_setup_cases s id amount price now)
    as [[_ H]|[_ [(e & H)|[(hf & H)|[H|H]]]]]; rewrite H; cbn [snd];
    try assumption.
  apply ledger_invariant_counter. assumption.
Qed.

Lemma ledger_invariant_step c s :
  ledger_invariant s -> ledger_invariant (step sha256_hexdigest isoformat c s).
Proof.
  intros Hinv. destruct c; cbn [step].
  - apply ledger_invariant_create. assumption.
  - apply ledger_invariant_deposit. assumption.
  - apply ledger_invariant_disburse. assumption.
  - apply ledger_invariant_setup. assumption.
  - apply ledger_invariant_repay. assumption.
Qed.

Lemma ledger_invariant_run calls :
  ledger_invariant (run sha256_hexdigest isoformat calls).
Proof.
  unfold run. generalize ledger_invariant_init. generalize init.
  induction calls as [|c calls IH]; intros s Hinv; cbn [fold_left].
  - assumption.
  - apply IH. apply ledger_invariant_step. assumption.
Qed.


Lemma size_omap_total {A B} (f : A -> option B) (m : gmap string A) :
  (forall k a, m !! k = Some a -> is_Some (f a)) -> size (omap f m) = size m.
Proof.
  induction m as [|k a m Hk Hfirst IH] using map_first_key_ind; intros Hf.
  - rewrite omap_empty. reflexivity.
  - destruct (Hf k a (lookup_insert_eq m k a)) as [b Hb].
    rewrite (omap_insert_Some f m k a b Hb).
    rewrite !map_size_insert_None;
      [|assumption|rewrite lookup_omap, Hk; reflexivity].
    f_equal. apply IH. intros k' a' Hk'. apply (Hf k' a').
    rewrite lookup_insert_ne; [assumption|]. intros <-. congruence.
Qed.

Lemma filter_all {A} (P : A -> Prop) `{forall x, Decision (P x)} (l : list A) :
  (forall x, x ∈ l -> P x) -> filter P l = l.
Proof.
  induction l as [|a l IH]; intros Hall; [reflexivity|].
  rewrite filter_cons_True by (apply Hall; left).
  f_equal. apply IH. intros x Hx. apply Hall. right. assumption.
Qed.

Lemma filter_none {A} (P : A -> Prop) `{forall x, Decision (P x)} (l : list A) :
  (forall x, x ∈ l -> ~ P x) -> filter P l = [].
Proof.
  induction l as [|a l IH]; intros Hall; [reflexivity|].
  rewrite filter_cons_False by (apply Hall; left).
  apply IH. intros x Hx. apply Hall. right. assumption.
Qed.

Lemma add_days_Ret t n r :
  add_days t n = Ret r ->
  r = t + timedelta_days n
  /\ - timedelta_max_days <= n <= timedelta_max_days
  /\ 0 <= t + timedelta_days n <= datetime_max.
Proof.
  unfold add_days.
  destruct (Z.ltb_spec n (- timedelta_max_days)); [discriminate|].
  destruct (Z.ltb_spec timedelta_max_days n); [discriminate|]. cbn [orb]. cbv zeta.
  destruct (Z.ltb_spec (t + timedelta_days n) 0); [discriminate|].
  destruct (Z.ltb_spec datetime_max (t + timedelta_days n)); [discriminate|].
  cbn [orb]. intros [= <-]. lia.
Qed.

Lemma add_days_Raise t n e :
  add_days t n = Raise e ->
  e = OverflowError
  /\ ~ (- timedelta_max_days <= n <= timedelta_max_days
        /\ 0 <= t + timedelta_days n <= datetime_max).
Proof.
  unfold add_days.
  destruct (Z.ltb_spec n (- timedelta_max_days));
    [intros [= <-]; split; [reflexivity|lia]|].
  destruct (Z.ltb_spec timedelta_max_days n);
    [intros [= <-]; split; [reflexivity|lia]|]. cbn [orb]. cbv zeta.
  destruct (Z.ltb_spec (t + timedelta_days n) 0);
    [intros [= <-]; split; [reflexivity|lia]|].
  destruct (Z.ltb_spec datetime_max (t + timedelta_days n));
    [intros [= <-]; split; [reflexivity|lia]|].
  discriminate.
Qed.

(** X1.  [create_loan_account] returns a loan exactly when the period is at
    most 999999999 days in either direction and the due date, counted from
    the first reading of the clock, lies in the years 1 to 9999.  The loan
    has the identifier LOAN_n of the next loan number, and
    [get_loan_details] then reports it as pending, with the amounts of the
    call, the collateral value as amount times price, the second reading of
    the clock as origination, the due date [days] days after the first,
    and nothing received, repaid or accrued.  Otherwise the call raises
    [OverflowError]: the loan number is used up and no loan is registered.
    [get_loan_details] answers [None] exactly for the identifiers that are
    not registered. *)
Theorem loan_details_after_creation self wallet amount rate camount cprice ltv days
    now_due now :
  let created :=
    create_loan_account self wallet amount rate camount cprice ltv days now_due now in
  match created.1 with
  | Ret loan =>
      loan_id loan = "LOAN_" +:+ pretty (S (loan_counter self))
      /\ get_loan_details created.2 (loan_id loan)
         = Some {| details_loan_id := "LOAN_" +:+ pretty (S (loan_counter self));
                   details_status := "pending";
                   details_borrower := wallet;
                   details_loan_amount := amount;
                   details_interest_rate := rate;
                   details_collateral_amount := camount;
                   details_collateral_value := Decimal.mul camount cprice;
                   details_ltv_ratio := ltv;
                   details_originated := now;
                   details_due_date := now_due + timedelta_days days;
                   details_borrowed_received := D 0;
                   details_repaid := D 0;
                   details_accrued_interest := D 0 |}
      /\ loan_counter created.2 = S (loan_counter self)
      /\ - timedelta_max_days <= days <= timedelta_max_days
      /\ 0 <= now_due + timedelta_days days <= datetime_max
  | Raise e =>
      e = OverflowError
      /\ created.2 = set_loan_counter self (S (loan_counter self))
      /\ ~ (- timedelta_max_days <= days <= timedelta_max_days
            /\ 0 <= now_due + timedelta_days days <= datetime_max)
  end
  /\ (forall id, get_loan_details self id = None <-> loan_accounts self !! id = None).
Proof.
  cbv zeta. split.
  - unfold create_loan_account.
    destruct (add_days now_due days) as [due|e] eqn:Hdue; cbn [fst snd].
    + destruct (add_days_Ret _ _ _ Hdue) as (-> & Hdays & Hrange).
      cbn [loan_id set_loan_counter loan_counter set_loan_accounts].
      split; [reflexivity|]. split; [|auto].
      unfold get_loan_details. cbn [loan_accounts set_loan_accounts set_loan_counter].
      rewrite lookup_insert_eq. reflexivity.
    + destruct (add_days_Raise _ _ _ Hdue) as (-> & Hout). auto.
  - intros id. unfold get_loan_details.
    destruct (loan_accounts self !! id); split; congruence.
Qed.

(** X2.  After any sequence of calls of [create_loan_account],
    [deposit_collateral], [disburse_funds], [complete_loan_setup] and
    [process_repayment] on a new system, every loan is [PENDING] or
    [COLLATERAL_LOCKED]: no loan is ever funded or completed.  It is
    [COLLATERAL_LOCKED] exactly when it holds a deposit, it has no funds
    transfer, it has received nothing, and it is registered under its own
    identifier. *)
Theorem statuses_of_a_run calls id loan :
  loan_accounts (run sha256_hexdigest isoformat calls) !! id = Some loan ->
  (status loan = PENDING \/ status loan = COLLATERAL_LOCKED)
  /\ (status loan = COLLATERAL_LOCKED <-> is_Some (collateral_deposit loan))
  /\ funds_transfer loan = None
  /\ borrowed_amount_received loan = D 0
  /\ loan_id loan = id.
Proof.
  intros Hloan.
  destruct (inv_loans _ (ledger_invariant_run calls) id loan Hloan)
    as (H1 & _ & H3 & H4 & H5).
  destruct (collateral_deposit loan) as [r|].
  - destruct H5 as (H5 & _). repeat split; eauto.
  - repeat split; try assumption; [left; assumption| |].
    + intros Hs. rewrite H5 in Hs. discriminate.
    + intros [x Hx]. discriminate.
Qed.

(** X3.  After any such sequence of calls [get_pool_status] reports no
    completed loan, every registered loan as active, no transfer processed
    and nothing disbursed.  The registered loans are at most as many as the
    loan counter says. *)
Theorem pool_status_of_a_run calls :
  let s := run sha256_hexdigest isoformat calls in
  pool_completed_loans (get_pool_status s) = 0%nat
  /\ pool_active_loans (get_pool_status s) = size (loan_accounts s)
  /\ pool_transfers_processed (get_pool_status s) = 0%nat
  /\ pool_total_disbursed (get_pool_status s) = D 0
  /\ fund_transfers s = []
  /\ (size (loan_accounts s) <= loan_counter s)%nat.
Proof.
  cbv zeta. pose proof (ledger_invariant_run calls) as Hinv.
  set (s := run sha256_hexdigest isoformat calls) in *.
  assert (Hnot : forall kl, kl ∈ map_to_list (loan_accounts s) -> status kl.2 <> COMPLETED).
  { intros [k l] Hin. apply elem_of_map_to_list in Hin.
    destruct (inv_loans _ Hinv k l Hin) as (_ & _ & _ & _ & H5). cbn.
    destruct (collateral_deposit l); [destruct H5 as (-> & _)|rewrite H5]; discriminate. }
  unfold get_pool_status. cbn. rewrite (inv_transfers _ Hinv). cbn.
  split; [|split; [|repeat split]].
  - rewrite filter_none; [reflexivity|]. intros kl Hin Hc. exact (Hnot kl Hin Hc).
  - rewrite filter_all by assumption. apply length_map_to_list.
  - apply (inv_loan_count _ Hinv).
Qed.

(** X4.  After any such sequence of calls the next identifier LOAN_n is
    the identifier of no registered loan, and [create_loan_account] leaves
    every registered loan as it is.  When it returns a loan, the loan has
    that identifier and is registered under it, and there is one loan
    more; when it raises, the loans are as they were. *)
Theorem loan_ids_are_fresh calls wallet amount rate camount cprice ltv days now_due now id :
  let s := run sha256_hexdigest isoformat calls in
  let created :=
    create_loan_account s wallet amount rate camount cprice ltv days now_due now in
  is_Some (loan_accounts s !! id) ->
  id <> "LOAN_" +:+ pretty (S (loan_counter s))
  /\ loan_accounts created.2 !! id = loan_accounts s !! id
  /\ (forall loan,
        created.1 = Ret loan ->
        loan_id loan = "LOAN_" +:+ pretty (S (loan_counter s))
        /\ loan_accounts created.2 !! loan_id loan = Some loan
        /\ size (loan_accounts created.2) = S (size (loan_accounts s)))
  /\ (forall e, created.1 = Raise e -> loan_accounts created.2 = loan_accounts s).
Proof.
  cbv zeta. pose proof (ledger_invariant_run calls) as Hinv.
  set (s := run sha256_hexdigest isoformat calls) in *.
  intros [loan Hloan].
  destruct (inv_loans _ Hinv id loan Hloan) as (_ & (k & Hk & Hid) & _).
  assert (Hne : id <> "LOAN_" +:+ pretty (S (loan_counter s))).
  { intros E. rewrite Hid in E. apply loan_id_inj in E. lia. }
  assert (Hfresh : loan_accounts s !! ("LOAN_" +:+ pretty (S (loan_counter s))) = None).
  { destruct (loan_accounts s !! ("LOAN_" +:+ pretty (S (loan_counter s))))
      as [l|] eqn:E; [|reflexivity].
    destruct (inv_loans _ Hinv _ _ E) as (_ & (j & Hj & Hjd) & _).
    apply loan_id_inj in Hjd. lia. }
  split; [assumption|].
  unfold create_loan_account.
  destruct (add_days now_due days) as [due|e];
    cbn [fst snd loan_id loan_accounts set_loan_accounts set_loan_counter loan_counter].
  - split; [apply lookup_insert_ne; congruence|]. split; [|discriminate].
    intros l [= <-]. cbn [loan_id]. split; [reflexivity|].
    split; [apply lookup_insert_eq|apply map_size_insert_None; assumption].
  - split; [reflexivity|]. split; [discriminate|]. reflexivity.
Qed.

(** X5.  After any such sequence of calls, the deposit that a loan holds is
    a stored deposit made for that loan, and the vault registers it under
    its identifier DEPOSIT_k, with k below the transaction counter. *)
Theorem deposits_are_registered calls id loan r :
  let s := run sha256_hexdigest isoformat calls in
  loan_accounts s !! id = Some loan ->
  collateral_deposit loan = Some r ->
  exists d,
    objs s !! r = Some d
    /\ dep_loan_id d = id
    /\ deposits (escrow_vault s) !! deposit_id d = Some r
    /\ (exists k, (k < transaction_counter s)%nat
                  /\ deposit_id d = "DEPOSIT_" +:+ pretty k).
Proof.
  cbv zeta. pose proof (ledger_invariant_run calls) as Hinv.
  set (s := run sha256_hexdigest isoformat calls) in *.
  intros Hloan Hdep.
  destruct (inv_loans _ Hinv id loan Hloan) as (_ & _ & _ & _ & H5).
  rewrite Hdep in H5. destruct H5 as (_ & d & Hd & Hdl).
  exists d. split; [assumption|]. split; [assumption|].
  pose proof (inv_objs _ Hinv r d Hd) as Hreg. split; [assumption|].
  destruct (inv_vault _ Hinv _ _ Hreg) as (Hk & _). assumption.
Qed.

(** X6.  After any such sequence of calls the vault registers exactly the
    deposits that were made, [collateral_deposits] lists them in the order
    they were made, and [get_escrow_status] has an entry for each.  The
    status of the vault is empty before the first deposit and locked from
    then on, also when every deposit has been released. *)
Theorem vault_bookkeeping_of_a_run calls :
  let s := run sha256_hexdigest isoformat calls in
  size (deposits (escrow_vault s)) = length (objs s)
  /\ collateral_deposits s = seq 0 (length (objs s))
  /\ size (report_deposits (get_escrow_status s)) = length (objs s)
  /\ report_status (get_escrow_status s)
     = match objs s with [] => "empty" | _ :: _ => "locked" end.
Proof.
  cbv zeta. pose proof (ledger_invariant_run calls) as Hinv.
  set (s := run sha256_hexdigest isoformat calls) in *.
  split; [apply (inv_deposit_count _ Hinv)|]. split; [apply (inv_list _ Hinv)|].
  split.
  - rewrite <- (inv_deposit_count _ Hinv). unfold get_escrow_status.
    cbn [report_deposits].
    apply size_omap_total. intros key r E.
    destruct (inv_vault _ Hinv key r E) as (_ & d & Hd & _).
    unfold ref in *. rewrite Hd. cbn. eauto.
  - unfold get_escrow_status. cbn [report_status]. rewrite (inv_vault_status _ Hinv).
    destruct (objs s); reflexivity.
Qed.


(** X7.  After any such sequence of calls, a repayment that covers what is
    owed on a loan with a deposit shows in [get_escrow_status]: the entry
    of that deposit is released, with its loan, amount, value and lock date
    as they were. *)
Theorem repayment_shows_in_the_vault calls id loan r amount from now :
  let s := run sha256_hexdigest isoformat calls in
  loan_accounts s !! id = Some loan ->
  collateral_deposit loan = Some r ->
  Decimal.geb amount (total_owed loan now) = true ->
  exists d,
    objs s !! r = Some d
    /\ report_deposits (get_escrow_status (process_repayment s id amount from now).2)
         !! deposit_id d
       = Some {| entry_loan_id := id; entry_exen_amount := exen_amount d;
                 entry_value_usd := collateral_value_usd d;
                 entry_status := "released";
                 entry_locked_until := locked_until d |}.
Proof.
  cbv zeta. pose proof (ledger_invariant_run calls) as Hinv.
  set (s := run sha256_hexdigest isoformat calls) in *.
  intros Hloan Hdep Hge. apply geb_iff_not_ltb in Hge.
  destruct (inv_loans _ Hinv id loan Hloan) as (_ & _ & _ & _ & H5).
  rewrite Hdep in H5. destruct H5 as (_ & d & Hd & Hdl).
  exists d. split; [assumption|].
  rewrite (process_repayment_covered s id loan r d amount from now Hloan Hdep Hd Hge).
  unfold get_escrow_status. cbn [snd report_deposits objs escrow_vault deposits].
  pose proof (inv_objs _ Hinv r d Hd) as Hreg. unfold ref in *.
  rewrite lookup_omap, Hreg. cbn [mbind option_bind].
  rewrite (lookup_released_eq _ _ _ Hd). rewrite <- Hdl. reflexivity.
Qed.

(** X8.  [process_repayment], accepted or refused, leaves the registry of
    the vault, the two counters, the transfers and the list of deposits as
    they were, stores no deposit, changes no other loan and no deposit but
    the one that the loan holds.  For an unknown loan it returns [False]
    and the state as it was. *)
Theorem process_repayment_frame self id amount from now :
  let after := (process_repayment self id amount from now).2 in
  deposits (escrow_vault after) = deposits (escrow_vault self)
  /\ transaction_counter after = transaction_counter self
  /\ loan_counter after = loan_counter self
  /\ fund_transfers after = fund_transfers self
  /\ collateral_deposits after = collateral_deposits self
  /\ length (objs after) = length (objs self)
  /\ (forall id', id' <> id -> loan_accounts after !! id' = loan_accounts self !! id')
  /\ (forall r, (collateral_deposit <$> loan_accounts self !! id) <> Some (Some r) ->
                objs after !! r = objs self !! r)
  /\ (loan_accounts self !! id = None ->
      process_repayment self id amount from now = (false, self)).
Proof.
  cbv zeta. unfold process_repayment.
  destruct (loan_accounts self !! id) as [loan|] eqn:Hloan.
  2: { repeat split; auto. }
  destruct (Decimal.ltb amount (total_owed loan now)).
  { repeat split; auto; discriminate. }
  cbn [set_repaid collateral_deposit snd].
  assert (Hrel : forall s r,
    let s' := release_collateral s r in
    deposits (escrow_vault s') = deposits (escrow_vault s)
    /\ transaction_counter s' = transaction_counter s
    /\ loan_counter s' = loan_counter s
    /\ fund_transfers s' = fund_transfers s
    /\ collateral_deposits s' = collateral_deposits s
    /\ length (objs s') = length (objs s)
    /\ loan_accounts s' = loan_accounts s
    /\ (forall r', r' <> r -> objs s' !! r' = objs s !! r')).
  { intros s r. cbv zeta. unfold release_collateral.
    destruct (objs s !! r) as [d|]; cbn; repeat split; try reflexivity.
    - apply length_insert.
    - intros r' Hne. apply list_lookup_insert_ne. congruence. }
  destruct (collateral_deposit loan) as [r|] eqn:Hdep.
  - destruct (Hrel (set_loan_accounts self
                      (<[id := set_repaid loan amount (accrued_interest_at loan now)]>
                         (loan_accounts self))) r)
      as (R1 & R2 & R3 & R4 & R5 & R6 & R7 & R8).
    cbn [set_lending_pool_balance escrow_vault transaction_counter loan_counter
         fund_transfers collateral_deposits objs loan_accounts].
    repeat split; try assumption.
    + intros id' Hne. rewrite R7. cbn. apply lookup_insert_ne. congruence.
    + intros r' Hne. rewrite R8; [reflexivity|]. cbn in Hne. congruence.
    + discriminate.
  - cbn. repeat split; try reflexivity.
    + intros id' Hne. apply lookup_insert_ne. congruence.
    + discriminate.
Qed.

(** X9.  [disburse_funds] returns [None] or raises [AttributeError], and in
    both cases the loans, the vault, the balance of the pool, the list of
    transfers and the deposits are as they were: it moves no funds.  It
    returns [None] exactly when the whole state is as it was; when it
    raises, the transaction counter has advanced. *)
Theorem disburse_funds_transfers_nothing self id now :
  let result := disburse_funds sha256_hexdigest isoformat self id now in
  (result.1 = Ret None \/ result.1 = Raise (AttributeError "timestamp"))
  /\ loan_accounts result.2 = loan_accounts self
  /\ escrow_vault result.2 = escrow_vault self
  /\ lending_pool_balance result.2 = lending_pool_balance self
  /\ fund_transfers result.2 = fund_transfers self
  /\ objs result.2 = objs self
  /\ (result.1 = Ret None <-> result.2 = self).
Proof.
  cbv zeta. destruct (disburse_funds_result self id now) as [H|H]; rewrite H; cbn.
  - repeat split; auto.
  - repeat split; auto; try discriminate.
    intros E. apply (f_equal transaction_counter) in E. cbn in E. lia.
Qed.




Lemma release_collateral_loans self r :
  loan_accounts (release_collateral self r) = loan_accounts self.
Proof. unfold release_collateral. destruct (objs self !! r); reflexivity. Qed.

(** X11.  [verify_collateral_health] reads the loan only: a repayment, which
    releases the collateral, changes its answer for no loan.  A loan
    reported healthy holds a deposit, and its health factor, the collateral
    amount times the price over the principal, is at least 1.0. *)
Theorem collateral_health_ignores_release self id amount from now id' price :
  verify_collateral_health (process_repayment self id amount from now).2 id' price
  = verify_collateral_health self id' price
  /\ (forall healthy hf,
        verify_collateral_health self id' price = Ret (healthy, hf) ->
        healthy = true ->
        exists loan r,
          loan_accounts self !! id' = Some loan
          /\ collateral_deposit loan = Some r
          /\ hf = Decimal.div (Decimal.mul (collateral_amount_exen loan) price)
                    (loan_amount_usd loan)
          /\ Decimal.leb (Dlit 10 1) hf = true).
Proof.
  split.
  - unfold process_repayment.
    destruct (loan_accounts self !! id) as [loan|] eqn:Hloan; [|reflexivity].
    destruct (Decimal.ltb amount (total_owed loan now)); [reflexivity|].
    cbn [snd]. unfold verify_collateral_health at 1.
    cbn [loan_accounts set_lending_pool_balance].
    assert (Hl : loan_accounts
                   match collateral_deposit
                           (set_repaid loan amount (accrued_interest_at loan now)) with
                   | Some r =>
                       release_collateral
                         (set_loan_accounts self
                            (<[id := set_repaid loan amount (accrued_interest_at loan now)]>
                               (loan_accounts self))) r
                   | None =>
                       set_loan_accounts self
                         (<[id := set_repaid loan amount (accrued_interest_at loan now)]>
                            (loan_accounts self))
                   end
                 = <[id := set_repaid loan amount (accrued_interest_at loan now)]>
                     (loan_accounts self)).
    { destruct (collateral_deposit _); [rewrite release_collateral_loans|]; reflexivity. }
    rewrite Hl. unfold verify_collateral_health.
    destruct (decide (id = id')) as [<-|Hne].
    + rewrite lookup_insert_eq, Hloan. reflexivity.
    + rewrite lookup_insert_ne by assumption. reflexivity.
  - intros healthy hf. unfold verify_collateral_health.
    destruct (loan_accounts self !! id') as [loan|]; [|intros [= <- _]; discriminate].
    destruct (collateral_deposit loan) as [r|] eqn:Hdep; [|intros [= <- _]; discriminate].
    destruct (Decimal.eqb (loan_amount_usd loan) (D 0)); [discriminate|].
    intros [= <- <-] Hh. exists loan, r. unfold Decimal.geb in Hh. auto.
Qed.

End LedgerRuns.

(** * The decisions in general *)

Section DecisionExtras.
Import Decision.

Lemma make_decision_preliminary self req now :
  check_fired self req = true ->
  exists d,
    make_decision self req now
    = (Ret d, set_decision_counter self (S (decision_counter self)))
    /\ decision_id d = "DECISION_" +:+ pretty (S (decision_counter self))
    /\ dec_request_id d = request_id req
    /\ proposed_terms d = None /\ conditions d = [] /\ approval_reason d = ""
    /\ (status d = DENIED \/ status d = PENDING_REVIEW)
    /\ (status d = PENDING_REVIEW <-> manual_review_required d = true)
    /\ (status d = PENDING_REVIEW <-> is_Some (manual_review_reason d))
    /\ (status d = DENIED <-> is_Some (denial_reason d)).
Proof.
  unfold check_fired, make_decision.
  cbn [min_credit_score min_transactions max_loan_amount_usd min_loan_amount_usd
       set_decision_counter decision_counter].
  intros H.
  destruct (Decimal.ltb (credit_score req) (min_credit_score self));
    [|destruct (transaction_count req <? min_transactions self);
      [|destruct (Decimal.gtb (borrow_amount_usd req) (max_loan_amount_usd self));
        [|destruct (Decimal.ltb (borrow_amount_usd req) (min_loan_amount_usd self));
          [|discriminate H]]]];
    eexists; (split; [reflexivity|]); cbn;
    repeat split; auto; try discriminate; try (intros [x Hx]; discriminate); eauto.
Qed.

Lemma calculate_loan_terms_counter self n req a :
  calculate_loan_terms (set_decision_counter self n) req a
  = calculate_loan_terms self req a.
Proof. unfold calculate_loan_terms. cbn [base_ltv set_decision_counter]. reflexivity. Qed.

Lemma make_decision_assessed_form self req now :
  check_fired self req = false ->
  make_decision self req now
  = match perform_risk_assessment req with
    | Raise e => (Raise e, set_decision_counter self (S (decision_counter self)))
    | Ret a =>
        match calculate_loan_terms self req a with
        | Raise e => (Raise e, set_decision_counter self (S (decision_counter self)))
        | Ret terms =>
            let d := assessed_decision
                       ("DECISION_" +:+ pretty (S (decision_counter self)))
                       req now a terms in
            (Ret d,
             set_decisions (set_decision_counter self (S (decision_counter self)))
               (decisions self ++ [d]))
        end
    end.
Proof.
  unfold check_fired, make_decision. cbv zeta.
  cbn [min_credit_score min_transactions max_loan_amount_usd min_loan_amount_usd
       set_decision_counter decision_counter decisions].
  intros H.
  destruct (Decimal.ltb (credit_score req) (min_credit_score self)); [discriminate H|].
  destruct (transaction_count req <? min_transactions self); [discriminate H|].
  destruct (Decimal.gtb (borrow_amount_usd req) (max_loan_amount_usd self));
    [discriminate H|].
  destruct (Decimal.ltb (borrow_amount_usd req) (min_loan_amount_usd self));
    [discriminate H|].
  destruct (perform_risk_assessment req) as [a|e]; [|reflexivity].
  rewrite calculate_loan_terms_counter.
  destruct (calculate_loan_terms self req a) as [terms|e]; [|reflexivity].
  unfold assessed_decision, outcome_of.
  repeat (destruct (Decimal.leb (overall_risk_score a) _)); reflexivity.
Qed.


Lemma all4_In f l1 l2 l3 l4 c r l b :
  all4 f l1 l2 l3 l4 = true ->
  In c l1 -> In r l2 -> In l l3 -> In b l4 -> f c r l b = true.
Proof.
  unfold all4. intros H Hc Hr Hl Hb.
  rewrite forallb_forall in H. specialize (H c Hc). cbv beta in H.
  rewrite forallb_forall in H. specialize (H r Hr). cbv beta in H.
  rewrite forallb_forall in H. specialize (H l Hl). cbv beta in H.
  rewrite forallb_forall in H. exact (H b Hb).
Qed.

Lemma all_risks_agree :
  all4 (fun c r l b => risk_agrees c r l b)
    collateral_risk_values credit_risk_values liquidity_risk_values
    behavioral_risk_values = true.
Proof. vm_compute. reflexivity. Qed.

Lemma collateral_risk_cases req :
  exists c, assess_collateral_risk req = D c /\ In c collateral_risk_values.
Proof.
  unfold assess_collateral_risk, collateral_risk_values.
  repeat (destruct (Decimal.leb _ _)); eexists; (split; [reflexivity|cbn; tauto]).
Qed.

Lemma credit_risk_cases req :
  exists c, assess_credit_risk req = D c /\ In c credit_risk_values.
Proof.
  unfold assess_credit_risk, credit_risk_values.
  repeat (destruct (Decimal.geb _ _)); eexists; (split; [reflexivity|cbn; tauto]).
Qed.

Lemma liquidity_risk_cases req :
  exists c, assess_liquidity_risk req = D c /\ In c liquidity_risk_values.
Proof.
  unfold assess_liquidity_risk, liquidity_risk_values. cbv zeta.
  repeat (destruct (Decimal.geb _ _)); eexists; (split; [reflexivity|cbn; tauto]).
Qed.

Lemma behavioral_risk_cases req :
  exists c, assess_behavioral_risk req = D c /\ In c behavioral_risk_values.
Proof.
  unfold assess_behavioral_risk, behavioral_risk_values. cbv zeta.
  destruct (transaction_count req <? 5);
    [|destruct (transaction_count req <? 20); [|destruct (transaction_count req <? 50)]];
  (destruct (Decimal.ltb (transaction_success_rate req) (D 80));
    [|destruct (Decimal.ltb (transaction_success_rate req) (D 95))]);
  (destruct (Decimal.leb (net_flow req) (D 0));
    [|destruct (Decimal.ltb (net_flow req) _)]);
  eexists; (split; [vm_compute; reflexivity|cbn; tauto]).
Qed.


Lemma leb_Dlit2 (n k : Z) : Decimal.leb (Dlit n 2) (D k) = (n <=? 100 * k).
Proof.
  apply eq_true_iff_eq.
  rewrite (leb_scaled (Dlit n 2) (D k) (-2)) by (cbn; lia).
  rewrite Z.leb_le. cbn [Dlit Decimal.coef Decimal.expo Decimal.of_Z].
  change (- (2) - -2) with 0. change (0 - -2) with 2.
  change (10 ^ 0) with 1. change (10 ^ 2) with 100. lia.
Qed.

Lemma level_of_Dlit2 (n : Z) : level_of (Dlit n 2) = level_of_number n.
Proof.
  unfold level_of, level_of_number. rewrite !leb_Dlit2.
  change (100 * 15) with 1500. change (100 * 30) with 3000.
  change (100 * 50) with 5000. change (100 * 75) with 7500. reflexivity.
Qed.

Lemma perform_risk_assessment_value req :
  exists c r l b,
    In c collateral_risk_values /\ In r credit_risk_values
    /\ In l liquidity_risk_values /\ In b behavioral_risk_values
    /\ 525 <= weighted_number c r l b <= 8900
    /\ perform_risk_assessment req
       = Ret {| collateral_risk := D c; credit_risk := D r; liquidity_risk := D l;
                behavioral_risk := D b;
                overall_risk_score := Dlit (weighted_number c r l b) 2;
                risk_level := level_of_number (weighted_number c r l b);
                key_risk_factors :=
                  (if Decimal.gtb (D c) (D 50) then ["High collateral risk"] else [])
                  ++ (if Decimal.gtb (D r) (D 50) then ["Poor credit history"] else [])
                  ++ (if Decimal.gtb (D l) (D 50) then ["Low cash flow coverage"] else [])
                  ++ (if Decimal.gtb (D b) (D 50)
                      then ["Concerning transaction patterns"] else []) |}.
Proof.
  destruct (collateral_risk_cases req) as (c & Hc & Ic).
  destruct (credit_risk_cases req) as (r & Hr & Ir).
  destruct (liquidity_risk_cases req) as (l & Hl & Il).
  destruct (behavioral_risk_cases req) as (b & Hb & Ib).
  exists c, r, l, b.
  pose proof (all4_In _ _ _ _ _ c r l b all_risks_agree Ic Ir Il Ib) as H.
  cbv beta in H.
  apply andb_prop in H. destruct H as [H Hhi].
  apply andb_prop in H. destruct H as [H Hlo].
  apply is_dec_eq in H. apply Z.leb_le in Hlo, Hhi.
  repeat (split; [assumption|]). split; [lia|].
  unfold perform_risk_assessment. cbv zeta. rewrite Hc, Hr, Hl, Hb.
  unfold quantize. rewrite H. unfold obind. rewrite level_of_Dlit2. reflexivity.
Qed.

Lemma outcome_of_status (score : dec) :
  (outcome_of score).1.1.1 = status_of_level (level_of score).
Proof.
  unfold outcome_of, level_of.
  repeat (destruct (Decimal.leb score _)); reflexivity.
Qed.

Lemma assessed_decision_status id req now a terms :
  status (assessed_decision id req now a terms)
  = (outcome_of (overall_risk_score a)).1.1.1.
Proof.
  unfold assessed_decision.
  destruct (outcome_of (overall_risk_score a)) as [[[st reason] conds] conf].
  reflexivity.
Qed.

Lemma div_half_even_between (c p lo hi : Z) :
  0 < p -> lo * p <= c -> c <= hi * p ->
  lo <= Decimal.div_half_even c p <= hi.
Proof.
  intros Hp Hlo Hhi. unfold Decimal.div_half_even.
  pose proof (Z.div_mod c p ltac:(lia)) as Hdm.
  pose proof (Z.mod_pos_bound c p Hp) as Hm.
  assert (Hq : lo <= c / p) by (apply Z.div_le_lower_bound; lia).
  assert (Hq' : c / p <= hi) by (apply Z.div_le_upper_bound; nia).
  destruct (Z.ltb_spec (2 * (c mod p)) p); [lia|].
  assert (c / p < hi) by nia.
  destruct (p <? 2 * (c mod p)); [lia|].
  destruct (Z.even (c / p)); lia.
Qed.

Lemma clamp_bounds (x : dec) :
  Decimal.leb (Dlit 50 1) (Decimal.min (Decimal.max x (Dlit 50 1)) (Dlit 180 1)) = true
  /\ Decimal.leb (Decimal.min (Decimal.max x (Dlit 50 1)) (Dlit 180 1)) (Dlit 180 1) = true.
Proof.
  assert (Hmax : Decimal.leb (Dlit 50 1) (Decimal.max x (Dlit 50 1)) = true).
  { unfold Decimal.max. destruct (Decimal.ltb x (Dlit 50 1)) eqn:Hx.
    - apply leb_refl.
    - rewrite leb_negb_ltb, Hx. reflexivity. }
  unfold Decimal.min.
  destruct (Decimal.ltb (Dlit 180 1) (Decimal.max x (Dlit 50 1))) eqn:Hy.
  - split; [reflexivity|apply leb_refl].
  - split; [exact Hmax|]. rewrite leb_negb_ltb, Hy. reflexivity.
Qed.

Lemma quantize_within (y q : dec) :
  Decimal.leb (Dlit 50 1) y = true -> Decimal.leb y (Dlit 180 1) = true ->
  Decimal.quantize (-2) y = Some q ->
  Decimal.expo q = -2 /\ 500 <= Decimal.coef q <= 1800.
Proof.
  destruct y as [c e]. intros Hlo Hhi. unfold Decimal.quantize.
  cbn [Decimal.coef Decimal.expo].
  destruct (Z.leb_spec (-2) e) as [He|He].
  - rewrite (leb_scaled _ _ (-2)) in Hlo by (cbn; lia).
    rewrite (leb_scaled _ _ (-2)) in Hhi by (cbn; lia).
    cbn [Dlit Decimal.coef Decimal.expo] in Hlo, Hhi.
    change (- (1) - -2) with 1 in Hlo, Hhi. change (10 ^ 1) with 10 in Hlo, Hhi.
    destruct (_ || _); [|discriminate]. intros [= <-].
    cbn [Decimal.coef Decimal.expo]. lia.
  - rewrite (leb_scaled _ _ e) in Hlo by (cbn; lia).
    rewrite (leb_scaled _ _ e) in Hhi by (cbn; lia).
    cbn [Dlit Decimal.coef Decimal.expo] in Hlo, Hhi.
    rewrite Z.sub_diag in Hlo, Hhi. change (10 ^ 0) with 1 in Hlo, Hhi.
    replace (- (1) - e) with (Z.succ (-2 - e)) in Hlo, Hhi by lia.
    rewrite Z.pow_succ_r in Hlo, Hhi by lia.
    assert (Hp : 0 < 10 ^ (-2 - e)) by (apply pow10_pos; lia).
    destruct (_ || _); [|discriminate]. intros [= <-].
    cbn [Decimal.coef Decimal.expo]. split; [reflexivity|].
    apply div_half_even_between; [exact Hp|lia|lia].
Qed.

Lemma calculate_loan_terms_result self req a :
  match calculate_loan_terms self req a with
  | Ret terms =>
      Decimal.expo (interest_rate terms) = -2
      /\ 500 <= Decimal.coef (interest_rate terms) <= 1800
      /\ Decimal.expo (loan_amount terms) = -2
      /\ Decimal.expo (ltv_ratio terms) = -2
      /\ Decimal.expo (monthly_payment terms) = -2
      /\ Decimal.expo (total_interest terms) = -2
      /\ repayment_period_days terms = 180
      /\ liquidation_threshold terms = Dlit 10 1
      /\ terms_collateral_required terms = collateral_amount req
  | Raise e => e = InvalidOperation
  end.
Proof.
  assert (Hexp : forall x q, Decimal.quantize (-2) x = Some q -> Decimal.expo q = -2).
  { intros x q. unfold Decimal.quantize. destruct (_ || _); [|discriminate].
    intros [= <-]. reflexivity. }
  unfold calculate_loan_terms.
  destruct (risk_level a); cbv zeta; cbv iota; cbv beta; unfold quantize, obind;
  (destruct (Decimal.quantize (-2) (Decimal.min (borrow_amount_usd req) _)) eqn:H1;
    [|reflexivity]);
  (destruct (Decimal.quantize (-2) (Decimal.min (Decimal.max _ _) _)) eqn:H2;
    [|reflexivity]);
  (match goal with
   | |- context [match Decimal.quantize (-2) ?x with _ => _ end] =>
       destruct (Decimal.quantize (-2) x) eqn:H3; [|reflexivity]
   end);
  (match goal with
   | |- context [match Decimal.quantize (-2) ?x with _ => _ end] =>
       destruct (Decimal.quantize (-2) x) eqn:H4; [|reflexivity]
   end);
  (match goal with
   | |- context [match Decimal.quantize (-2) ?x with _ => _ end] =>
       destruct (Decimal.quantize (-2) x) eqn:H5; [|reflexivity]
   end);
  cbn [interest_rate loan_amount ltv_ratio monthly_payment total_interest
       repayment_period_days liquidation_threshold terms_collateral_required];
  (match type of H2 with
   | Decimal.quantize _ (Decimal.min (Decimal.max ?x _) _) = _ =>
       destruct (clamp_bounds x) as [Hlo Hhi];
       destruct (quantize_within _ _ Hlo Hhi H2) as [He Hc]
   end);
  repeat split; eauto; lia.
Qed.


Lemma count_status_app st l d :
  count_status st (l ++ [d])
  = (count_status st l + (if decide (status d = st) then 1 else 0))%nat.
Proof.
  unfold count_status. rewrite filter_app, length_app. f_equal.
  rewrite filter_cons, filter_nil. destruct (decide (status d = st)); reflexivity.
Qed.

Lemma count_status_total l :
  (count_status APPROVED l + count_status CONDITIONAL_APPROVAL l
   + count_status DENIED l + count_status PENDING_REVIEW l = length l)%nat.
Proof.
  induction l as [|d l IH]; [reflexivity|].
  unfold count_status in *. rewrite !filter_cons.
  destruct (status d); repeat case_decide; try congruence; cbn [length]; lia.
Qed.

(** X12.  Whenever [perform_risk_assessment] returns an assessment, its
    four risk scores are among a few whole numbers (the cap of 100 on the
    behavioural risk is never reached: the largest sum is 75), and the
    overall risk is their weighted sum, exact to two places, between 5.25
    and 89.00; the risk level is read off it at 15, 30, 50 and 75. *)
Theorem risk_assessment_is_bounded req a :
  perform_risk_assessment req = Ret a ->
  exists n c r l b,
    overall_risk_score a = Dlit n 2
    /\ 525 <= n <= 8900
    /\ risk_level a = level_of_number n
    /\ collateral_risk a = D c /\ credit_risk a = D r
    /\ liquidity_risk a = D l /\ behavioral_risk a = D b
    /\ In c collateral_risk_values /\ In r credit_risk_values
    /\ In l liquidity_risk_values /\ In b behavioral_risk_values
    /\ n = weighted_number c r l b.
Proof.
  destruct (perform_risk_assessment_value req)
    as (c & r & l & b & Ic & Ir & Il & Ib & Hn & Heq).
  rewrite Heq. intros [= <-].
  exists (weighted_number c r l b), c, r, l, b.
  cbn [overall_risk_score risk_level collateral_risk credit_risk liquidity_risk
       behavioral_risk].
  repeat split; first [assumption | apply Hn].
Qed.

(** X13.  A decision made after the risk assessment has the status of its
    risk level: approved for minimal and low risk, conditionally approved
    for moderate risk, pending review for high risk and denied for very
    high risk; its overall risk lies between 5.25 and 89.00.  A request
    refused for its amount is denied with a minimal risk level. *)
Theorem status_follows_risk_level self req now d :
  (make_decision self req now).1 = Ret d ->
  (check_fired self req = false ->
   status d = status_of_level (risk_level (risk_assessment d))
   /\ exists n, overall_risk_score (risk_assessment d) = Dlit n 2
                /\ 525 <= n <= 8900
                /\ risk_level (risk_assessment d) = level_of_number n)
  /\ (Decimal.ltb (credit_score req) (min_credit_score self) = false ->
      (transaction_count req <? min_transactions self) = false ->
      Decimal.gtb (borrow_amount_usd req) (max_loan_amount_usd self)
      || Decimal.ltb (borrow_amount_usd req) (min_loan_amount_usd self) = true ->
      status d = DENIED /\ risk_level (risk_assessment d) = MINIMAL
      /\ overall_risk_score (risk_assessment d) = D 0).
Proof.
  intros Hd. split.
  - intros Hc. rewrite (make_decision_assessed_form self req now Hc) in Hd.
    destruct (perform_risk_assessment_value req)
      as (c & r & l & b & _ & _ & _ & _ & Hn & Heq).
    rewrite Heq in Hd.
    destruct (calculate_loan_terms self req _) as [terms|e]; [|discriminate Hd].
    cbv zeta in Hd. cbn [fst] in Hd. injection Hd as <-.
    rewrite assessed_decision_status, outcome_of_status.
    assert (Ha : forall id a, risk_assessment (assessed_decision id req now a terms) = a).
    { intros id a. unfold assessed_decision.
      destruct (outcome_of (overall_risk_score a)) as [[[st reason] conds] conf].
      reflexivity. }
    rewrite Ha. cbn [overall_risk_score risk_level].
    rewrite level_of_Dlit2. split; [reflexivity|].
    exists (weighted_number c r l b). auto.
  - revert Hd. unfold make_decision.
    cbn [min_credit_score min_transactions max_loan_amount_usd min_loan_amount_usd
         set_decision_counter].
    intros Hd H1 H2 H3. rewrite H1, H2 in Hd.
    destruct (Decimal.gtb (borrow_amount_usd req) (max_loan_amount_usd self));
      [|destruct (Decimal.ltb (borrow_amount_usd req) (min_loan_amount_usd self));
        [|discriminate H3]];
      cbn [fst] in Hd; injection Hd as <-; auto.
Qed.

(** X14.  The flags of a returned decision.  Manual review is required
    exactly for [PENDING_REVIEW]; there are conditions (three of them)
    exactly for [CONDITIONAL_APPROVAL]; a reason for the manual review is
    given only when a preliminary check asked for the review, never after
    the risk assessment; and a decision that is not denied after the
    assessment carries its approval reason as denial reason. *)
Theorem decision_flags self req now d :
  (make_decision self req now).1 = Ret d ->
  (manual_review_required d = true <-> status d = PENDING_REVIEW)
  /\ (conditions d <> [] <-> status d = CONDITIONAL_APPROVAL)
  /\ (status d = CONDITIONAL_APPROVAL -> length (conditions d) = 3%nat)
  /\ (is_Some (manual_review_reason d)
      <-> status d = PENDING_REVIEW /\ check_fired self req = true)
  /\ (check_fired self req = false -> status d <> DENIED ->
      denial_reason d = Some (Text (approval_reason d)))
  /\ (status d = DENIED ->
      exists reason, denial_reason d = Some reason /\ forall s, reason <> Text s)
  /\ (approval_reason d <> "" <->
      status d = APPROVED \/ status d = CONDITIONAL_APPROVAL).
Proof.
  intros Hd. destruct (check_fired self req) eqn:Hc.
  - revert Hd Hc. unfold make_decision, check_fired.
    cbn [min_credit_score min_transactions max_loan_amount_usd min_loan_amount_usd
         set_decision_counter].
    destruct (Decimal.ltb (credit_score req) (min_credit_score self));
      [|destruct (transaction_count req <? min_transactions self);
        [|destruct (Decimal.gtb (borrow_amount_usd req) (max_loan_amount_usd self));
          [|destruct (Decimal.ltb (borrow_amount_usd req) (min_loan_amount_usd self));
            [|discriminate 2]]]];
      cbn [fst]; intros [= <-] _; cbn;
      (repeat split); solve_flag.
  - rewrite (make_decision_assessed_form self req now Hc) in Hd.
    destruct (perform_risk_assessment req) as [a|e]; [|discriminate Hd].
    destruct (calculate_loan_terms self req a) as [terms|e]; [|discriminate Hd].
    cbv zeta in Hd. cbn [fst] in Hd. injection Hd as <-.
    unfold assessed_decision, outcome_of.
    repeat (destruct (Decimal.leb (overall_risk_score a) _)); cbn;
      (repeat split); solve_flag.
Qed.

Lemma decision_log_counter_aux self req now :
  match (make_decision self req now).1 with
  | Ret d =>
      decision_id d = "DECISION_" +:+ pretty (S (decision_counter self))
      /\ dec_request_id d = request_id req
      /\ dec_wallet_address d = wallet_address req
      /\ decision_timestamp d = now
      /\ decisions (make_decision self req now).2
         = if check_fired self req then decisions self else decisions self ++ [d]
  | Raise e =>
      e = InvalidOperation /\ check_fired self req = false
      /\ decisions (make_decision self req now).2 = decisions self
  end
  /\ decision_counter (make_decision self req now).2 = S (decision_counter self).
Proof.
  apply and_comm.
  destruct (check_fired self req) eqn:Hc.
  - revert Hc. unfold make_decision, check_fired.
    cbn [min_credit_score min_transactions max_loan_amount_usd min_loan_amount_usd
         set_decision_counter decision_counter].
    destruct (Decimal.ltb (credit_score req) (min_credit_score self));
      [|destruct (transaction_count req <? min_transactions self);
        [|destruct (Decimal.gtb (borrow_amount_usd req) (max_loan_amount_usd self));
          [|destruct (Decimal.ltb (borrow_amount_usd req) (min_loan_amount_usd self));
            [|discriminate 1]]]];
      intros _; cbn; auto 10.
  - rewrite (make_decision_assessed_form self req now Hc).
    destruct (perform_risk_assessment_value req)
      as (c & r & l & b & _ & _ & _ & _ & _ & Heq).
    rewrite Heq.
    pose proof (calculate_loan_terms_result self req
      {| collateral_risk := D c; credit_risk := D r; liquidity_risk := D l;
         behavioral_risk := D b;
         overall_risk_score := Dlit (weighted_number c r l b) 2;
         risk_level := level_of_number (weighted_number c r l b);
         key_risk_factors :=
           (if Decimal.gtb (D c) (D 50) then ["High collateral risk"] else [])
           ++ (if Decimal.gtb (D r) (D 50) then ["Poor credit history"] else [])
           ++ (if Decimal.gtb (D l) (D 50) then ["Low cash flow coverage"] else [])
           ++ (if Decimal.gtb (D b) (D 50)
               then ["Concerning transaction patterns"] else []) |}) as Ht.
    destruct (calculate_loan_terms self req _) as [terms|e].
    + cbv zeta. cbn [fst snd set_decisions set_decision_counter decision_counter decisions].
      split; [reflexivity|].
      unfold assessed_decision.
      destruct (outcome_of _) as [[[st reason] conds] conf]. cbn. auto.
    + cbn. auto.
Qed.

(** X15.  Every call of [make_decision] takes the next decision number,
    also when it raises; the returned decision has the identifier of that
    number, the identifier and the wallet of the request and the time of
    the call.  The decision is appended to the log exactly when no
    preliminary check refused the request; when the call raises, nothing
    is logged. *)
Theorem decision_log_and_counter self req now :
  decision_counter (make_decision self req now).2 = S (decision_counter self)
  /\ match (make_decision self req now).1 with
     | Ret d =>
         decision_id d = "DECISION_" +:+ pretty (S (decision_counter self))
         /\ dec_request_id d = request_id req
         /\ dec_wallet_address d = wallet_address req
         /\ decision_timestamp d = now
         /\ decisions (make_decision self req now).2
            = if check_fired self req then decisions self else decisions self ++ [d]
     | Raise e => decisions (make_decision self req now).2 = decisions self
     end.
Proof.
  destruct (decision_log_counter_aux self req now) as [H1 H2]. split; [assumption|].
  destruct (make_decision self req now).1 as [d|e]; [assumption|].
  destruct H1 as (_ & _ & H1). assumption.
Qed.

(** X16.  The interest rate of the proposed terms is a number with two
    places between 5.00 and 18.00, whatever the request and the
    assessment; the four other amounts have two places, the repayment
    period is 180 days and the required collateral is the collateral of
    the request. *)
Theorem proposed_rate_is_clamped self req a terms :
  calculate_loan_terms self req a = Ret terms ->
  (exists n, interest_rate terms = Dlit n 2 /\ 500 <= n <= 1800)
  /\ Decimal.expo (loan_amount terms) = -2
  /\ Decimal.expo (ltv_ratio terms) = -2
  /\ Decimal.expo (monthly_payment terms) = -2
  /\ Decimal.expo (total_interest terms) = -2
  /\ repayment_period_days terms = 180
  /\ terms_collateral_required terms = collateral_amount req.
Proof.
  intros H. pose proof (calculate_loan_terms_result self req a) as Ht.
  rewrite H in Ht.
  destruct Ht as (He & Hc & H1 & H2 & H3 & H4 & H5 & _ & H7).
  split; [|auto 10].
  exists (Decimal.coef (interest_rate terms)). split; [|exact Hc].
  destruct (interest_rate terms) as [c e]. cbn [Decimal.expo] in He. subst e.
  reflexivity.
Qed.

(** X17.  The four counts of [get_decision_stats] add up to the total.  A
    decision made by a preliminary check changes none of them; a decision
    made after the assessment adds one to the total and one to the count of
    its status. *)
Theorem decision_stats_of_a_call self req now :
  (stats_approved (get_decision_stats self)
   + stats_conditional_approval (get_decision_stats self)
   + stats_denied (get_decision_stats self)
   + stats_pending_review (get_decision_stats self)
   = stats_total_decisions (get_decision_stats self))%nat
  /\ (check_fired self req = true ->
      get_decision_stats (make_decision self req now).2 = get_decision_stats self)
  /\ (check_fired self req = false ->
      forall d, (make_decision self req now).1 = Ret d ->
      stats_total_decisions (get_decision_stats (make_decision self req now).2)
      = S (stats_total_decisions (get_decision_stats self))
      /\ forall st,
           count_status st (decisions (make_decision self req now).2)
           = (count_status st (decisions self)
              + (if decide (status d = st) then 1 else 0))%nat).
Proof.
  split; [apply count_status_total|].
  split.
  - intros Hc. destruct (make_decision_preliminary self req now Hc) as (d & Heq & _).
    rewrite Heq. reflexivity.
  - intros Hc d Hd.
    pose proof (decision_log_counter_aux self req now) as Hl.
    rewrite Hd, Hc in Hl. destruct Hl as [(_ & _ & _ & _ & Hl) _].
    unfold get_decision_stats. cbn [stats_total_decisions]. rewrite Hl.
    split.
    + rewrite length_app. cbn. lia.
    + intros st. apply count_status_app.
Qed.

Lemma perform_risk_assessment_of req c r l b :
  assess_collateral_risk req = D c -> assess_credit_risk req = D r ->
  assess_liquidity_risk req = D l -> assess_behavioral_risk req = D b ->
  In c collateral_risk_values -> In r credit_risk_values ->
  In l liquidity_risk_values -> In b behavioral_risk_values ->
  525 <= weighted_number c r l b <= 8900
  /\ exists factors,
       perform_risk_assessment req
       = Ret {| collateral_risk := D c; credit_risk := D r; liquidity_risk := D l;
                behavioral_risk := D b;
                overall_risk_score := Dlit (weighted_number c r l b) 2;
                risk_level := level_of_number (weighted_number c r l b);
                key_risk_factors := factors |}.
Proof.
  intros Hc Hr Hl Hb Ic Ir Il Ib.
  pose proof (all4_In _ _ _ _ _ c r l b all_risks_agree Ic Ir Il Ib) as H.
  cbv beta in H.
  apply andb_prop in H. destruct H as [H Hhi].
  apply andb_prop in H. destruct H as [H Hlo].
  apply is_dec_eq in H. apply Z.leb_le in Hlo, Hhi.
  split; [lia|]. eexists.
  unfold perform_risk_assessment. cbv zeta. rewrite Hc, Hr, Hl, Hb.
  unfold quantize. rewrite H. unfold obind. rewrite level_of_Dlit2. reflexivity.
Qed.

Lemma credit_risk_antitone req req' r r' :
  assess_credit_risk req = D r -> assess_credit_risk req' = D r' ->
  Decimal.leb (credit_score req) (credit_score req') = true ->
  r' <= r.
Proof.
  intros Hr Hr' Hle. revert Hr Hr'.
  assert (T : forall k, Decimal.leb (D k) (credit_score req) = true ->
                        Decimal.leb (D k) (credit_score req') = true)
    by (intros k H; exact (leb_trans _ _ _ H Hle)).
  unfold assess_credit_risk. cbv zeta. unfold Decimal.geb.
  destruct (Decimal.leb (D 750) (credit_score req)) eqn:E1.
  { rewrite (T _ E1). intros [= <-] [= <-]. lia. }
  destruct (Decimal.leb (D 650) (credit_score req)) eqn:E2.
  { rewrite (T _ E2). destruct (Decimal.leb (D 750) (credit_score req'));
      intros [= <-] [= <-]; lia. }
  destruct (Decimal.leb (D 550) (credit_score req)) eqn:E3.
  { rewrite (T _ E3).
    destruct (Decimal.leb (D 750) (credit_score req'));
      [|destruct (Decimal.leb (D 650) (credit_score req'))];
      intros [= <-] [= <-]; lia. }
  destruct (Decimal.leb (D 450) (credit_score req)) eqn:E4.
  { rewrite (T _ E4).
    destruct (Decimal.leb (D 750) (credit_score req'));
      [|destruct (Decimal.leb (D 650) (credit_score req'));
        [|destruct (Decimal.leb (D 550) (credit_score req'))]];
      intros [= <-] [= <-]; lia. }
  destruct (Decimal.leb (D 750) (credit_score req'));
    [|destruct (Decimal.leb (D 650) (credit_score req'));
      [|destruct (Decimal.leb (D 550) (credit_score req'));
        [|destruct (Decimal.leb (D 450) (credit_score req'))]]];
    intros [= <-] [= <-]; lia.
Qed.

Lemma level_of_number_ends n :
  (level_of_number n = MINIMAL <-> n <= 1500)
  /\ (level_of_number n = VERY_HIGH <-> 7500 < n).
Proof.
  unfold level_of_number.
  destruct (Z.leb_spec n 1500); [repeat split; intros; try lia; discriminate|].
  destruct (Z.leb_spec n 3000); [repeat split; intros; try lia; discriminate|].
  destruct (Z.leb_spec n 5000); [repeat split; intros; try lia; discriminate|].
  destruct (Z.leb_spec n 7500); repeat split; intros; try lia; discriminate.
Qed.

Lemma level_of_number_mono n n' :
  n <= n' ->
  (level_of_number n' = MINIMAL -> level_of_number n = MINIMAL)
  /\ (level_of_number n = VERY_HIGH -> level_of_number n' = VERY_HIGH).
Proof.
  intros H.
  destruct (level_of_number_ends n) as [Hmin Hmax].
  destruct (level_of_number_ends n') as [Hmin' Hmax'].
  split; intros E.
  - apply Hmin. apply Hmin' in E. lia.
  - apply Hmax'. apply Hmax in E. lia.
Qed.

(** X24.  A better credit score never worsens the assessment: for the same
    request with a credit score that is no lower, the collateral, liquidity
    and behavioural risks are the same and the overall risk is no higher;
    if the risk level was minimal it stays minimal, and if it is very high
    now it was very high before. *)
Theorem risk_falls_with_the_credit_score req score :
  Decimal.leb (credit_score req) score = true ->
  exists a1 a2 n1 n2,
    perform_risk_assessment req = Ret a1
    /\ perform_risk_assessment (with_credit_score req score) = Ret a2
    /\ overall_risk_score a1 = Dlit n1 2
    /\ overall_risk_score a2 = Dlit n2 2
    /\ n2 <= n1
    /\ collateral_risk a2 = collateral_risk a1
    /\ liquidity_risk a2 = liquidity_risk a1
    /\ behavioral_risk a2 = behavioral_risk a1
    /\ (risk_level a1 = MINIMAL -> risk_level a2 = MINIMAL)
    /\ (risk_level a2 = VERY_HIGH -> risk_level a1 = VERY_HIGH).
Proof.
  intros Hle.
  destruct (collateral_risk_cases req) as (c & Hc & Ic).
  destruct (credit_risk_cases req) as (r & Hr & Ir).
  destruct (liquidity_risk_cases req) as (l & Hl & Il).
  destruct (behavioral_risk_cases req) as (b & Hb & Ib).
  destruct (credit_risk_cases (with_credit_score req score)) as (r' & Hr' & Ir').
  assert (Hrr : r' <= r).
  { apply (credit_risk_antitone req (with_credit_score req score) r r' Hr Hr').
    exact Hle. }
  destruct (perform_risk_assessment_of req c r l b Hc Hr Hl Hb Ic Ir Il Ib)
    as (_ & f1 & H1).
  destruct (perform_risk_assessment_of (with_credit_score req score) c r' l b
              Hc Hr' Hl Hb Ic Ir' Il Ib) as (_ & f2 & H2).
  assert (Hw : weighted_number c r' l b <= weighted_number c r l b)
    by (unfold weighted_number; lia).
  destruct (level_of_number_mono _ _ Hw) as [Hmin Hmax].
  eexists _, _, (weighted_number c r l b), (weighted_number c r' l b).
  split; [exact H1|]. split; [exact H2|].
  cbn [overall_risk_score collateral_risk liquidity_risk behavioral_risk risk_level].
  repeat split; auto.
Qed.

End DecisionExtras.

(** * The records of the scorecard *)

Section ScorecardExtras.
Import Scorecard.

Lemma parse_transaction_type_Some kind :
  is_Some (parse_transaction_type kind)
  <-> kind = "inflow" \/ kind = "outflow" \/ kind = "internal".
Proof.
  unfold parse_transaction_type.
  destruct (String.eqb_spec kind "inflow") as [->|H1]; [split; eauto|].
  destruct (String.eqb_spec kind "outflow") as [->|H2]; [split; eauto|].
  destruct (String.eqb_spec kind "internal") as [->|H3]; [split; eauto|].
  split; [intros [x Hx]; discriminate Hx|intros [H|[H|H]]; congruence].
Qed.

(** X18.  [add_transaction] returns [True] exactly when the wallet is
    registered and the type is one of inflow, outflow and internal.  When
    it returns [False] the analyzer is as it was; when it returns [True]
    the transaction is appended to the transactions of that wallet, whose
    balance and creation date stay, and no other wallet is changed. *)
Theorem add_transaction_effect self a hash time value kind party descr ok :
  ((add_transaction self a hash time value kind party descr ok).1 = true
   <-> is_Some (wallets self !! a)
       /\ (kind = "inflow" \/ kind = "outflow" \/ kind = "internal"))
  /\ ((add_transaction self a hash time value kind party descr ok).1 = false ->
      (add_transaction self a hash time value kind party descr ok).2 = self)
  /\ ((add_transaction self a hash time value kind party descr ok).1 = true ->
      exists w ty,
        wallets self !! a = Some w
        /\ parse_transaction_type kind = Some ty
        /\ wallets (add_transaction self a hash time value kind party descr ok).2 !! a
           = Some {| address := address w; wallet_balance := wallet_balance w;
                     transactions :=
                       transactions w
                       ++ [{| tx_hash := hash; timestamp := time; amount := value;
                              transaction_type := ty; counterparty := party;
                              description := descr; is_successful := ok |}];
                     created_at := created_at w |}
        /\ (forall a', a' <> a ->
            wallets (add_transaction self a hash time value kind party descr ok).2 !! a'
            = wallets self !! a')
        /\ _current_wallet (add_transaction self a hash time value kind party descr ok).2
           = _current_wallet self).
Proof.
  pose proof (parse_transaction_type_Some kind) as Hk.
  unfold add_transaction.
  destruct (wallets self !! a) as [w|] eqn:Hw.
  - destruct (parse_transaction_type kind) as [ty|] eqn:Hty; cbn [fst snd].
    + split; [split; [intros _; split; [eauto|apply Hk; eauto]|reflexivity]|].
      split; [discriminate|]. intros _. exists w, ty.
      split; [reflexivity|]. split; [reflexivity|]. cbn [wallets set_wallets].
      split; [apply lookup_insert_eq|].
      split; [intros a' Ha; apply lookup_insert_ne; congruence|reflexivity].
    + split; [split; [discriminate|]|].
      * intros [_ H]. apply Hk in H. destruct H as [x Hx]. discriminate Hx.
      * split; [reflexivity|discriminate].
  - cbn [fst snd]. split; [split; [discriminate|]|].
    + intros [[x Hx] _]. discriminate Hx.
    + split; [reflexivity|discriminate].
Qed.

Lemma div_half_even_mono (n n' d : Z) :
  0 < d -> n <= n' -> Decimal.div_half_even n d <= Decimal.div_half_even n' d.
Proof.
  intros Hd Hn. unfold Decimal.div_half_even.
  pose proof (Z.div_mod n d ltac:(lia)) as E.
  pose proof (Z.div_mod n' d ltac:(lia)) as E'.
  pose proof (Z.mod_pos_bound n d Hd) as B.
  pose proof (Z.mod_pos_bound n' d Hd) as B'.
  assert (Hq : n / d <= n' / d) by (apply Z.div_le_mono; lia).
  destruct (Z.eq_dec (n / d) (n' / d)) as [Heq|Hne].
  - rewrite <- Heq in *. assert (n mod d <= n' mod d) by lia.
    destruct (Z.ltb_spec (2 * (n mod d)) d); destruct (Z.ltb_spec (2 * (n' mod d)) d);
      destruct (Z.ltb_spec d (2 * (n mod d))); destruct (Z.ltb_spec d (2 * (n' mod d)));
      destruct (Z.even (n / d)); lia.
  - assert (n / d + 1 <= n' / d) by lia.
    destruct (2 * (n mod d) <? d); destruct (2 * (n' mod d) <? d);
      destruct (d <? 2 * (n mod d)); destruct (d <? 2 * (n' mod d));
      destruct (Z.even (n / d)); destruct (Z.even (n' / d)); lia.
Qed.

Lemma score_number_mono s s' : s <= s' -> score_number s <= score_number s'.
Proof. intros H. unfold score_number. apply div_half_even_mono; lia. Qed.

Lemma limit_number_mono s s' : s <= s' -> limit_number s <= limit_number s'.
Proof. intros H. unfold limit_number. apply div_half_even_mono; lia. Qed.

Lemma five_factors_inj v c r b t v' c' r' b' t' :
  [D v; D c; D r; D b; D t] = [D v'; D c'; D r'; D b'; D t'] ->
  v = v' /\ c = c' /\ r = r' /\ b = b' /\ t = t'.
Proof.
  intros H. injection H as Hv Hc Hr Hb Ht.
  repeat split; first [assumption | apply of_Z_inj; assumption].
Qed.

(** X19.  The score grows with the factors: of two registered wallets, the
    one whose five factors add up to no more has a credit score and a
    borrow limit that are no larger; if it is rated Excellent so is the
    other, and if the other is rated Poor so is it. *)
Theorem score_grows_with_the_factors self1 self2 a1 a2 now1 now2 w1 w2
    v1 c1 r1 b1 t1 v2 c2 r2 b2 t2 :
  wallets self1 !! a1 = Some w1 ->
  wallets self2 !! a2 = Some w2 ->
  five_factors w1 = [D v1; D c1; D r1; D b1; D t1] ->
  five_factors w2 = [D v2; D c2; D r2; D b2; D t2] ->
  v1 + c1 + r1 + b1 + t1 <= v2 + c2 + r2 + b2 + t2 ->
  exists p1 p2,
    (generate_credit_score self1 a1 now1).1 = Ret (Some p1)
    /\ (generate_credit_score self2 a2 now2).1 = Ret (Some p2)
    /\ Decimal.leb (credit_score p1) (credit_score p2) = true
    /\ Decimal.leb (borrow_limit_usd p1) (borrow_limit_usd p2) = true
    /\ (credit_rating p1 = EXCELLENT -> credit_rating p2 = EXCELLENT)
    /\ (credit_rating p2 = POOR -> credit_rating p1 = POOR).
Proof.
  intros Hw1 Hw2 H1 H2 Hle.
  destruct (generate_credit_score_report self1 a1 now1 w1 Hw1)
    as (v & c & r & b & t & age & Hfive & _ & _ & _ & _ & _ & Hcall).
  destruct (generate_credit_score_report self2 a2 now2 w2 Hw2)
    as (v' & c' & r' & b' & t' & age' & Hfive' & _ & _ & _ & _ & _ & Hcall').
  rewrite H1 in Hfive. rewrite H2 in Hfive'.
  apply five_factors_inj in Hfive as (<- & <- & <- & <- & <-).
  apply five_factors_inj in Hfive' as (<- & <- & <- & <- & <-).
  eexists _, _. rewrite Hcall, Hcall'. cbn [fst].
  split; [reflexivity|]. split; [reflexivity|].
  cbn [credit_score borrow_limit_usd credit_rating].
  pose proof (score_number_mono _ _ Hle) as Hs.
  pose proof (limit_number_mono _ _ Hs) as Hl.
  destruct (rating_of_number (score_number (v1 + c1 + r1 + b1 + t1)))
    as (He & _ & _ & _ & Hp).
  destruct (rating_of_number (score_number (v2 + c2 + r2 + b2 + t2)))
    as (He' & _ & _ & _ & Hp').
  change Decimal.leb with (fun a b => Decimal.geb b a). cbv beta.
  rewrite !geb_of_Z.
  split; [apply Z.leb_le; exact Hs|]. split; [apply Z.leb_le; exact Hl|].
  split.
  - intros H. apply He'. apply He in H. lia.
  - intros H. apply Hp. apply Hp' in H. lia.
Qed.

(** X20.  A registered wallet without transactions has the credit score 470,
    the rating Fair (not Poor), the borrow limit 553 and the rate
    adjustment 2.0, whatever its balance and its age; its factors are 2, 2,
    2, 5 and 20. *)
Theorem score_of_a_wallet_without_history self a now w :
  wallets self !! a = Some w ->
  transactions w = [] ->
  exists report,
    (generate_credit_score self a now).1 = Ret (Some report)
    /\ credit_score report = D 470
    /\ credit_rating report = FAIR
    /\ borrow_limit_usd report = D 553
    /\ interest_rate_adjustment report = Dlit 20 1
    /\ transaction_volume_score (credibility_factors report) = D 2
    /\ payment_consistency_score (credibility_factors report) = D 2
    /\ inflow_reliability_score (credibility_factors report) = D 2
    /\ balance_stability_score (credibility_factors report) = D 5
    /\ transaction_success_rate_score (credibility_factors report) = D 20
    /\ current_balance (metrics report) = wallet_balance w.
Proof.
  intros Hw Htx.
  destruct (generate_credit_score_report self a now w Hw)
    as (v & c & r & b & t & age & Hfive & _ & _ & _ & _ & _ & Hcall).
  assert (Hf : five_factors w = [D 2; D 2; D 2; D 5; D 20]).
  { destruct w as [ad bal txs cr]. cbn in Htx. subst txs. vm_compute. reflexivity. }
  rewrite Hf in Hfive. symmetry in Hfive.
  apply five_factors_inj in Hfive as (-> & -> & -> & -> & ->).
  eexists. rewrite Hcall. cbn [fst]. split; [reflexivity|].
  cbn [credit_score credit_rating borrow_limit_usd interest_rate_adjustment
       credibility_factors metrics].
  assert (Hm : current_balance (metrics_of w) = wallet_balance w).
  { unfold metrics_of. rewrite Htx. reflexivity. }
  rewrite Hm.
  change (score_number (2 + 2 + 2 + 5 + 20)) with 470.
  repeat split.
Qed.

(** X21.  [add_wallet] on a registered address replaces the record: the
    wallet is scored afterwards as one without transactions (score 470,
    Fair, no transaction counted) with the new balance.  No other wallet is
    changed. *)
Theorem add_wallet_discards_the_history self a balance t now :
  exists report,
    (generate_credit_score (add_wallet self a balance t) a now).1 = Ret (Some report)
    /\ credit_score report = D 470
    /\ credit_rating report = FAIR
    /\ transaction_count (metrics report) = 0
    /\ current_balance (metrics report) = balance
    /\ (forall a', a' <> a -> wallets (add_wallet self a balance t) !! a' = wallets self !! a').
Proof.
  assert (Hw : wallets (add_wallet self a balance t) !! a
               = Some {| address := a; wallet_balance := balance; transactions := [];
                         created_at := t |}).
  { unfold add_wallet. cbn [wallets set_wallets]. apply lookup_insert_eq. }
  destruct (generate_credit_score_report _ a now _ Hw)
    as (v & c & r & b & t' & age & Hfive & _ & _ & _ & _ & _ & Hcall).
  assert (Hf : five_factors {| address := a; wallet_balance := balance;
                               transactions := []; created_at := t |}
               = [D 2; D 2; D 2; D 5; D 20]) by (vm_compute; reflexivity).
  rewrite Hf in Hfive. symmetry in Hfive.
  apply five_factors_inj in Hfive as (-> & -> & -> & -> & ->).
  eexists. rewrite Hcall. cbn [fst]. split; [reflexivity|].
  cbn [credit_score credit_rating metrics].
  change (score_number (2 + 2 + 2 + 5 + 20)) with 470.
  split; [reflexivity|]. split; [vm_compute; reflexivity|].
  split; [reflexivity|]. split; [reflexivity|].
  intros a' Ha. unfold add_wallet. cbn [wallets set_wallets].
  apply lookup_insert_ne. congruence.
Qed.

(** X22.  [generate_credit_score] leaves the wallets as they were, and
    [_current_wallet] names the address when it is registered and is as it
    was otherwise.  For an address that is not registered the call returns
    [None] and the analyzer is as it was.  Whenever the call returns, the
    result is [None] exactly for an address that is not registered, and a
    report carries the address and the metrics of the wallet. *)
Theorem generate_credit_score_and_the_analyzer self a now :
  wallets (generate_credit_score self a now).2 = wallets self
  /\ _current_wallet (generate_credit_score self a now).2
     = match wallets self !! a with Some _ => Some a | None => _current_wallet self end
  /\ (wallets self !! a = None -> generate_credit_score self a now = (Ret None, self))
  /\ (forall r,
        (generate_credit_score self a now).1 = Ret r ->
        (r = None <-> wallets self !! a = None)
        /\ forall report,
             r = Some report ->
             wallet_address report = a
             /\ metrics report = _calculate_wallet_metrics self a).
Proof.
  destruct (wallets self !! a) as [w|] eqn:Hw.
  - destruct (generate_credit_score_report self a now w Hw)
      as (v & c & r & b & t & age & _ & _ & _ & _ & _ & _ & Hcall).
    rewrite Hcall. cbn [fst snd wallets _current_wallet set_current_wallet].
    split; [reflexivity|]. split; [reflexivity|]. split; [discriminate|].
    intros r0 [= <-]. split; [split; discriminate|].
    intros report [= <-]. cbn [wallet_address metrics].
    unfold _calculate_wallet_metrics. rewrite Hw. auto.
  - unfold generate_credit_score. rewrite Hw. cbn [fst snd].
    split; [reflexivity|]. split; [reflexivity|]. split; [reflexivity|].
    intros r0 [= <-]. split; [tauto|discriminate].
Qed.

Lemma filter_length_partition (txs : list Transaction) :
  (length (filter (fun tx => transaction_type tx = INFLOW) txs)
   + length (filter (fun tx => transaction_type tx = OUTFLOW) txs)
   + length (filter (fun tx => transaction_type tx = INTERNAL) txs)
   = length txs)%nat.
Proof.
  induction txs as [|tx txs IH]; [reflexivity|].
  rewrite !filter_cons.
  destruct (transaction_type tx); repeat case_decide; try congruence; cbn [length]; lia.
Qed.

(** X23.  In the metrics of a registered wallet the transaction count is the
    number of stored transactions, and the inflows, the outflows and the
    internal transactions add up to it; the inflow count is the number of
    inflow amounts, and the balance is the balance of the wallet. *)
Theorem metrics_count_the_transactions self a w :
  wallets self !! a = Some w ->
  let m := _calculate_wallet_metrics self a in
  transaction_count m = Z.of_nat (length (transactions w))
  /\ inflow_count m + outflow_count m
     + Z.of_nat (length (filter (fun tx => transaction_type tx = INTERNAL) (transactions w)))
     = transaction_count m
  /\ 0 <= inflow_count m /\ 0 <= outflow_count m
  /\ inflow_count m = Z.of_nat (length (amounts_of INFLOW (transactions w)))
  /\ current_balance m = wallet_balance w.
Proof.
  intros Hw. unfold _calculate_wallet_metrics. rewrite Hw. cbv zeta.
  pose proof (filter_length_partition (transactions w)) as Hp.
  unfold metrics_of. cbv zeta.
  destruct (transactions w) as [|tx txs] eqn:Htx.
  - cbn. repeat split; lia.
  - cbn [transaction_count inflow_count outflow_count current_balance].
    unfold amounts_of. rewrite !length_map.
    repeat split; lia.
Qed.

(** X25.  [_calculate_inflow_reliability_score] reads the inflows of the
    wallet that was scored last, whatever metrics it is given: after
    [generate_credit_score] for a registered wallet it answers from the
    transactions of that wallet.  On an analyzer that has scored no wallet
    it raises [AttributeError] for metrics with two inflows or more. *)
Theorem inflow_reliability_reads_the_scored_wallet self a now :
  (forall w, wallets self !! a = Some w ->
     forall m,
       _calculate_inflow_reliability_score (generate_credit_score self a now).2 m
       = Ret (reliability_score m (amounts_of INFLOW (transactions w))))
  /\ (_current_wallet self = None ->
      forall m, Decimal.eqb (total_inflow m) (D 0) = false ->
                (inflow_count m <? 2) = false ->
                _calculate_inflow_reliability_score self m
                = Raise (AttributeError "_current_wallet"))
  /\ (forall balance t, _current_wallet (add_wallet self a balance t) = _current_wallet self)
  /\ (forall hash time value kind party descr ok,
        _current_wallet (add_transaction self a hash time value kind party descr ok).2
        = _current_wallet self).
Proof.
  split; [|split; [|split]].
  - intros w Hw m.
    destruct (generate_credit_score_report self a now w Hw)
      as (v & c & r & b & t & age & _ & _ & _ & _ & _ & _ & Hcall).
    rewrite Hcall. cbn [snd].
    unfold _calculate_inflow_reliability_score, reliability_score.
    destruct (Decimal.eqb (total_inflow m) (D 0)); [reflexivity|].
    destruct (inflow_count m <? 2); [reflexivity|].
    cbn [_current_wallet wallets set_current_wallet]. rewrite Hw. reflexivity.
  - intros Hnone m H1 H2. unfold _calculate_inflow_reliability_score.
    rewrite H1, H2, Hnone. reflexivity.
  - reflexivity.
  - intros hash time value kind party descr ok. unfold add_transaction.
    destruct (wallets self !! a); [|reflexivity].
    destruct (parse_transaction_type kind); reflexivity.
Qed.

Lemma days_between_mono now now' created :
  now <= now' -> days_between now created <= days_between now' created.
Proof.
  intros H. unfold days_between, microseconds_per_day.
  apply Z.div_le_mono; lia.
Qed.

(** X26.  The account age score of a registered wallet is one of 2, 5, 10,
    15 and 20 and never falls as time passes: a later call gives a score
    that is no lower. *)
Theorem account_age_score_grows self a now now' w :
  wallets self !! a = Some w ->
  now <= now' ->
  exists n n',
    _calculate_account_age_score self a now = Ret (D n)
    /\ _calculate_account_age_score self a now' = Ret (D n')
    /\ n <= n'
    /\ In n age_values /\ In n' age_values.
Proof.
  intros Hw Hle. pose proof (days_between_mono now now' (created_at w) Hle) as Hd.
  unfold _calculate_account_age_score, age_values. rewrite Hw. cbv zeta.
  destruct (Z.leb_spec 365 (days_between now (created_at w)));
    [|destruct (Z.leb_spec 180 (days_between now (created_at w)));
      [|destruct (Z.leb_spec 90 (days_between now (created_at w)));
        [|destruct (Z.leb_spec 30 (days_between now (created_at w)))]]];
  (destruct (Z.leb_spec 365 (days_between now' (created_at w)));
    [|destruct (Z.leb_spec 180 (days_between now' (created_at w)));
      [|destruct (Z.leb_spec 90 (days_between now' (created_at w)));
        [|destruct (Z.leb_spec 30 (days_between now' (created_at w)))]]]);
  try lia;
  eexists _, _; (split; [reflexivity|]); (split; [reflexivity|]);
  cbn [In]; (split; [lia|]); split; tauto.
Qed.

End ScorecardExtras.

(** * The further statements at concrete inputs *)

Section LedgerInstances.
Import Approval Scenario.

Lemma statuses_of_a_run_witness :
  loan_accounts (run no_hash no_isoformat calls) !! "LOAN_1" = Some locked_loan
  /\ (status locked_loan = PENDING \/ status locked_loan = COLLATERAL_LOCKED)
  /\ (status locked_loan = COLLATERAL_LOCKED <-> is_Some (collateral_deposit locked_loan))
  /\ funds_transfer locked_loan = None
  /\ borrowed_amount_received locked_loan = D 0
  /\ loan_id locked_loan = "LOAN_1".
Proof.
  assert (H1 : loan_accounts (run no_hash no_isoformat calls) !! "LOAN_1"
               = Some locked_loan) by (vm_compute; reflexivity).
  exact (conj H1 (statuses_of_a_run no_hash no_isoformat calls "LOAN_1" locked_loan H1)).
Defined.

(** After a call that raised, the one loan has the number 2. *)
Lemma pool_status_of_a_run_witness :
  pool_completed_loans
    (get_pool_status (run no_hash no_isoformat calls_after_overflow)) = 0%nat
  /\ pool_active_loans
       (get_pool_status (run no_hash no_isoformat calls_after_overflow)) = 1%nat
  /\ loan_counter (run no_hash no_isoformat calls_after_overflow) = 2%nat
  /\ is_Some (loan_accounts (run no_hash no_isoformat calls_after_overflow) !! "LOAN_2").
Proof.
  destruct (pool_status_of_a_run no_hash no_isoformat calls_after_overflow)
    as (Hcompleted & Hactive & _).
  split; [exact Hcompleted|]. split; [rewrite Hactive; vm_compute; reflexivity|].
  split; [vm_compute; reflexivity|vm_compute; eauto].
Defined.

Lemma loan_ids_are_fresh_witness :
  is_Some (loan_accounts (run no_hash no_isoformat calls) !! "LOAN_1")
  /\ "LOAN_1" <> "LOAN_" +:+ pretty (S (loan_counter (run no_hash no_isoformat calls)))
  /\ exists loan,
       (create_loan_account (run no_hash no_isoformat calls) "Other"
          (D 100) (D 5) (D 1000) (D 1) (D 60) 30 0 0).1 = Ret loan
       /\ loan_id loan = "LOAN_2"
       /\ size (loan_accounts
                  (create_loan_account (run no_hash no_isoformat calls) "Other"
                     (D 100) (D 5) (D 1000) (D 1) (D 60) 30 0 0).2)
          = S (size (loan_accounts (run no_hash no_isoformat calls))).
Proof.
  assert (H1 : is_Some (loan_accounts (run no_hash no_isoformat calls) !! "LOAN_1"))
    by (vm_compute; eauto).
  split; [exact H1|].
  destruct (loan_ids_are_fresh no_hash no_isoformat calls "Other"
              (D 100) (D 5) (D 1000) (D 1) (D 60) 30 0 0 "LOAN_1" H1)
    as (Hne & _ & Hret & _).
  split; [exact Hne|].
  destruct (create_loan_account (run no_hash no_isoformat calls) "Other"
              (D 100) (D 5) (D 1000) (D 1) (D 60) 30 0 0).1 as [loan|e] eqn:Hc;
    [|vm_compute in Hc; discriminate Hc].
  exists loan. destruct (Hret loan eq_refl) as (Hid & _ & Hsize).
  split; [reflexivity|]. split; [|exact Hsize].
  rewrite Hid. vm_compute. reflexivity.
Defined.

(** A period given in seconds instead of days, 180 times 86400, leaves the
    range of the dates. *)
Lemma loan_details_after_creation_witness :
  (exists loan,
     (create_loan_account init "Borrower" (D 5000) (D 10) (D 100000) (Dlit 10 2)
        (D 60) 180 0 7).1 = Ret loan)
  /\ get_loan_details
       (create_loan_account init "Borrower" (D 5000) (D 10) (D 100000) (Dlit 10 2)
          (D 60) 180 0 7).2 "LOAN_1"
     = Some {| details_loan_id := "LOAN_1";
               details_status := "pending";
               details_borrower := "Borrower";
               details_loan_amount := D 5000;
               details_interest_rate := D 10;
               details_collateral_amount := D 100000;
               details_collateral_value := Dlit 1000000 2;
               details_ltv_ratio := D 60;
               details_originated := 7;
               details_due_date := timedelta_days 180;
               details_borrowed_received := D 0;
               details_repaid := D 0;
               details_accrued_interest := D 0 |}
  /\ create_loan_account init "Borrower" (D 5000) (D 10) (D 100000) (Dlit 10 2)
       (D 60) 15552000 0 7
     = (Raise OverflowError, set_loan_counter init 1).
Proof.
  pose proof (loan_details_after_creation init "Borrower" (D 5000) (D 10) (D 100000)
                (Dlit 10 2) (D 60) 180 0 7) as [Hret _].
  pose proof (loan_details_after_creation init "Borrower" (D 5000) (D 10) (D 100000)
                (Dlit 10 2) (D 60) 15552000 0 7) as [Hraise _].
  cbv zeta in Hret, Hraise.
  split; [|split].
  - destruct (create_loan_account init "Borrower" (D 5000) (D 10) (D 100000)
                (Dlit 10 2) (D 60) 180 0 7).1 as [loan|e] eqn:Hc;
      [eauto|vm_compute in Hc; discriminate Hc].
  - destruct (create_loan_account init "Borrower" (D 5000) (D 10) (D 100000)
                (Dlit 10 2) (D 60) 180 0 7).1 as [loan|e] eqn:Hc;
      [|vm_compute in Hc; discriminate Hc].
    destruct Hret as (Hid & Hdetails & _). rewrite Hid in Hdetails.
    vm_compute in Hdetails. vm_compute. exact Hdetails.
  - destruct (create_loan_account init "Borrower" (D 5000) (D 10) (D 100000)
                (Dlit 10 2) (D 60) 15552000 0 7) as [[loan|e] s'] eqn:Hc;
      [vm_compute in Hc; discriminate Hc|].
    cbn [fst snd] in Hraise. destruct Hraise as (-> & -> & _). reflexivity.
Defined.

Lemma deposits_are_registered_witness :
  loan_accounts (run no_hash no_isoformat calls) !! "LOAN_1" = Some locked_loan
  /\ collateral_deposit locked_loan = Some 0%nat
  /\ exists d,
       objs (run no_hash no_isoformat calls) !! 0%nat = Some d
       /\ dep_loan_id d = "LOAN_1"
       /\ deposits (escrow_vault (run no_hash no_isoformat calls)) !! deposit_id d
          = Some 0%nat
       /\ (exists k, (k < transaction_counter (run no_hash no_isoformat calls))%nat
                     /\ deposit_id d = "DEPOSIT_" +:+ pretty k).
Proof.
  assert (H1 : loan_accounts (run no_hash no_isoformat calls) !! "LOAN_1"
               = Some locked_loan) by (vm_compute; reflexivity).
  assert (H2 : collateral_deposit locked_loan = Some 0%nat) by reflexivity.
  exact (conj H1 (conj H2 (deposits_are_registered no_hash no_isoformat calls "LOAN_1"
                             locked_loan 0%nat H1 H2))).
Defined.

Lemma repayment_shows_in_the_vault_witness :
  loan_accounts (run no_hash no_isoformat calls) !! "LOAN_1" = Some locked_loan
  /\ collateral_deposit locked_loan = Some 0%nat
  /\ Decimal.geb (D 5500) (total_owed locked_loan one_year) = true
  /\ exists d,
       objs (run no_hash no_isoformat calls) !! 0%nat = Some d
       /\ report_deposits
            (get_escrow_status
               (process_repayment (run no_hash no_isoformat calls) "LOAN_1" (D 5500)
                  "Borrower" one_year).2) !! deposit_id d
          = Some {| entry_loan_id := "LOAN_1"; entry_exen_amount := exen_amount d;
                    entry_value_usd := collateral_value_usd d;
                    entry_status := "released";
                    entry_locked_until := locked_until d |}.
Proof.
  assert (H1 : loan_accounts (run no_hash no_isoformat calls) !! "LOAN_1"
               = Some locked_loan) by (vm_compute; reflexivity).
  assert (H2 : collateral_deposit locked_loan = Some 0%nat) by reflexivity.
  assert (H3 : Decimal.geb (D 5500) (total_owed locked_loan one_year) = true)
    by (vm_compute; reflexivity).
  exact (conj H1 (conj H2 (conj H3
           (repayment_shows_in_the_vault no_hash no_isoformat calls "LOAN_1" locked_loan
              0%nat (D 5500) "Borrower" one_year H1 H2 H3)))).
Defined.

End LedgerInstances.

Section DecisionExtraInstances.
Import Decision Scenario.

Lemma status_follows_risk_level_witness :
  exists d,
    (make_decision init request_excellent 0).1 = Ret d
    /\ check_fired init request_excellent = false
    /\ status d = status_of_level (risk_level (risk_assessment d)).
Proof.
  destruct (make_decision init request_excellent 0).1 as [d|e] eqn:Hd;
    [|vm_compute in Hd; discriminate Hd].
  assert (Hc : check_fired init request_excellent = false) by (vm_compute; reflexivity).
  exists d. split; [reflexivity|]. split; [exact Hc|].
  exact (proj1 (proj1 (status_follows_risk_level init request_excellent 0 d Hd) Hc)).
Defined.

Lemma decision_flags_witness :
  exists d,
    (make_decision init request_excellent 0).1 = Ret d
    /\ (manual_review_required d = true <-> status d = PENDING_REVIEW)
    /\ (conditions d <> [] <-> status d = CONDITIONAL_APPROVAL).
Proof.
  destruct (make_decision init request_excellent 0).1 as [d|e] eqn:Hd;
    [|vm_compute in Hd; discriminate Hd].
  exists d. split; [reflexivity|].
  pose proof (decision_flags init request_excellent 0 d Hd) as H.
  exact (conj (proj1 H) (proj1 (proj2 H))).
Defined.

Lemma proposed_rate_is_clamped_witness :
  exists terms,
    calculate_loan_terms init request_excellent
      (flat_assessment (D 0) (D 0) (D 0) MINIMAL []) = Ret terms
    /\ exists n, interest_rate terms = Dlit n 2 /\ 500 <= n <= 1800.
Proof.
  destruct (calculate_loan_terms init request_excellent
              (flat_assessment (D 0) (D 0) (D 0) MINIMAL [])) as [terms|e] eqn:Ht;
    [|vm_compute in Ht; discriminate Ht].
  exists terms. split; [reflexivity|].
  exact (proj1 (proposed_rate_is_clamped init request_excellent
                  (flat_assessment (D 0) (D 0) (D 0) MINIMAL []) terms Ht)).
Defined.

Lemma risk_falls_with_the_credit_score_witness :
  Decimal.leb (Decision.credit_score (request_with (D 500) 150)) (D 780) = true
  /\ exists a1 a2,
       Decision.perform_risk_assessment (request_with (D 500) 150) = Ret a1
       /\ Decision.perform_risk_assessment
            (with_credit_score (request_with (D 500) 150) (D 780)) = Ret a2
       /\ Decimal.leb (Decision.overall_risk_score a2) (Decision.overall_risk_score a1)
          = true.
Proof.
  assert (H : Decimal.leb (Decision.credit_score (request_with (D 500) 150)) (D 780)
              = true) by (vm_compute; reflexivity).
  split; [exact H|].
  destruct (risk_falls_with_the_credit_score (request_with (D 500) 150) (D 780) H)
    as (a1 & a2 & n1 & n2 & H1 & H2 & E1 & E2 & Hn & _).
  exists a1, a2. split; [exact H1|]. split; [exact H2|].
  rewrite E1, E2. apply (leb_scaled _ _ (-2)); cbn; lia.
Defined.

(** The first request of the demonstration is assessed at 24.25. *)
Lemma risk_assessment_is_bounded_witness :
  exists a n,
    perform_risk_assessment request_excellent = Ret a
    /\ overall_risk_score a = Dlit n 2
    /\ n = 2425
    /\ 525 <= n <= 8900
    /\ risk_level a = level_of_number n.
Proof.
  destruct (perform_risk_assessment request_excellent) as [a|e] eqn:Ha;
    [|vm_compute in Ha; discriminate Ha].
  destruct (risk_assessment_is_bounded request_excellent a Ha)
    as (n & c & r & l & b & Hn & Hrange & Hlevel & _).
  assert (Ho : overall_risk_score a = Dlit 2425 2).
  { pose proof Ha as Ha'. vm_compute in Ha'. injection Ha' as <-. reflexivity. }
  exists a, n. split; [reflexivity|]. split; [exact Hn|].
  split; [rewrite Hn in Ho; injection Ho as ->; reflexivity|]. auto.
Defined.

End DecisionExtraInstances.

Section ScorecardExtraInstances.
Import Scorecard Scenario.

Lemma score_grows_with_the_factors_witness :
  wallets analyzer !! "WalletE" = Some wallet_e
  /\ wallets analyzer !! "WalletA" = Some wallet_a
  /\ five_factors wallet_e = [D 2; D 2; D 2; D 5; D 20]
  /\ five_factors wallet_a = [D 2; D 18; D 18; D 20; D 20]
  /\ exists p1 p2,
       (generate_credit_score analyzer "WalletE" 0).1 = Ret (Some p1)
       /\ (generate_credit_score analyzer "WalletA" 0).1 = Ret (Some p2)
       /\ Decimal.leb (credit_score p1) (credit_score p2) = true
       /\ Decimal.leb (borrow_limit_usd p1) (borrow_limit_usd p2) = true.
Proof.
  assert (H1 : wallets analyzer !! "WalletE" = Some wallet_e) by (vm_compute; reflexivity).
  assert (H2 : wallets analyzer !! "WalletA" = Some wallet_a) by (vm_compute; reflexivity).
  assert (H3 : five_factors wallet_e = [D 2; D 2; D 2; D 5; D 20])
    by (vm_compute; reflexivity).
  assert (H4 : five_factors wallet_a = [D 2; D 18; D 18; D 20; D 20])
    by (vm_compute; reflexivity).
  assert (H5 : 2 + 2 + 2 + 5 + 20 <= 2 + 18 + 18 + 20 + 20) by lia.
  split; [exact H1|]. split; [exact H2|]. split; [exact H3|]. split; [exact H4|].
  destruct (score_grows_with_the_factors analyzer analyzer "WalletE" "WalletA" 0 0
              wallet_e wallet_a 2 2 2 5 20 2 18 18 20 20 H1 H2 H3 H4 H5)
    as (p1 & p2 & G1 & G2 & G3 & G4 & _).
  exists p1, p2. auto.
Defined.

Lemma score_of_a_wallet_without_history_witness :
  wallets analyzer !! "WalletE" = Some wallet_e
  /\ transactions wallet_e = []
  /\ exists report,
       (generate_credit_score analyzer "WalletE" 0).1 = Ret (Some report)
       /\ credit_score report = D 470
       /\ credit_rating report = FAIR.
Proof.
  assert (H1 : wallets analyzer !! "WalletE" = Some wallet_e) by (vm_compute; reflexivity).
  assert (H2 : transactions wallet_e = []) by reflexivity.
  split; [exact H1|]. split; [exact H2|].
  destruct (score_of_a_wallet_without_history analyzer "WalletE" 0 wallet_e H1 H2)
    as (report & G1 & G2 & G3 & _).
  exists report. auto.
Defined.

Lemma metrics_count_the_transactions_witness :
  wallets analyzer !! "WalletA" = Some wallet_a
  /\ transaction_count (_calculate_wallet_metrics analyzer "WalletA")
     = Z.of_nat (length (transactions wallet_a))
  /\ inflow_count (_calculate_wallet_metrics analyzer "WalletA") = 2.
Proof.
  assert (H1 : wallets analyzer !! "WalletA" = Some wallet_a) by (vm_compute; reflexivity).
  split; [exact H1|].
  split; [exact (proj1 (metrics_count_the_transactions analyzer "WalletA" wallet_a H1))|].
  vm_compute. reflexivity.
Defined.

Lemma inflow_reliability_reads_the_scored_wallet_witness :
  Scorecard.wallets analyzer !! "WalletA" = Some wallet_a
  /\ Scorecard._calculate_inflow_reliability_score
       (Scorecard.generate_credit_score analyzer "WalletA" 0).2
       (Scorecard._calculate_wallet_metrics analyzer "WalletB")
     = Ret (reliability_score (Scorecard._calculate_wallet_metrics analyzer "WalletB")
              (Scorecard.amounts_of Scorecard.INFLOW (Scorecard.transactions wallet_a)))
  /\ Scorecard._current_wallet Scorecard.init = None
  /\ Scorecard._calculate_inflow_reliability_score Scorecard.init
       (Scorecard._calculate_wallet_metrics analyzer "WalletB")
     = Raise (AttributeError "_current_wallet").
Proof.
  assert (H1 : Scorecard.wallets analyzer !! "WalletA" = Some wallet_a)
    by (vm_compute; reflexivity).
  assert (H2 : Scorecard._current_wallet Scorecard.init = None) by reflexivity.
  assert (H3 : Decimal.eqb
                 (Scorecard.total_inflow (Scorecard._calculate_wallet_metrics analyzer "WalletB"))
                 (D 0) = false) by (vm_compute; reflexivity).
  assert (H4 : (Scorecard.inflow_count (Scorecard._calculate_wallet_metrics analyzer "WalletB")
                <? 2) = false) by (vm_compute; reflexivity).
  split; [exact H1|].
  split; [exact (proj1 (inflow_reliability_reads_the_scored_wallet analyzer "WalletA" 0)
                   wallet_a H1 _)|].
  split; [exact H2|].
  exact (proj1 (proj2 (inflow_reliability_reads_the_scored_wallet Scorecard.init "WalletA" 0))
           H2 _ H3 H4).
Defined.

Lemma account_age_score_grows_witness :
  Scorecard.wallets analyzer !! "WalletA" = Some wallet_a
  /\ 0 <= timedelta_days 400
  /\ exists n n',
       Scorecard._calculate_account_age_score analyzer "WalletA" 0 = Ret (D n)
       /\ Scorecard._calculate_account_age_score analyzer "WalletA" (timedelta_days 400)
          = Ret (D n')
       /\ n <= n'.
Proof.
  assert (H1 : Scorecard.wallets analyzer !! "WalletA" = Some wallet_a)
    by (vm_compute; reflexivity).
  assert (H2 : 0 <= timedelta_days 400) by (vm_compute; discriminate).
  split; [exact H1|]. split; [exact H2|].
  destruct (account_age_score_grows analyzer "WalletA" 0 (timedelta_days 400) wallet_a
              H1 H2) as (n & n' & G1 & G2 & G3 & _).
  exists n, n'. auto.
Defined.

End ScorecardExtraInstances.
